(** * WOKCommands: persistence, identity derivation and the guild-settings cache

    A shallow embedding of [MongoCooldownRepository] (the cooldown
    repository backed by a document store) and of the persistence-facing part
    of the [WOKCommands] orchestrator (strategy selection in [setUp], the
    guarded repository accessors, [getOrCreateGuildSettings], [setPrefix]),
    followed by the properties of the specification that concern them.

    JavaScript exceptions and rejected promises are results of type
    [Result]; every effectful method is a state transformer that returns a
    [Result] together with the state it leaves behind, so that what a method
    did before it threw stays observable. *)

From stdpp Require Import gmap strings list fin_maps.

Local Open Scope string_scope.
Local Open Scope list_scope.

(* ===================================================================== *)
(** * JavaScript values used by the sources *)
(* ===================================================================== *)

Module Js.

(** [new Error(message)]. *)
Record Error : Type := mkError { message : string }.

(** Outcome of a call: a returned value or a thrown error (for an
    [async] method: a fulfilled or a rejected promise). *)
Inductive Result (A : Type) : Type :=
| Ok (a : A)
| Throw (e : Error).
Arguments Ok {A} a.
Arguments Throw {A} e.

Definition is_ok {A} (r : Result A) : bool :=
  match r with Ok _ => true | Throw _ => false end.

(** A [string | undefined] interpolated in a template literal:
    [`${x}`] prints [undefined] as the text "undefined". *)
Definition interp (x : option string) : string :=
  match x with
  | Some s => s
  | None => "undefined"
  end.

(** Truthiness of a [string | undefined]: [undefined] and the empty
    string are falsy. *)
Definition truthy (x : option string) : bool :=
  match x with
  | Some s => negb (String.eqb s "")
  | None => false
  end.

(** [a || b] on strings. *)
Definition or_else (a b : string) : string :=
  if truthy (Some a) then a else b.

(** [a === b] where [a] may be [undefined] and [b] is a string literal. *)
Definition strict_eq (a : option string) (b : string) : bool :=
  match a with
  | Some s => String.eqb s b
  | None => false
  end.

End Js.
Export Js.

(* ===================================================================== *)
(** * A state and exception monad *)
(* ===================================================================== *)

(** [M S A]: a computation over a state [S] that returns an [A] or throws.
    The state reached when an error is thrown is kept. *)
Definition M (S A : Type) : Type := S → Result A * S.

Definition ret {S A} (a : A) : M S A := λ s, (Ok a, s).

Definition throw {S A} (msg : string) : M S A := λ s, (Throw (mkError msg), s).

Definition bind {S A B} (m : M S A) (k : A → M S B) : M S B :=
  λ s, match m s with
       | (Ok a, s') => k a s'
       | (Throw e, s') => (Throw e, s')
       end.

Definition gets {S A} (f : S → A) : M S A := λ s, (Ok (f s), s).

Definition modify {S} (f : S → S) : M S unit := λ s, (Ok tt, f s).

(** stdpp's monad notations ([x ← m; k] and [m ;; k]) are used for [M]. *)
#[global] Instance M_ret {S} : MRet (M S) := λ A, @ret S A.
#[global] Instance M_bind {S} : MBind (M S) := λ A B k m, @bind S A B m k.

(* ===================================================================== *)
(** * Domain: cooldown entities *)
(* ===================================================================== *)

(** [CooldownEntity], as [MongoCooldownRepository] reads it: the fields
    [commandId], [guildId], [userId], [type], [secondsRemaining].  The
    [type] field is kept as the string the code compares with ['global'] and
    ['per-user'], so that a value outside these two is expressible.
    [secondsRemaining] is only copied into the stored document. *)
Module CooldownEntity.
Record t : Type := mk {
  commandId : string;
  guildId : string;
  userId : option string;
  type : string;
  secondsRemaining : Z;
}.
End CooldownEntity.

(** [Partial<CooldownEntity>]: every field may be missing. *)
Module PartialCooldownEntity.
Record t : Type := mk {
  commandId : option string;
  guildId : option string;
  userId : option string;
  type : option string;
  secondsRemaining : option Z;
}.

(** A full entity passed where a partial one is expected. *)
Definition of_entity (c : CooldownEntity.t) : t :=
  {| commandId := Some (CooldownEntity.commandId c);
     guildId := Some (CooldownEntity.guildId c);
     userId := CooldownEntity.userId c;
     type := Some (CooldownEntity.type c);
     secondsRemaining := Some (CooldownEntity.secondsRemaining c) |}.
End PartialCooldownEntity.

(** [WhereOneInput]: [{ commandId: string; guildId: string; userId?: string }]. *)
Module WhereOneInput.
Record t : Type := mk {
  commandId : string;
  guildId : string;
  userId : option string;
}.

(** A cooldown entity passed as a query: the query type has no [type]
    field, the three fields it has are read from the entity. *)
Definition of_entity (c : CooldownEntity.t) : t :=
  {| commandId := CooldownEntity.commandId c;
     guildId := CooldownEntity.guildId c;
     userId := CooldownEntity.userId c |}.
End WhereOneInput.

(* ===================================================================== *)
(** * The cooldown collection *)
(* ===================================================================== *)

Module CooldownModel.

(** The filter of [deleteOne({ _id, name })]. *)
Record DeleteFilter : Type := mkDeleteFilter {
  df_id : string;
  df_name : string;
}.

(** The filter of [findOneAndUpdate({ _id, name, type }, ...)]. *)
Record UpdateFilter : Type := mkUpdateFilter {
  uf_id : string;
  uf_name : string;
  uf_type : string;
}.

(** The update of [findOneAndUpdate(..., { _id, name, type, cooldown }, ...)]. *)
Record Update : Type := mkUpdate {
  up_id : string;
  up_name : string;
  up_type : string;
  up_cooldown : Z;
}.

(** A call issued to the collection. *)
Inductive Call : Type :=
| DeleteOne (filter : DeleteFilter)
| FindOneAndUpdate (filter : UpdateFilter) (update : Update) (upsert : bool).

(** Modelled from the spec: the stored cooldown document; the model
    [cooldownSchema] (persistence/mongo/models/cooldown) is not among the
    sources.  Spec, persisted layout: a cooldown document is
    [{ _id: <derived identity>, name: commandId, type: scope,
    cooldown: secondsRemaining }].  The [_id] is the key of the
    collection below. *)
Record Doc : Type := mkDoc {
  name : string;
  type : string;
  cooldown : Z;
}.

(** The interface of the collection that the repository calls: the two
    driver operations, each of which may fail, over a store [S]. *)
Class Driver (S : Type) : Type := {
  deleteOne : DeleteFilter → S → Result unit * S;
  findOneAndUpdate : UpdateFilter → Update → bool → S → Result (option Doc) * S;
}.

(** Modelled from the spec: the document store behind [cooldownSchema]
    (not among the sources) holds one document per [_id]; it is a finite map
    from [_id] to document.  The filters match by identity and by the
    discriminator fields: a document matches a filter when it is stored
    under the filter's [_id] and its other fields equal the filter's. *)
Definition matches_delete (f : DeleteFilter) (d : Doc) : bool :=
  String.eqb (name d) (df_name f).

Definition matches_update (f : UpdateFilter) (d : Doc) : bool :=
  String.eqb (name d) (uf_name f) && String.eqb (type d) (uf_type f).

(** The document an update writes, without its key. *)
Definition doc_of_update (u : Update) : Doc :=
  {| name := up_name u; type := up_type u; cooldown := up_cooldown u |}.

(** Modelled from the spec: [deleteOne(filter)] on the document store (not
    among the sources).  Spec: the matching document is removed; deleting a
    key that does not exist is a no-op, not an error. *)
Definition store_deleteOne (f : DeleteFilter) (s : gmap string Doc)
  : Result unit * gmap string Doc :=
  match s !! df_id f with
  | Some d => if matches_delete f d then (Ok tt, delete (df_id f) s) else (Ok tt, s)
  | None => (Ok tt, s)
  end.

(** Modelled from the spec: [findOneAndUpdate(filter, update, { upsert })]
    on the document store (not among the sources).  Spec: an upsert is a
    storage write that creates a record if absent or overwrites it if
    present, keyed by a stable identity; the update writes the full record.
    The result is the document that matched the filter, if any. *)
Definition store_findOneAndUpdate (f : UpdateFilter) (u : Update) (upsert : bool)
    (s : gmap string Doc) : Result (option Doc) * gmap string Doc :=
  match s !! uf_id f with
  | Some d =>
      if matches_update f d then (Ok (Some d), <[uf_id f := doc_of_update u]> s)
      else if upsert then (Ok None, <[up_id u := doc_of_update u]> s)
      else (Ok None, s)
  | None =>
      if upsert then (Ok None, <[up_id u := doc_of_update u]> s)
      else (Ok None, s)
  end.

(** The document store as a collection. *)
#[global] Instance store_driver : Driver (gmap string Doc) := {
  deleteOne := store_deleteOne;
  findOneAndUpdate := store_findOneAndUpdate;
}.

(** The collection as the repository sees it: the store and the calls
    issued to it so far, oldest first. *)
Record Db (S : Type) : Type := mkDb {
  store : S;
  calls : list Call;
}.
Arguments mkDb {S} store calls.
Arguments store {S} d.
Arguments calls {S} d.

(** [await cooldownSchema.deleteOne(filter)]. *)
Definition call_deleteOne {S} `{Driver S} (f : DeleteFilter) : M (Db S) unit :=
  λ db, let '(r, s') := deleteOne f (store db) in
        (r, mkDb s' (calls db ++ [DeleteOne f])).

(** [await cooldownSchema.findOneAndUpdate(filter, update, { upsert })]. *)
Definition call_findOneAndUpdate {S} `{Driver S}
    (f : UpdateFilter) (u : Update) (upsert : bool) : M (Db S) (option Doc) :=
  λ db, let '(r, s') := findOneAndUpdate f u upsert (store db) in
        (r, mkDb s' (calls db ++ [FindOneAndUpdate f u upsert])).

End CooldownModel.

(* ===================================================================== *)
(** * MongoCooldownRepository *)
(* ===================================================================== *)

Module MongoCooldownRepository.
Import CooldownModel.

Definition not_implemented : string := "Method not implemented.".
Definition unrecognized_type : string := "WOK Commands > unrecognized Cooldown type".

(** [private static getIdFromWhereOneInput({ commandId, guildId, userId })]. *)
Definition getIdFromWhereOneInput (input : WhereOneInput.t) : string :=
  let userIdSuffix :=
    if truthy (WhereOneInput.userId input)
    then "-" +:+ interp (WhereOneInput.userId input)
    else "" in
  WhereOneInput.commandId input +:+ "-" +:+ WhereOneInput.guildId input +:+ userIdSuffix.

(** [private static getIdFromEntity(cooldown: Partial<CooldownEntity>)]:
    the identity, or the error thrown for a type that is neither
    ['global'] nor ['per-user']. *)
Definition getIdFromEntity (cooldown : PartialCooldownEntity.t) : Result string :=
  let guildId := PartialCooldownEntity.guildId cooldown in
  let userId := PartialCooldownEntity.userId cooldown in
  let commandId := PartialCooldownEntity.commandId cooldown in
  let type := PartialCooldownEntity.type cooldown in
  if strict_eq type "global" then
    Ok (interp commandId +:+ "-" +:+ interp guildId)
  else if strict_eq type "per-user" then
    Ok (interp commandId +:+ "-" +:+ interp guildId +:+ "-" +:+ interp userId)
  else
    Throw (mkError unrecognized_type).

(** A call that does not touch the state. *)
Definition lift {S A} (r : Result A) : M S A := λ s, (r, s).

Section Repository.
Context {S : Type} `{Driver S}.

(** [async findOne(input)]. *)
Definition findOne (input : WhereOneInput.t) : M (Db S) CooldownEntity.t :=
  throw not_implemented.

(** [async delete(input)]. *)
Definition delete (input : WhereOneInput.t) : M (Db S) unit :=
  let _id := getIdFromWhereOneInput input in
  call_deleteOne {| df_id := _id; df_name := WhereOneInput.commandId input |}.

(** [async save(cooldown)]. *)
Definition save (cooldown : CooldownEntity.t) : M (Db S) CooldownEntity.t :=
  let commandId := CooldownEntity.commandId cooldown in
  let type := CooldownEntity.type cooldown in
  let secondsRemaining := CooldownEntity.secondsRemaining cooldown in
  _id ← lift (getIdFromEntity (PartialCooldownEntity.of_entity cooldown));
  call_findOneAndUpdate
    {| uf_id := _id; uf_name := commandId; uf_type := type |}
    {| up_id := _id; up_name := commandId; up_type := type;
       up_cooldown := secondsRemaining |}
    true ;;
  mret cooldown.
End Repository.

End MongoCooldownRepository.

(** The shape of the collection that [save] maintains: every document is
    stored under an identity that starts with its [name] (the command
    identifier) followed by the separator. *)
Definition keyed_by_name (s : gmap string CooldownModel.Doc) : Prop :=
  ∀ _id d, s !! _id = Some d → ∃ rest, _id = CooldownModel.name d +:+ "-" +:+ rest.

(** A string without the separator "-" (character 45). *)
Fixpoint dash_free (s : string) : bool :=
  match s with
  | "" => true
  | String a s' => negb (Ascii.eqb a (Ascii.ascii_of_nat 45)) && dash_free s'
  end.

(* ===================================================================== *)
(** * Domain: guild settings *)
(* ===================================================================== *)

(** [GuildPrefix]: [new GuildPrefix({ value })], read as [prefix.value]. *)
Module GuildPrefix.
Record t : Type := mk { value : string }.
End GuildPrefix.

Module GuildSettingsAggregate.

(** Modelled from the spec: the class [GuildSettingsAggregate]
    (domain/GuildSettingsAggregate) is not among the sources.  Spec, data
    model: attributes [guildId], [prefix] (a value object wrapping a
    string) and the category/emoji registrations (a mapping from category
    name to emoji). *)
Record t : Type := mk {
  guildId : string;
  prefix : GuildPrefix.t;
  categories : gmap string string;
}.

(** Modelled from the spec: the prefix of a freshly constructed
    aggregate; the spec's scenario gives it as "!". *)
Definition default_prefix : string := "!".

(** Modelled from the spec: [new GuildSettingsAggregate({ guildId })]
    constructs the default aggregate for [guildId]: default prefix, empty
    category map. *)
Definition new (guildId : string) : t :=
  {| guildId := guildId;
     prefix := GuildPrefix.mk default_prefix;
     categories := ∅ |}.

(** Modelled from the spec: [setPrefix({ prefix })] mutates the
    aggregate's prefix field. *)
Definition setPrefix (p : GuildPrefix.t) (a : t) : t :=
  {| guildId := guildId a; prefix := p; categories := categories a |}.

End GuildSettingsAggregate.

(** Aggregates are objects: the cache, the repositories and the callers hold
    references to them, and [setPrefix] mutates the object a reference
    points to.  [ref] is the type of references, [World] the heap of
    aggregates together with the state [B] of the persistence backend. *)
Abbreviation ref := positive.

Record World (B : Type) : Type := mkWorld {
  heap : gmap ref GuildSettingsAggregate.t;
  backend : B;
}.
Arguments mkWorld {B} heap backend.
Arguments heap {B} w.
Arguments backend {B} w.

(** [enum DbConnectionStatus] (enums/DbConnectionStatus, not among the
    sources): the members the sources name. *)
Inductive DbConnectionStatus : Type :=
| DISCONNECTED
| CONNECTED
| CONNECTING
| DISCONNECTING
| UNKNOWN
| NO_DATABASE.

#[global] Instance DbConnectionStatus_eq_dec : EqDecision DbConnectionStatus.
Proof. solve_decision. Defined.

(** [interface IGuildSettingsRepository] (declared outside the sources):
    the operations [WOKCommands] calls, [findOne({ guildId })], [findAll()]
    and [save(guildSettings)].  An implementation is caller-supplied code: it
    may read and change the heap and its own backend, and it may fail. *)
Module IGuildSettingsRepository.
Record t (B : Type) : Type := mk {
  findOne : string → M (World B) (option ref);
  findAll : M (World B) (list ref);
  save : ref → M (World B) ref;
}.
Arguments mk {B} findOne findAll save.
Arguments findOne {B} _ _ _.
Arguments findAll {B} _ _.
Arguments save {B} _ _ _.
End IGuildSettingsRepository.

(** [interface ICooldownRepository]: [findOne], [delete], [save], as
    [MongoCooldownRepository] implements them. *)
Module ICooldownRepository.
Record t (B : Type) : Type := mk {
  findOne : WhereOneInput.t → M B CooldownEntity.t;
  delete : WhereOneInput.t → M B unit;
  save : CooldownEntity.t → M B CooldownEntity.t;
}.
Arguments mk {B} findOne delete save.
Arguments findOne {B} _ _ _.
Arguments delete {B} _ _ _.
Arguments save {B} _ _ _.
End ICooldownRepository.

(** What the built-in strategy takes from outside the sources:
    [mongo(mongoUri, this, dbOptions)] (persistence/mongo/connection), which
    establishes the connection; the [readyState] of that connection;
    [MongoGuildSettingsRepository]; and where, in the backend, the cooldown
    collection lives.  The connection [mongo] resolves to is taken to be an
    object. *)
Module MongoBackend.
Record t (B : Type) : Type := mk {
  mongo : string → M (World B) unit;
  readyState : World B → Z;
  newMongoGuildSettingsRepository : IGuildSettingsRepository.t B;
  cooldowns : B → CooldownModel.Db (gmap string CooldownModel.Doc);
  set_cooldowns : CooldownModel.Db (gmap string CooldownModel.Doc) → B → B;
}.
Arguments mk {B} mongo readyState newMongoGuildSettingsRepository
  cooldowns set_cooldowns.
Arguments mongo {B} _ _ _.
Arguments readyState {B} _ _.
Arguments newMongoGuildSettingsRepository {B} _.
Arguments cooldowns {B} _ _.
Arguments set_cooldowns {B} _ _ _.
End MongoBackend.

(** A method of [MongoCooldownRepository] run on the cooldown collection of
    the backend. *)
Definition on_cooldowns {B A} (m : MongoBackend.t B)
    (f : M (CooldownModel.Db (gmap string CooldownModel.Doc)) A) : M B A :=
  λ b, let '(r, db') := f (MongoBackend.cooldowns m b) in
       (r, MongoBackend.set_cooldowns m db' b).

(** [new MongoCooldownRepository()]. *)
Definition newMongoCooldownRepository {B} (m : MongoBackend.t B)
  : ICooldownRepository.t B :=
  {| ICooldownRepository.findOne input :=
       on_cooldowns m (MongoCooldownRepository.findOne input);
     ICooldownRepository.delete input :=
       on_cooldowns m (MongoCooldownRepository.delete input);
     ICooldownRepository.save cooldown :=
       on_cooldowns m (MongoCooldownRepository.save cooldown) |}.

(** [Guild | null], of which only [guild.id] is read. *)
Module Guild.
Record t : Type := mk { id : string }.
End Guild.

(** The options of the constructor that [setUp] reads before the command
    handler is built.  [DbOptions] is the union
    [MongooseDBOptions | GenericDBOptions]; the driver options [dbOptions]
    of the first are only handed on to [mongo] and belong to what
    [MongoBackend.mongo] stands for. *)
Inductive DbOptions (B : Type) : Type :=
| MONGOOSE (mongoUri : option string)
| GENERIC (isDbConnected : World B → bool)
          (getDbConnectionStatus : World B → DbConnectionStatus)
          (guildSettingsRepository : IGuildSettingsRepository.t B)
          (cooldownRepository : ICooldownRepository.t B).
Arguments MONGOOSE {B} mongoUri.
Arguments GENERIC {B} isDbConnected getDbConnectionStatus
  guildSettingsRepository cooldownRepository.

Module Options.
Record t (B : Type) : Type := mk {
  commandsDir : option string;
  commandDir : option string;
  featuresDir : option string;
  featureDir : option string;
  showWarns : option bool;
  db : DbOptions B;
}.
Arguments mk {B} commandsDir commandDir featuresDir featureDir showWarns db.
Arguments commandsDir {B} _.
Arguments commandDir {B} _.
Arguments featuresDir {B} _.
Arguments featureDir {B} _.
Arguments showWarns {B} _.
Arguments db {B} _.
End Options.

(* ===================================================================== *)
(** * WOKCommands *)
(* ===================================================================== *)

Module WOKCommands.

(** [Events.DATABASE_CONNECTED]. *)
Definition DATABASE_CONNECTED : string := "databaseConnected".

(** What a method does to the outside, in the order it does it: console
    output, emitted events, the connection attempt, the calls made on the
    guild-settings repository, and the construction of the command
    handler, with which command processing starts. *)
Inductive Event : Type :=
| ConsoleWarn (msg : string)
| Emit (event : string) (status : DbConnectionStatus)
| MongoConnect (mongoUri : string)
| FindOne (guildId : string)
| FindAll
| Save (guildSettings : ref)
| NewCommandHandler (commandsDir : string).

#[global] Instance Event_eq_dec : EqDecision Event.
Proof. solve_decision. Defined.

(** The fields of the instance that the persistence-facing methods read
    or write. *)
Record t (B : Type) : Type := mk {
  _defaultPrefix : string;
  _commandsDir : string;
  _featuresDir : string;
  _guildSettings : gmap string ref;
  _isDbConnected : option (World B → bool);
  _getDbConnectionStatus : option (World B → DbConnectionStatus);
  _guildSettingsRepository : option (IGuildSettingsRepository.t B);
  _cooldownRepository : option (ICooldownRepository.t B);
}.
Arguments mk {B} _defaultPrefix _commandsDir _featuresDir _guildSettings
  _isDbConnected _getDbConnectionStatus _guildSettingsRepository
  _cooldownRepository.
Arguments _defaultPrefix {B} _.
Arguments _commandsDir {B} _.
Arguments _featuresDir {B} _.
Arguments _guildSettings {B} _.
Arguments _isDbConnected {B} _.
Arguments _getDbConnectionStatus {B} _.
Arguments _guildSettingsRepository {B} _.
Arguments _cooldownRepository {B} _.

(** The instance, the world it runs in, and the events so far (oldest
    first). *)
Record State (B : Type) : Type := mkState {
  this : t B;
  world : World B;
  log : list Event;
}.
Arguments mkState {B} this world log.
Arguments this {B} _.
Arguments world {B} _.
Arguments log {B} _.

(** [Client], of which [setUp] only tests the presence. *)
Inductive Client : Type := DiscordClient.

Definition no_client : string :=
  "No Discord JS Client provided as first argument!".
Definition no_db_warning : string :=
  "WOKCommands > No DB connection info provided. Some features might not work! See this for more details:"
  +:+ String (Ascii.ascii_of_nat 10) "https://docs.wornoffkeys.com/databases".
Definition database_not_connected : string :=
  "WOKCommands > Database not connected!".
Definition db_not_connected : string := "DB not connected!".
Definition guildSettingsRepository_not_defined : string :=
  "_guildSettingsRepository not defined!".
Definition cooldownRepository_not_defined : string :=
  "_cooldownRepository not defined!".
Definition commands_dir_not_absolute : string :=
  "WOKCommands > The 'commands' directory must be an absolute path. This can be done by using the 'path' module. More info: https://docs.wornoffkeys.com/setup-and-options-object".
Definition features_dir_not_absolute : string :=
  "WOKCommands > The 'features' directory must be an absolute path. This can be done by using the 'path' module. More info: https://docs.wornoffkeys.com/setup-and-options-object".
(** Reading a property through [null] or [undefined]. *)
Definition type_error : string :=
  "TypeError: Cannot read properties of undefined".

(** [s.includes(sub)]. *)
Definition includes (s sub : string) : bool :=
  match String.index 0 sub s with
  | Some _ => true
  | None => false
  end.

(** The table [results] of [_getDbConnectionStatus]. *)
Definition results (readyState : Z) : option string :=
  match readyState with
  | 0%Z => Some "DISCONNECTED"
  | 1%Z => Some "CONNECTED"
  | 2%Z => Some "CONNECTING"
  | 3%Z => Some "DISCONNECTING"
  | _ => None
  end.

(** Modelled from the spec: [enumFromName(name, DbConnectionStatus)]
    (enums/utils) is not among the sources.  Spec: the driver's readiness
    state is mapped into the closed enumeration disconnected / connected /
    connecting / disconnecting / unknown.  Only these five names reach
    it. *)
Definition enumFromName (name : string) : DbConnectionStatus :=
  if String.eqb name "DISCONNECTED" then DISCONNECTED
  else if String.eqb name "CONNECTED" then CONNECTED
  else if String.eqb name "CONNECTING" then CONNECTING
  else if String.eqb name "DISCONNECTING" then DISCONNECTING
  else UNKNOWN.

Section Methods.
Context {B : Type}.
Variable mongoBackend : MongoBackend.t B.

(** The field initialisers of the class. *)
Definition fresh_instance : t B :=
  {| _defaultPrefix := "!";
     _commandsDir := "commands";
     _featuresDir := "";
     _guildSettings := ∅;
     _isDbConnected := None;
     _getDbConnectionStatus := None;
     _guildSettingsRepository := None;
     _cooldownRepository := None |}.

(** Assignments to fields of [this]. *)
Definition with_guildSettings (c : gmap string ref) (i : t B) : t B :=
  mk (_defaultPrefix i) (_commandsDir i) (_featuresDir i) c
     (_isDbConnected i) (_getDbConnectionStatus i)
     (_guildSettingsRepository i) (_cooldownRepository i).

Definition with_dirs (commands features : string) (i : t B) : t B :=
  mk (_defaultPrefix i) commands features (_guildSettings i)
     (_isDbConnected i) (_getDbConnectionStatus i)
     (_guildSettingsRepository i) (_cooldownRepository i).

Definition with_db (isDbConnected : World B → bool)
    (getDbConnectionStatus : World B → DbConnectionStatus)
    (guildSettingsRepository : IGuildSettingsRepository.t B)
    (cooldownRepository : ICooldownRepository.t B) (i : t B) : t B :=
  mk (_defaultPrefix i) (_commandsDir i) (_featuresDir i) (_guildSettings i)
     (Some isDbConnected) (Some getDbConnectionStatus)
     (Some guildSettingsRepository) (Some cooldownRepository).

Definition assign (f : t B → t B) : M (State B) unit :=
  modify (λ st, mkState (f (this st)) (world st) (log st)).

Definition set_guildSettings (c : gmap string ref) : M (State B) unit :=
  assign (with_guildSettings c).

Definition set_dirs (commands features : string) : M (State B) unit :=
  assign (with_dirs commands features).

Definition set_db (isDbConnected : World B → bool)
    (getDbConnectionStatus : World B → DbConnectionStatus)
    (guildSettingsRepository : IGuildSettingsRepository.t B)
    (cooldownRepository : ICooldownRepository.t B) : M (State B) unit :=
  assign (with_db isDbConnected getDbConnectionStatus
                  guildSettingsRepository cooldownRepository).

(** An effect on the outside, recorded. *)
Definition emit (e : Event) : M (State B) unit :=
  modify (λ st, mkState (this st) (world st) (log st ++ [e])).

(** A call into code that works on the world (a repository method,
    [mongo]), recorded as [e] when it is issued. *)
Definition call {A} (e : Event) (f : M (World B) A) : M (State B) A :=
  λ st, let '(r, w') := f (world st) in
        (r, mkState (this st) w' (log st ++ [e])).

(** Reading the object behind a reference. *)
Definition deref (r : ref) : M (State B) GuildSettingsAggregate.t :=
  λ st, match heap (world st) !! r with
        | Some a => (Ok a, st)
        | None => (Throw (mkError type_error), st)
        end.

(** [new GuildSettingsAggregate({ guildId })]: a new object. *)
Definition newGuildSettingsAggregate (guildId : string) : M (State B) ref :=
  λ st, let w := world st in
        let r := fresh (dom (heap w)) in
        (Ok r,
         mkState (this st)
           (mkWorld (<[r := GuildSettingsAggregate.new guildId]> (heap w))
                    (backend w))
           (log st)).

(** The object behind [guildSettings], with its prefix set, in place. *)
Definition aggregate_setPrefix (guildSettings : ref) (p : GuildPrefix.t)
  : M (State B) unit :=
  a ← deref guildSettings;
  modify (λ st,
    let w := world st in
    mkState (this st)
      (mkWorld (<[guildSettings := GuildSettingsAggregate.setPrefix p a]> (heap w))
               (backend w))
      (log st)).

(** [public isDBConnected()]. *)
Definition isDBConnected (st : State B) : bool :=
  match _isDbConnected (this st) with
  | Some probe => probe (world st)
  | None => false
  end.

(** [public get dbConnectionStatus()]. *)
Definition dbConnectionStatus (st : State B) : DbConnectionStatus :=
  match _getDbConnectionStatus (this st) with
  | None => UNKNOWN
  | Some probe => probe (world st)
  end.

(** [public get guildSettingsRepository()]. *)
Definition guildSettingsRepository : M (State B) (IGuildSettingsRepository.t B) :=
  connected ← gets isDBConnected;
  if negb connected then throw db_not_connected
  else
    repository ← gets (λ st, _guildSettingsRepository (this st));
    match repository with
    | None => throw guildSettingsRepository_not_defined
    | Some r => mret r
    end.

(** [public get cooldownRepository()]. *)
Definition cooldownRepository : M (State B) (ICooldownRepository.t B) :=
  connected ← gets isDBConnected;
  if negb connected then throw db_not_connected
  else
    repository ← gets (λ st, _cooldownRepository (this st));
    match repository with
    | None => throw cooldownRepository_not_defined
    | Some r => mret r
    end.

(** [public get guildSettings()]. *)
Definition guildSettings (st : State B) : gmap string ref :=
  _guildSettings (this st).

(** [public getPrefix(guild)]. *)
Definition getPrefix (guild : option Guild.t) (st : State B) : string :=
  match guild with
  | Some g =>
      match guildSettings st !! Guild.id g ≫= (λ r, heap (world st) !! r) with
      | Some a =>
          or_else (GuildPrefix.value (GuildSettingsAggregate.prefix a))
                  (_defaultPrefix (this st))
      | None => _defaultPrefix (this st)
      end
  | None => _defaultPrefix (this st)
  end.

(** [public setGuildSettings(guildId, guildSettings)]. *)
Definition setGuildSettings (guildId : string) (gs : ref) : M (State B) unit :=
  c ← gets guildSettings;
  set_guildSettings (<[guildId := gs]> c).

(** [public async getOrCreateGuildSettings(guildId)]. *)
Definition getOrCreateGuildSettings (guildId : string) : M (State B) ref :=
  cached ← gets (λ st, guildSettings st !! guildId);
  match cached with
  | Some gs => mret gs
  | None =>
      repository ← guildSettingsRepository;
      found ← call (FindOne guildId)
                   (IGuildSettingsRepository.findOne repository guildId);
      gs ← match found with
           | Some gs => mret gs
           | None => newGuildSettingsAggregate guildId
           end;
      setGuildSettings guildId gs ;;
      mret gs
  end.

(** [public async setPrefix(guild, prefix)]. *)
Definition setPrefix (guild : option Guild.t) (prefix : string) : M (State B) unit :=
  match guild with
  | Some g =>
      gs ← getOrCreateGuildSettings (Guild.id g);
      aggregate_setPrefix gs (GuildPrefix.mk prefix) ;;
      repository ← guildSettingsRepository;
      updated ← call (Save gs) (IGuildSettingsRepository.save repository gs);
      c ← gets guildSettings;
      set_guildSettings (<[Guild.id g := updated]> c)
  | None => mret tt
  end.

(** The [reduce] of [setUp]: each aggregate of [findAll()] is set in
    the collection [agg] under its [guildId], in order. *)
Fixpoint reduce_guildSettings (settings : list ref) (agg : gmap string ref)
  : M (State B) (gmap string ref) :=
  match settings with
  | [] => mret agg
  | s :: rest =>
      a ← deref s;
      reduce_guildSettings rest (<[GuildSettingsAggregate.guildId a := s]> agg)
  end.

(** The strategy selection of [setUp]; the result is [useDb]. *)
Definition select_strategy (options : option (Options.t B)) (showWarns : bool)
  : M (State B) bool :=
  let no_database : M (State B) bool :=
    (if showWarns then emit (ConsoleWarn no_db_warning) else mret tt) ;;
    emit (Emit DATABASE_CONNECTED NO_DATABASE) ;;
    mret false in
  match options with
  | Some o =>
      match Options.db o with
      | MONGOOSE mongoUri =>
          if truthy mongoUri then
            call (MongoConnect (interp mongoUri))
                 (MongoBackend.mongo mongoBackend (interp mongoUri)) ;;
            set_db
              (λ w, Z.eqb (MongoBackend.readyState mongoBackend w) 1)
              (λ w, enumFromName
                      (default "UNKNOWN"
                         (results (MongoBackend.readyState mongoBackend w))))
              (MongoBackend.newMongoGuildSettingsRepository mongoBackend)
              (newMongoCooldownRepository mongoBackend) ;;
            mret true
          else no_database
      | GENERIC isDbConnected getDbConnectionStatus gsRepository cdRepository =>
          set_db isDbConnected getDbConnectionStatus gsRepository cdRepository ;;
          mret true
      end
  | None => no_database
  end.

(** [if (useDb) { ... }] of [setUp]: the connection status is emitted
    and checked, then the cache is replaced by what [findAll()] returns. *)
Definition warm_cache : M (State B) unit :=
  connectionStatus ← gets dbConnectionStatus;
  emit (Emit DATABASE_CONNECTED connectionStatus) ;;
  if bool_decide (connectionStatus ≠ CONNECTED) then
    throw database_not_connected
  else
    repository ← guildSettingsRepository;
    settings ← call FindAll (IGuildSettingsRepository.findAll repository);
    agg ← reduce_guildSettings settings ∅;
    set_guildSettings agg.

(** The part of [setUp] from the directories to the construction of
    the command handler. *)
Definition start_handlers (commandsDir commandDir featuresDir featureDir : string)
  : M (State B) unit :=
  i ← gets this;
  set_dirs (or_else (or_else commandsDir commandDir) (_commandsDir i))
           (or_else (or_else featuresDir featureDir) (_featuresDir i)) ;;
  i ← gets this;
  if truthy (Some (_commandsDir i))
     && negb (includes (_commandsDir i) "/" || includes (_commandsDir i) "\")
  then throw commands_dir_not_absolute
  else if truthy (Some (_featuresDir i))
     && negb (includes (_featuresDir i) "/" || includes (_featuresDir i) "\")
  then throw features_dir_not_absolute
  else emit (NewCommandHandler (_commandsDir i)).

(** [private async setUp(client, options)], up to the construction of
    the command handler.  The assignments of the option fields that none
    of the methods above reads, and the collaborators constructed after
    the command handler, are not part of the model. *)
Definition setUp (client : option Client) (options : option (Options.t B))
  : M (State B) unit :=
  match client with
  | None => throw no_client
  | Some _ =>
      let commandsDir := default "" (options ≫= Options.commandsDir) in
      let commandDir := default "" (options ≫= Options.commandDir) in
      let featuresDir := default "" (options ≫= Options.featuresDir) in
      let featureDir := default "" (options ≫= Options.featureDir) in
      let showWarns := default true (options ≫= Options.showWarns) in
      useDb ← select_strategy options showWarns;
      (if useDb : bool then warm_cache else mret tt) ;;
      start_handlers commandsDir commandDir featuresDir featureDir
  end.

(** The collection that the [reduce] of [setUp] builds from references
    to live objects: each is set under the [guildId] of its object, in
    order, so that of two with the same [guildId] the later stays. *)
Definition collect (h : gmap ref GuildSettingsAggregate.t) (settings : list ref)
  : gmap string ref → gmap string ref :=
  λ agg,
    foldl (λ agg s, match h !! s with
                    | Some a => <[GuildSettingsAggregate.guildId a := s]> agg
                    | None => agg
                    end) agg settings.

End Methods.
End WOKCommands.

(* ===================================================================== *)
(** * An in-memory backend *)
(* ===================================================================== *)

(** A backend that keeps everything in memory, on which the methods above
    can be run: a readiness state, the stored guild settings (one per
    [guildId]) and the cooldown collection.  Its guild-settings repository
    hands out a new object for every document it reads or has written, as a
    repository in front of a database does. *)
Module InMemory.

Record Backend : Type := mkBackend {
  readyState : Z;
  guilds : gmap string GuildSettingsAggregate.t;
  cooldowns : CooldownModel.Db (gmap string CooldownModel.Doc);
}.

(** A stored document as a new object. *)
Definition load (a : GuildSettingsAggregate.t) : M (World Backend) ref :=
  λ w, let r := fresh (dom (heap w)) in
       (Ok r, mkWorld (<[r := a]> (heap w)) (backend w)).

Fixpoint load_all (l : list GuildSettingsAggregate.t) : M (World Backend) (list ref) :=
  match l with
  | [] => mret []
  | a :: rest => r ← load a; rs ← load_all rest; mret (r :: rs)
  end.

Definition findOne (guildId : string) : M (World Backend) (option ref) :=
  λ w, match guilds (backend w) !! guildId with
       | Some a => (r ← load a; mret (Some r)) w
       | None => (Ok None, w)
       end.

Definition findAll : M (World Backend) (list ref) :=
  λ w, load_all (snd <$> map_to_list (guilds (backend w))) w.

Definition save (gs : ref) : M (World Backend) ref :=
  λ w, match heap w !! gs with
       | Some a =>
           let b := backend w in
           load a (mkWorld (heap w)
                     (mkBackend (readyState b)
                        (<[GuildSettingsAggregate.guildId a := a]> (guilds b))
                        (cooldowns b)))
       | None => (Throw (mkError WOKCommands.type_error), w)
       end.

Definition guildSettingsRepository : IGuildSettingsRepository.t Backend :=
  {| IGuildSettingsRepository.findOne := findOne;
     IGuildSettingsRepository.findAll := findAll;
     IGuildSettingsRepository.save := save |}.

(** Connecting succeeds and leaves the connection ready. *)
Definition mongo (mongoUri : string) : M (World Backend) unit :=
  λ w, let b := backend w in
       (Ok tt, mkWorld (heap w) (mkBackend 1 (guilds b) (cooldowns b))).

Definition mongoBackend : MongoBackend.t Backend :=
  {| MongoBackend.mongo := mongo;
     MongoBackend.readyState w := readyState (backend w);
     MongoBackend.newMongoGuildSettingsRepository := guildSettingsRepository;
     MongoBackend.cooldowns := cooldowns;
     MongoBackend.set_cooldowns db b := mkBackend (readyState b) (guilds b) db |}.

Definition cooldownRepository : ICooldownRepository.t Backend :=
  newMongoCooldownRepository mongoBackend.

(** The same backend behind a server that refuses the connection:
    connecting is rejected. *)
Definition refused : string := "connect ECONNREFUSED 127.0.0.1:27017".

Definition unreachable : MongoBackend.t Backend :=
  {| MongoBackend.mongo := λ _, throw refused;
     MongoBackend.readyState w := readyState (backend w);
     MongoBackend.newMongoGuildSettingsRepository := guildSettingsRepository;
     MongoBackend.cooldowns := cooldowns;
     MongoBackend.set_cooldowns db b := mkBackend (readyState b) (guilds b) db |}.

(** A backend with nothing stored, and one that stores the settings of
    guild "g1" with prefix "?". *)
Definition empty : Backend :=
  mkBackend 0 ∅ (CooldownModel.mkDb ∅ []).

Definition g1_settings : GuildSettingsAggregate.t :=
  GuildSettingsAggregate.mk "g1" (GuildPrefix.mk "?") ∅.

Definition with_g1 : Backend :=
  mkBackend 0 {[ "g1" := g1_settings ]} (CooldownModel.mkDb ∅ []).

(** A new instance in a world with no objects. *)
Definition start (b : Backend) : WOKCommands.State Backend :=
  WOKCommands.mkState WOKCommands.fresh_instance (mkWorld ∅ b) [].

(** Options: an absolute commands directory, and a database strategy. *)
Definition options (db : DbOptions Backend) : Options.t Backend :=
  Options.mk (Some "/bot/commands") None None None None db.

(** The caller-supplied strategy over this backend, with given probes. *)
Definition generic (isDbConnected : bool) (status : DbConnectionStatus)
  : DbOptions Backend :=
  GENERIC (λ _, isDbConnected) (λ _, status)
          guildSettingsRepository cooldownRepository.

End InMemory.

(* ===================================================================== *)
(** * WOKCommands: the strategy fields *)
(* ===================================================================== *)

(** The four strategy fields of an instance are set together or not at
    all: both probes and both repositories are set, or none of them is. *)
Definition strategy_complete {B} (i : WOKCommands.t B) : Prop :=
  (is_Some (WOKCommands._isDbConnected i)
   ∧ is_Some (WOKCommands._getDbConnectionStatus i)
   ∧ is_Some (WOKCommands._guildSettingsRepository i)
   ∧ is_Some (WOKCommands._cooldownRepository i))
  ∨ (WOKCommands._isDbConnected i = None
     ∧ WOKCommands._getDbConnectionStatus i = None
     ∧ WOKCommands._guildSettingsRepository i = None
     ∧ WOKCommands._cooldownRepository i = None).

(** The options select a strategy, by the tests of [setUp]: the built-in
    strategy with a [mongoUri], or the caller-supplied strategy. *)
Definition backend_configured {B} (o : Options.t B) : bool :=
  match Options.db o with
  | MONGOOSE mongoUri => truthy mongoUri
  | GENERIC _ _ _ _ => true
  end.

(** The strategy fields of two instances are the same. *)
Definition same_strategy {B} (i i' : WOKCommands.t B) : Prop :=
  WOKCommands._isDbConnected i' = WOKCommands._isDbConnected i
  ∧ WOKCommands._getDbConnectionStatus i' = WOKCommands._getDbConnectionStatus i
  ∧ WOKCommands._guildSettingsRepository i' = WOKCommands._guildSettingsRepository i
  ∧ WOKCommands._cooldownRepository i' = WOKCommands._cooldownRepository i.

(** Events among which no command handler is constructed. *)
Definition no_handler (l : list WOKCommands.Event) : Prop :=
  ∀ d, WOKCommands.NewCommandHandler d ∉ l.

(** The test [setUp] makes on a directory: it is empty, or it holds a
    slash or a backslash. *)
Definition absolute_or_empty (dir : string) : bool :=
  negb (truthy (Some dir))
  || WOKCommands.includes dir "/" || WOKCommands.includes dir "\".

(* ===================================================================== *)
(** * WOKCommands: categories and emojis *)
(* ===================================================================== *)

(** [GuildEmoji] (discord.js), of which the sources read [name] and [id].
    The objects come from the emoji cache of the client, one per [id]; two
    of them are the same object when they have the same fields. *)
Module GuildEmoji.
Record t : Type := mk { name : string; id : string }.

#[global] Instance eq_dec : EqDecision t.
Proof. solve_decision. Defined.
End GuildEmoji.

(** [ICategorySetting]: [{ name, emoji, hidden?, customEmoji? }]. *)
Module ICategorySetting.
Record t : Type := mk {
  name : string;
  emoji : string;
  hidden : option bool;
  customEmoji : option bool;
}.
End ICategorySetting.

Module Categories.

(** A value of the map [_categories]: [String | GuildEmoji]. *)
Inductive Emoji : Type :=
| Text (s : string)
| Custom (e : GuildEmoji.t).

(** The fields of the instance that the category methods read or write:
    the map [_categories] as its entries in insertion order, the array
    [_hiddenCategories], and what was written with [console.warn]. *)
Record State : Type := mkState {
  _categories : list (string * Emoji);
  _hiddenCategories : list string;
  warnings : list string;
}.

(** [Map.prototype.get]. *)
Fixpoint map_get (k : string) (m : list (string * Emoji)) : option Emoji :=
  match m with
  | [] => None
  | (k', v) :: rest => if String.eqb k' k then Some v else map_get k rest
  end.

(** [Map.prototype.set]: the value of an existing key is replaced where the
    key stands, a new key goes to the end. *)
Fixpoint map_set (k : string) (v : Emoji) (m : list (string * Emoji))
  : list (string * Emoji) :=
  match m with
  | [] => [(k, v)]
  | (k', v') :: rest =>
      if String.eqb k' k then (k, v) :: rest else (k', v') :: map_set k v rest
  end.

(** [s.startsWith(p)]. *)
Definition startsWith (s p : string) : bool := String.prefix p s.

(** [s.endsWith(suffix)]: some tail of [s] is [suffix]. *)
Fixpoint endsWith (s suffix : string) : bool :=
  String.eqb s suffix
  || match s with
     | "" => false
     | String _ s' => endsWith s' suffix
     end.

(** [s.split(sep)] for a separator of one character. *)
Fixpoint split (sep : Ascii.ascii) (s : string) : list string :=
  match s with
  | "" => [""]
  | String a s' =>
      if Ascii.eqb a sep then "" :: split sep s'
      else match split sep s' with
           | h :: t => String a h :: t
           | [] => [String a ""]
           end
  end.

(** The character ":" (58). *)
Definition colon : Ascii.ascii := Ascii.ascii_of_nat 58.

(** A string without the character ":". *)
Fixpoint colon_free (s : string) : bool :=
  match s with
  | "" => true
  | String a s' => negb (Ascii.eqb a colon) && colon_free s'
  end.

(** [s.substring(0, s.length - 1)]. *)
Definition drop_last (s : string) : string :=
  String.substring 0 (String.length s - 1) s.

(** Truthiness of a [string | GuildEmoji | undefined]. *)
Definition truthy_emoji (e : option Emoji) : bool :=
  match e with
  | Some (Text s) => truthy (Some s)
  | Some (Custom _) => true
  | None => false
  end.

(** [a || b || ''] for a [string | GuildEmoji | undefined] each. *)
Definition or_emoji (a b : option Emoji) : Emoji :=
  match a, b with
  | Some e, _ => if truthy_emoji a then e
                 else match b with
                      | Some v => if truthy_emoji b then v else Text ""
                      | None => Text ""
                      end
  | None, Some v => if truthy_emoji b then v else Text ""
  | None, None => Text ""
  end.

(** [a === b] on values of the map. *)
Definition strict_eq_emoji (a b : Emoji) : bool :=
  match a, b with
  | Text s, Text s' => String.eqb s s'
  | Custom e, Custom e' => bool_decide (e = e')
  | _, _ => false
  end.

(** The first step of the loop body of [setCategorySettings]: the emoji
    and the custom flag it goes on with, or nothing when it throws. *)
Definition parsed_emoji (c : ICategorySetting.t) : option (string * bool) :=
  if startsWith (ICategorySetting.emoji c) "<:" && endsWith (ICategorySetting.emoji c) ">"
  then match split colon (ICategorySetting.emoji c) !! 2%nat with
       | Some segment => Some (drop_last segment, true)
       | None => None
       end
  else Some (ICategorySetting.emoji c, default false (ICategorySetting.customEmoji c)).

Section Methods.
(** What the category methods take from discord.js: the emoji cache of the
    client ([this._client.emojis.cache.get]); the primitive value of a
    [GuildEmoji], with which [==] compares a string; and its conversion to a
    string, which a template literal applies. *)
Variable emojis_cache_get : string → option GuildEmoji.t.
Variable toPrimitive : GuildEmoji.t → string.
Variable toString : GuildEmoji.t → string.

(** [${e}] for a [string | GuildEmoji | undefined]. *)
Definition interp_emoji (e : option Emoji) : string :=
  match e with
  | Some (Text s) => s
  | Some (Custom g) => toString g
  | None => "undefined"
  end.

(** [emoji == value] for an [emoji: string | null] and a value of the
    map. *)
Definition loose_eq (emoji : option string) (value : Emoji) : bool :=
  match emoji, value with
  | None, _ => false
  | Some s, Text v => String.eqb s v
  | Some s, Custom g => String.eqb s (toPrimitive g)
  end.

(** [public getEmoji(category)]. *)
Definition getEmoji (category : string) (st : State) : string :=
  match map_get category (_categories st) with
  | Some (Custom e) => "<:" +:+ GuildEmoji.name e +:+ ":" +:+ GuildEmoji.id e +:+ ">"
  | Some (Text s) => s
  | None => ""
  end.

(** [public getCategory(emoji)]: [forEach] visits every entry, the
    [return false] of the callback does not stop it. *)
Definition getCategory (emoji : option string) (st : State) : string :=
  foldl (λ result kv, if loose_eq emoji (snd kv) then fst kv else result)
        "" (_categories st).

(** [private isEmojiUsed(emoji)]. *)
Definition isEmojiUsed (emoji : option Emoji) (st : State) : bool :=
  if negb (truthy_emoji emoji) then false
  else match emoji with
       | Some e => existsb (λ kv, strict_eq_emoji (snd kv) e) (_categories st)
       | None => false
       end.

(** The text of the warning; [quote] is the double quote (34). *)
Definition already_used (targetEmoji : option Emoji) (name : string) : string :=
  let quote := String (Ascii.ascii_of_nat 34) "" in
  "WOKCommands > The emoji " +:+ quote +:+ interp_emoji targetEmoji +:+ quote
  +:+ " for category " +:+ quote +:+ name +:+ quote +:+ " is already used.".

(** The body of the loop of [setCategorySettings], for one setting. *)
Definition setCategorySetting (c : ICategorySetting.t) : M State unit :=
  let name := ICategorySetting.name c in
  let hidden := default false (ICategorySetting.hidden c) in
  parsed ←
    (if startsWith (ICategorySetting.emoji c) "<:"
        && endsWith (ICategorySetting.emoji c) ">"
     then match split colon (ICategorySetting.emoji c) !! 2%nat with
          | Some segment => mret (drop_last segment, true)
          | None => throw WOKCommands.type_error
          end
     else mret (ICategorySetting.emoji c,
                default false (ICategorySetting.customEmoji c)));
  let emoji : string := fst parsed in
  let customEmoji : bool := snd parsed in
  let targetEmoji : option Emoji :=
    if customEmoji then Custom <$> emojis_cache_get emoji else Some (Text emoji) in
  used ← gets (isEmojiUsed targetEmoji);
  (if used : bool
   then modify (λ st, mkState (_categories st) (_hiddenCategories st)
                        (warnings st ++ [already_used targetEmoji name]))
   else mret tt) ;;
  modify (λ st,
    mkState (map_set name (or_emoji targetEmoji (map_get name (_categories st)))
                     (_categories st))
            (_hiddenCategories st) (warnings st)) ;;
  if hidden
  then modify (λ st, mkState (_categories st) (_hiddenCategories st ++ [name])
                       (warnings st))
  else mret tt.

(** [public setCategorySettings(category)]. *)
Fixpoint setCategorySettings (category : list ICategorySetting.t) : M State unit :=
  match category with
  | [] => mret tt
  | c :: rest => setCategorySetting c ;; setCategorySettings rest
  end.

End Methods.
End Categories.

(* ===================================================================== *)
(** * The commands that call WOKCommands *)
(* ===================================================================== *)

(** [MessageHandler], as the two commands use it: [get(guild, messageId,
    args)], [getLanguage(guild)], [languages()] and [setLanguage(guild,
    language)], over a state [H] of its own; [get] yields a message of a type
    [Msg]. *)
Module MessageHandler.
Record t (H Msg : Type) : Type := mk {
  get : option Guild.t → string → list (string * string) → H → Msg;
  getLanguage : Guild.t → H → string;
  languages : H → list string;
  setLanguage : Guild.t → string → M H unit;
}.
Arguments mk {H Msg} get getLanguage languages setLanguage.
Arguments get {H Msg} _ _ _ _ _.
Arguments getLanguage {H Msg} _ _ _.
Arguments languages {H Msg} _ _.
Arguments setLanguage {H Msg} _ _ _ _.
End MessageHandler.

Module Commands.

(** [Events.LANGUAGE_NOT_SUPPORTED]. *)
Definition LANGUAGE_NOT_SUPPORTED : string := "languageNotSupported".

(** What a command callback works on: the instance with its world, the
    message handler, and the events the callback emits on the instance with
    a guild and a language. *)
Record State (B H : Type) : Type := mkState {
  instance : WOKCommands.State B;
  handler : H;
  emitted : list (string * Guild.t * string);
}.
Arguments mkState {B H} instance handler emitted.
Arguments instance {B H} _.
Arguments handler {B H} _.
Arguments emitted {B H} _.

Section Callbacks.
Context {B H Msg : Type}.
Variable messageHandler : MessageHandler.t H Msg.
(** [String.prototype.toLowerCase]. *)
Variable toLowerCase : string → string.

(** A method of the instance, run from a callback. *)
Definition on_instance {A} (m : M (WOKCommands.State B) A) : M (State B H) A :=
  λ st, let '(r, i') := m (instance st) in
        (r, mkState i' (handler st) (emitted st)).

(** A method of the message handler, run from a callback. *)
Definition on_handler {A} (m : M H A) : M (State B H) A :=
  λ st, let '(r, h') := m (handler st) in
        (r, mkState (instance st) h' (emitted st)).

(** [instance.messageHandler.get(guild, messageId, args)]. *)
Definition reply (guild : option Guild.t) (messageId : string)
    (args : list (string * string)) : M (State B H) Msg :=
  gets (λ st, MessageHandler.get messageHandler guild messageId args (handler st)).

(** A callback that returns such a message. *)
Definition replied (guild : option Guild.t) (messageId : string)
    (args : list (string * string)) : M (State B H) (option Msg) :=
  m ← reply guild messageId args; mret (Some m).

(** The callback of the prefix command, given [channel.guild], [args] and
    [text]. *)
Definition prefix_callback (guild : option Guild.t) (args : list string)
    (text : string) : M (State B H) Msg :=
  if Nat.eqb (length args) 0 then
    current ← gets (λ st, WOKCommands.getPrefix guild (instance st));
    reply guild "CURRENT_PREFIX" [("PREFIX", current)]
  else
    match guild with
    | Some _ =>
        connected ← gets (λ st, WOKCommands.isDBConnected (instance st));
        if negb connected then reply guild "NO_DATABASE_FOUND" []
        else
          on_instance (WOKCommands.setPrefix guild text) ;;
          reply guild "SET_PREFIX" [("PREFIX", text)]
    | None => reply guild "CANNOT_SET_PREFIX_IN_DMS" []
    end.

(** The callback of the language command, given [channel.guild] and
    [text]; without a guild it returns [undefined]. *)
Definition language_callback (guild : option Guild.t) (text : string)
  : M (State B H) (option Msg) :=
  match guild with
  | None => mret None
  | Some g =>
      connected ← gets (λ st, WOKCommands.isDBConnected (instance st));
      if negb connected then replied guild "NO_DATABASE_FOUND" []
      else
        let lang := toLowerCase text in
        if negb (truthy (Some lang)) then
          current ← gets (λ st, MessageHandler.getLanguage messageHandler g (handler st));
          replied guild "CURRENT_LANGUAGE" [("LANGUAGE", current)]
        else
          supported ← gets (λ st, MessageHandler.languages messageHandler (handler st));
          if negb (existsb (String.eqb lang) supported) then
            modify (λ st, mkState (instance st) (handler st)
                            (emitted st ++ [(LANGUAGE_NOT_SUPPORTED, g, lang)])) ;;
            replied guild "LANGUAGE_NOT_SUPPORTED" [("LANGUAGE", lang)]
          else
            on_handler (MessageHandler.setLanguage messageHandler g lang) ;;
            replied guild "NEW_LANGUAGE" [("LANGUAGE", lang)]
  end.

End Callbacks.
End Commands.

(* ===================================================================== *)
(** * Properties of MongoCooldownRepository *)
(* ===================================================================== *)

Section CooldownProperties.
Import CooldownModel.

Lemma strict_eq_ne (s lit : string) : s ≠ lit → strict_eq (Some s) lit = false.
Proof. intros Hne. simpl. by apply String.eqb_neq. Qed.

Lemma truthy_nonempty (s : string) : s ≠ "" → truthy (Some s) = true.
Proof. intros Hne. simpl. by apply negb_true_iff, String.eqb_neq. Qed.

Lemma append_empty_r (s : string) : s +:+ "" = s.
Proof.
  induction s as [|a s IH]; [done|].
  change (String a (s +:+ "") = String a s). by rewrite IH.
Qed.

(** [save] on an entity whose identity is [_id]: the one call it issues,
    and what it returns. *)
Lemma save_recognized {S} `{Driver S} (e : CooldownEntity.t) (_id : string) (db : Db S) :
  MongoCooldownRepository.getIdFromEntity (PartialCooldownEntity.of_entity e) = Ok _id →
  let f := mkUpdateFilter _id (CooldownEntity.commandId e) (CooldownEntity.type e) in
  let u := mkUpdate _id (CooldownEntity.commandId e) (CooldownEntity.type e)
                    (CooldownEntity.secondsRemaining e) in
  MongoCooldownRepository.save e db
  = (match fst (findOneAndUpdate f u true (store db)) with
     | Ok _ => Ok e
     | Throw err => Throw err
     end,
     mkDb (snd (findOneAndUpdate f u true (store db)))
          (calls db ++ [FindOneAndUpdate f u true])).
Proof.
  intros Hid f u.
  unfold MongoCooldownRepository.save, mbind, M_bind, bind,
    MongoCooldownRepository.lift, call_findOneAndUpdate.
  rewrite Hid. fold f u.
  destruct (findOneAndUpdate f u true (store db)) as [[d|err] s']; reflexivity.
Qed.

Lemma getIdFromEntity_recognized (e : CooldownEntity.t) :
  CooldownEntity.type e = "global" ∨ CooldownEntity.type e = "per-user" →
  ∃ _id, MongoCooldownRepository.getIdFromEntity (PartialCooldownEntity.of_entity e)
         = Ok _id.
Proof.
  unfold MongoCooldownRepository.getIdFromEntity. simpl.
  intros [-> | ->]; simpl; eauto.
Qed.

(** The upsert of the in-memory store never fails. *)
Lemma store_findOneAndUpdate_ok f u b (s : gmap string Doc) :
  ∃ d, fst (store_findOneAndUpdate f u b s) = Ok d.
Proof.
  unfold store_findOneAndUpdate.
  destruct (s !! uf_id f) as [d|]; [destruct (matches_update f d)|];
    destruct b; simpl; eauto.
Qed.

(** [delete] on the in-memory store. *)
Lemma delete_on_store (q : WhereOneInput.t) (db : Db (gmap string Doc)) :
  let _id := MongoCooldownRepository.getIdFromWhereOneInput q in
  MongoCooldownRepository.delete q db
  = (Ok tt,
     mkDb (match store db !! _id with
           | Some d =>
               if String.eqb (name d) (WhereOneInput.commandId q)
               then delete _id (store db) else store db
           | None => store db
           end)
          (calls db ++ [DeleteOne (mkDeleteFilter _id (WhereOneInput.commandId q))])).
Proof.
  intros _id.
  unfold MongoCooldownRepository.delete, call_deleteOne.
  fold _id. cbn [deleteOne store_driver]. unfold store_deleteOne, matches_delete.
  cbn [df_id df_name].
  destruct (store db !! _id) as [d|]; [|reflexivity].
  by destruct (String.eqb (name d) (WhereOneInput.commandId q)).
Qed.

(** [save] on the in-memory store, for an entity with an identity. *)
Lemma save_on_store (e : CooldownEntity.t) (_id : string) (db : Db (gmap string Doc)) :
  MongoCooldownRepository.getIdFromEntity (PartialCooldownEntity.of_entity e) = Ok _id →
  store (snd (MongoCooldownRepository.save e db))
  = <[_id := mkDoc (CooldownEntity.commandId e) (CooldownEntity.type e)
                   (CooldownEntity.secondsRemaining e)]> (store db).
Proof.
  intros Hid. rewrite (save_recognized e _id db Hid). cbn [snd store].
  cbn [findOneAndUpdate store_driver]. unfold store_findOneAndUpdate.
  cbn [uf_id up_id].
  destruct (store db !! _id) as [d|]; [|reflexivity].
  by destruct (matches_update _ d).
Qed.

(** The identity of an entity starts with its command identifier. *)
Lemma getIdFromEntity_prefix (e : CooldownEntity.t) (_id : string) :
  MongoCooldownRepository.getIdFromEntity (PartialCooldownEntity.of_entity e) = Ok _id →
  ∃ rest, _id = CooldownEntity.commandId e +:+ "-" +:+ rest.
Proof.
  unfold MongoCooldownRepository.getIdFromEntity.
  cbn [PartialCooldownEntity.of_entity PartialCooldownEntity.type
       PartialCooldownEntity.commandId PartialCooldownEntity.guildId
       PartialCooldownEntity.userId interp].
  destruct (strict_eq _ "global"); [intros [= <-]; eauto|].
  destruct (strict_eq _ "per-user"); [intros [= <-]; eauto|].
  discriminate.
Qed.

(** [save] and [delete] keep the collection keyed by name. *)
Lemma keyed_by_name_empty : keyed_by_name ∅.
Proof. intros _id d. by rewrite lookup_empty. Qed.

Lemma save_keyed_by_name (e : CooldownEntity.t) (db : Db (gmap string Doc)) :
  keyed_by_name (store db) →
  keyed_by_name (store (snd (MongoCooldownRepository.save e db))).
Proof.
  intros Hk.
  destruct (MongoCooldownRepository.getIdFromEntity
              (PartialCooldownEntity.of_entity e)) as [_id|err] eqn:Hid.
  - rewrite (save_on_store e _id db Hid). intros k d.
    destruct (decide (_id = k)) as [<-|Hne].
    + rewrite lookup_insert_eq. intros [= <-]. cbn [name].
      by apply getIdFromEntity_prefix.
    + rewrite lookup_insert_ne by done. apply Hk.
  - unfold MongoCooldownRepository.save, mbind, M_bind, bind,
      MongoCooldownRepository.lift. by rewrite Hid.
Qed.

Lemma delete_keyed_by_name (q : WhereOneInput.t) (db : Db (gmap string Doc)) :
  keyed_by_name (store db) →
  keyed_by_name (store (snd (MongoCooldownRepository.delete q db))).
Proof.
  intros Hk. rewrite delete_on_store. cbn [snd store].
  destruct (store db !! _) as [d|]; [|done].
  destruct (String.eqb _ _); [|done].
  intros k d'. rewrite lookup_delete. case_decide; [done|]. apply Hk.
Qed.

Lemma append_cons (a : Ascii.ascii) (s t : string) :
  String a s +:+ t = String a (s +:+ t).
Proof. reflexivity. Qed.

Lemma dash_free_append_dash (s t : string) : dash_free (s +:+ "-" +:+ t) = false.
Proof.
  induction s as [|a s IH]; [reflexivity|].
  rewrite append_cons. cbn [dash_free]. rewrite IH. apply andb_false_r.
Qed.

(** Two ways of cutting an identity at a separator agree on the command
    identifier when the command and guild identifiers hold no separator. *)
Lemma identity_prefix_unique (c g n rest : string) :
  dash_free c = true →
  dash_free g = true →
  n +:+ "-" +:+ rest = c +:+ "-" +:+ g →
  n = c.
Proof.
  revert n. induction c as [|a c IH]; intros n Hc Hg Heq.
  - destruct n as [|b n]; [reflexivity|].
    rewrite append_cons in Heq. injection Heq as -> Heq.
    change (n +:+ "-" +:+ rest = g) in Heq.
    rewrite <- Heq, dash_free_append_dash in Hg. discriminate.
  - cbn [dash_free] in Hc. apply andb_true_iff in Hc as [Ha Hc].
    destruct n as [|b n].
    + rewrite append_cons in Heq. injection Heq as <- _. discriminate.
    + rewrite !append_cons in Heq. injection Heq as -> Heq.
      f_equal. by apply IH.
Qed.

Lemma append_nil_l (t : string) : "" +:+ t = t.
Proof. reflexivity. Qed.

(** Appending to a fixed string is injective. *)
Lemma append_inj_l (s t t' : string) : s +:+ t = s +:+ t' → t = t'.
Proof.
  induction s as [|a s IH]; [done|].
  rewrite !append_cons. intros [= H]. by apply IH.
Qed.

(** The identity of an entity and the identity of the query made of its
    fields differ when the scope and the presence of a [userId] disagree. *)
Lemma append_suffix_ne (c g t : string) :
  t ≠ "" → c +:+ "-" +:+ g +:+ t ≠ c +:+ "-" +:+ g +:+ "".
Proof.
  intros Ht Heq. apply append_inj_l in Heq.
  apply (append_inj_l "-") in Heq. apply append_inj_l in Heq. done.
Qed.

End CooldownProperties.

(** C1. For every [commandId] and [guildId], the identity derived for a
    global-scoped entity is [commandId + "-" + guildId]; for every
    [commandId], [guildId] and [userId], the identity derived for a
    per-user-scoped entity is [commandId + "-" + guildId + "-" + userId].
    The derivation is a function of the entity's fields alone: the counter
    does not enter it, and neither does the state of the collection, so that
    [save] addresses the same entity by the same calls whatever is
    stored. *)
Theorem getIdFromEntity_identity :
  ∀ (commandId guildId userId : string) (other : option string) (secs secs' : option Z)
    (type : option string),
    MongoCooldownRepository.getIdFromEntity
      (PartialCooldownEntity.mk (Some commandId) (Some guildId) other (Some "global") secs)
    = Ok (commandId +:+ "-" +:+ guildId)
    ∧ MongoCooldownRepository.getIdFromEntity
        (PartialCooldownEntity.mk (Some commandId) (Some guildId) (Some userId)
           (Some "per-user") secs)
      = Ok (commandId +:+ "-" +:+ guildId +:+ "-" +:+ userId)
    ∧ MongoCooldownRepository.getIdFromEntity
        (PartialCooldownEntity.mk (Some commandId) (Some guildId) other type secs)
      = MongoCooldownRepository.getIdFromEntity
          (PartialCooldownEntity.mk (Some commandId) (Some guildId) other type secs')
    ∧ (∀ (S : Type) (D : CooldownModel.Driver S) (e : CooldownEntity.t) (s1 s2 : S),
         CooldownModel.calls (snd (MongoCooldownRepository.save e (CooldownModel.mkDb s1 [])))
         = CooldownModel.calls
             (snd (MongoCooldownRepository.save e (CooldownModel.mkDb s2 [])))).
Proof.
  intros. split; [reflexivity|]. split; [reflexivity|]. split; [reflexivity|].
  intros S D e s1 s2.
  destruct (MongoCooldownRepository.getIdFromEntity
              (PartialCooldownEntity.of_entity e)) as [_id|err] eqn:Hid.
  - by rewrite !(save_recognized e _id _ Hid).
  - unfold MongoCooldownRepository.save, mbind, M_bind, bind,
      MongoCooldownRepository.lift. by rewrite Hid.
Qed.

(** C2, as the code has it. For every cooldown entity whose type is neither
    'global' nor 'per-user', [save] fails with the unrecognized-type error
    before any call to the collection: the collection and the list of calls
    are as they were.  [delete] takes a query, which has no type: given the
    fields of such an entity it issues its one [deleteOne] call, on the
    identity derived from [commandId], [guildId] and [userId], and its
    outcome is the outcome of that call. *)
Theorem save_unrecognized_type_fails_before_io :
  ∀ (S : Type) (D : CooldownModel.Driver S) (e : CooldownEntity.t) (db : CooldownModel.Db S),
    CooldownEntity.type e ≠ "global" →
    CooldownEntity.type e ≠ "per-user" →
    MongoCooldownRepository.save e db
    = (Throw (mkError MongoCooldownRepository.unrecognized_type), db)
    ∧ let f := CooldownModel.mkDeleteFilter
                 (MongoCooldownRepository.getIdFromWhereOneInput (WhereOneInput.of_entity e))
                 (CooldownEntity.commandId e) in
      MongoCooldownRepository.delete (WhereOneInput.of_entity e) db
      = (fst (CooldownModel.deleteOne f (CooldownModel.store db)),
         CooldownModel.mkDb (snd (CooldownModel.deleteOne f (CooldownModel.store db)))
           (CooldownModel.calls db ++ [CooldownModel.DeleteOne f])).
Proof.
  intros S D e db Hg Hu. split.
  - unfold MongoCooldownRepository.save, mbind, M_bind, bind,
      MongoCooldownRepository.lift, MongoCooldownRepository.getIdFromEntity.
    cbn [PartialCooldownEntity.type PartialCooldownEntity.of_entity].
    by rewrite (strict_eq_ne _ _ Hg), (strict_eq_ne _ _ Hu).
  - cbv zeta.
    unfold MongoCooldownRepository.delete, CooldownModel.call_deleteOne.
    cbn [WhereOneInput.commandId WhereOneInput.of_entity].
    by destruct (CooldownModel.deleteOne _ _).
Qed.

(** Witness of C2: an entity of type "daily" over a collection holding one
    document. *)
Lemma save_unrecognized_type_fails_before_io_witness :
  let e := CooldownEntity.mk "ban" "g1" None "daily" 30 in
  let db := CooldownModel.mkDb
              ({[ "ban-g1" := CooldownModel.mkDoc "ban" "global" 5 ]}
                 : gmap string CooldownModel.Doc) [] in
  CooldownEntity.type e ≠ "global"
  ∧ CooldownEntity.type e ≠ "per-user"
  ∧ MongoCooldownRepository.save e db
    = (Throw (mkError MongoCooldownRepository.unrecognized_type), db).
Proof.
  intros e db.
  split; [discriminate|]. split; [discriminate|].
  apply (save_unrecognized_type_fails_before_io _ _ e db); discriminate.
Defined.

(** Counterexample to C2 as written: given the fields of an entity of type
    "daily", [delete] raises no error; it issues a [deleteOne] call and the
    stored document is gone. *)
Lemma delete_unrecognized_type_counterexample :
  let e := CooldownEntity.mk "ban" "g1" None "daily" 30 in
  let db := CooldownModel.mkDb
              ({[ "ban-g1" := CooldownModel.mkDoc "ban" "global" 5 ]}
                 : gmap string CooldownModel.Doc) [] in
  CooldownEntity.type e ≠ "global"
  ∧ CooldownEntity.type e ≠ "per-user"
  ∧ MongoCooldownRepository.delete (WhereOneInput.of_entity e) db
    = (Ok tt,
       CooldownModel.mkDb ∅
         [CooldownModel.DeleteOne (CooldownModel.mkDeleteFilter "ban-g1" "ban")])
  ∧ MongoCooldownRepository.delete (WhereOneInput.of_entity e) db
    ≠ (Throw (mkError MongoCooldownRepository.unrecognized_type), db).
Proof.
  intros e db.
  assert (Hrun : MongoCooldownRepository.delete (WhereOneInput.of_entity e) db
    = (Ok tt,
       CooldownModel.mkDb ∅
         [CooldownModel.DeleteOne (CooldownModel.mkDeleteFilter "ban-g1" "ban")]))
    by (vm_compute; reflexivity).
  split; [discriminate|]. split; [discriminate|]. split; [exact Hrun|].
  rewrite Hrun. discriminate.
Qed.

(** C3. For every input and every state of the collection, [findOne] fails
    with the error "Method not implemented." and issues no call; it never
    returns an entity or an absent result. *)
Theorem findOne_not_implemented :
  ∀ (S : Type) (D : CooldownModel.Driver S) (input : WhereOneInput.t)
    (db : CooldownModel.Db S),
    MongoCooldownRepository.findOne input db
    = (Throw (mkError "Method not implemented."), db)
    ∧ is_ok (fst (MongoCooldownRepository.findOne input db)) = false.
Proof. intros. split; reflexivity. Qed.

(** C8, as the code has it. For every [commandId] and [guildId], the
    identity derived from the query [{commandId, guildId}] with no [userId]
    is the identity derived from a global-scoped entity with those fields;
    for every non-empty [userId], the identity derived from
    [{commandId, guildId, userId}] is the identity derived from a
    per-user-scoped entity with those fields.  The empty string as [userId]
    counts as absent in the query: [{commandId, guildId, userId: ""}]
    derives the identity of [{commandId, guildId}], that of the global
    entity, while the per-user entity with the empty [userId] has the
    identity [commandId-guildId-], which is another one. *)
Theorem where_identity_matches_entity_identity :
  ∀ (commandId guildId : string),
    (∀ (other : option string) (secs : Z),
       MongoCooldownRepository.getIdFromEntity
         (PartialCooldownEntity.of_entity
            (CooldownEntity.mk commandId guildId other "global" secs))
       = Ok (MongoCooldownRepository.getIdFromWhereOneInput
               (WhereOneInput.mk commandId guildId None)))
    ∧ (∀ (userId : string) (secs : Z),
         userId ≠ "" →
         MongoCooldownRepository.getIdFromEntity
           (PartialCooldownEntity.of_entity
              (CooldownEntity.mk commandId guildId (Some userId) "per-user" secs))
         = Ok (MongoCooldownRepository.getIdFromWhereOneInput
                 (WhereOneInput.mk commandId guildId (Some userId))))
    ∧ MongoCooldownRepository.getIdFromWhereOneInput
        (WhereOneInput.mk commandId guildId (Some ""))
      = MongoCooldownRepository.getIdFromWhereOneInput
          (WhereOneInput.mk commandId guildId None)
    ∧ (∀ (other : option string) (secs : Z),
         MongoCooldownRepository.getIdFromEntity
           (PartialCooldownEntity.of_entity
              (CooldownEntity.mk commandId guildId other "global" secs))
         = Ok (MongoCooldownRepository.getIdFromWhereOneInput
                 (WhereOneInput.mk commandId guildId (Some ""))))
    ∧ (∀ (secs : Z),
         MongoCooldownRepository.getIdFromEntity
           (PartialCooldownEntity.of_entity
              (CooldownEntity.mk commandId guildId (Some "") "per-user" secs))
         = Ok (commandId +:+ "-" +:+ guildId +:+ "-")
         ∧ MongoCooldownRepository.getIdFromEntity
             (PartialCooldownEntity.of_entity
                (CooldownEntity.mk commandId guildId (Some "") "per-user" secs))
           ≠ Ok (MongoCooldownRepository.getIdFromWhereOneInput
                   (WhereOneInput.mk commandId guildId (Some "")))).
Proof.
  intros commandId guildId.
  assert (Hglobal : ∀ (other : option string) (secs : Z),
    MongoCooldownRepository.getIdFromEntity
      (PartialCooldownEntity.of_entity
         (CooldownEntity.mk commandId guildId other "global" secs))
    = Ok (MongoCooldownRepository.getIdFromWhereOneInput
            (WhereOneInput.mk commandId guildId None))).
  { intros other secs.
    unfold MongoCooldownRepository.getIdFromEntity,
      MongoCooldownRepository.getIdFromWhereOneInput. simpl.
    by rewrite append_empty_r. }
  split; [exact Hglobal|]. split; [|split; [reflexivity|split; [exact Hglobal|]]].
  - intros userId secs Hne.
    unfold MongoCooldownRepository.getIdFromEntity,
      MongoCooldownRepository.getIdFromWhereOneInput.
    cbn [WhereOneInput.userId WhereOneInput.commandId WhereOneInput.guildId].
    rewrite (truthy_nonempty _ Hne). reflexivity.
  - intros secs. split; [reflexivity|].
    unfold MongoCooldownRepository.getIdFromEntity,
      MongoCooldownRepository.getIdFromWhereOneInput. simpl.
    intros [= Heq]. by apply (append_suffix_ne commandId guildId "-").
Qed.

(** Witness of C8: user "u1" of guild "g1" and the command "ban". *)
Lemma where_identity_matches_entity_identity_witness :
  "u1" ≠ ""
  ∧ MongoCooldownRepository.getIdFromEntity
      (PartialCooldownEntity.of_entity
         (CooldownEntity.mk "ban" "g1" (Some "u1") "per-user" 30))
    = Ok (MongoCooldownRepository.getIdFromWhereOneInput
            (WhereOneInput.mk "ban" "g1" (Some "u1")))
  ∧ MongoCooldownRepository.getIdFromWhereOneInput
      (WhereOneInput.mk "ban" "g1" (Some ""))
    = MongoCooldownRepository.getIdFromWhereOneInput
        (WhereOneInput.mk "ban" "g1" None).
Proof.
  destruct (where_identity_matches_entity_identity "ban" "g1")
    as (_ & Huser & Hempty & _).
  split; [discriminate|]. split; [|exact Hempty].
  apply Huser. discriminate.
Defined.

(** Counterexample to C8 as written: with the empty string as [userId],
    the query derives "ban-g1" and the per-user entity "ban-g1-". *)
Lemma empty_userId_counterexample :
  MongoCooldownRepository.getIdFromWhereOneInput (WhereOneInput.mk "ban" "g1" (Some ""))
  = "ban-g1"
  ∧ MongoCooldownRepository.getIdFromEntity
      (PartialCooldownEntity.of_entity
         (CooldownEntity.mk "ban" "g1" (Some "") "per-user" 30))
    = Ok "ban-g1-"
  ∧ MongoCooldownRepository.getIdFromEntity
      (PartialCooldownEntity.of_entity
         (CooldownEntity.mk "ban" "g1" (Some "") "per-user" 30))
    ≠ Ok (MongoCooldownRepository.getIdFromWhereOneInput
            (WhereOneInput.mk "ban" "g1" (Some ""))).
Proof.
  split; [reflexivity|]. split; [reflexivity|]. vm_compute. discriminate.
Qed.

(** C9. On the document store, [delete({commandId: "ban", guildId: "g1"})]
    issues the call [deleteOne({_id: "ban-g1", name: "ban"})] and completes
    without error; the document stored under "ban-g1" whose name is "ban" is
    removed and every other document is left.  The match on the name is
    redundant on a collection written through [save] (keyed by name): there
    the document under "ban-g1", if any, is removed.  A document under
    "ban-g1" with another name is left.  For every query whose derived
    identity is the [_id] of no stored document, [delete] completes without
    error and leaves the store as it was. *)
Theorem delete_removes_matching_document :
  ∀ (db : CooldownModel.Db (gmap string CooldownModel.Doc)),
    (∀ d, CooldownModel.store db !! "ban-g1" = Some d →
          CooldownModel.name d = "ban" →
          MongoCooldownRepository.delete (WhereOneInput.mk "ban" "g1" None) db
          = (Ok tt,
             CooldownModel.mkDb (delete "ban-g1" (CooldownModel.store db))
               (CooldownModel.calls db
                ++ [CooldownModel.DeleteOne
                      (CooldownModel.mkDeleteFilter "ban-g1" "ban")])))
    ∧ (∀ d, keyed_by_name (CooldownModel.store db) →
            CooldownModel.store db !! "ban-g1" = Some d →
            MongoCooldownRepository.delete (WhereOneInput.mk "ban" "g1" None) db
            = (Ok tt,
               CooldownModel.mkDb (delete "ban-g1" (CooldownModel.store db))
                 (CooldownModel.calls db
                  ++ [CooldownModel.DeleteOne
                        (CooldownModel.mkDeleteFilter "ban-g1" "ban")])))
    ∧ (∀ d, CooldownModel.store db !! "ban-g1" = Some d →
            CooldownModel.name d ≠ "ban" →
            MongoCooldownRepository.delete (WhereOneInput.mk "ban" "g1" None) db
            = (Ok tt,
               CooldownModel.mkDb (CooldownModel.store db)
                 (CooldownModel.calls db
                  ++ [CooldownModel.DeleteOne
                        (CooldownModel.mkDeleteFilter "ban-g1" "ban")])))
    ∧ (∀ (q : WhereOneInput.t),
         CooldownModel.store db !! MongoCooldownRepository.getIdFromWhereOneInput q = None →
         MongoCooldownRepository.delete q db
         = (Ok tt,
            CooldownModel.mkDb (CooldownModel.store db)
              (CooldownModel.calls db
               ++ [CooldownModel.DeleteOne
                     (CooldownModel.mkDeleteFilter
                        (MongoCooldownRepository.getIdFromWhereOneInput q)
                        (WhereOneInput.commandId q))]))).
Proof.
  intros db.
  assert (Hid : MongoCooldownRepository.getIdFromWhereOneInput
                  (WhereOneInput.mk "ban" "g1" None) = "ban-g1") by reflexivity.
  assert (Hremove : ∀ d, CooldownModel.store db !! "ban-g1" = Some d →
            CooldownModel.name d = "ban" →
            MongoCooldownRepository.delete (WhereOneInput.mk "ban" "g1" None) db
            = (Ok tt,
               CooldownModel.mkDb (delete "ban-g1" (CooldownModel.store db))
                 (CooldownModel.calls db
                  ++ [CooldownModel.DeleteOne
                        (CooldownModel.mkDeleteFilter "ban-g1" "ban")]))).
  { intros d Hd Hname. rewrite delete_on_store, Hid, Hd.
    cbn [WhereOneInput.commandId]. rewrite Hname. reflexivity. }
  split; [exact Hremove|]. split; [|split].
  - intros d Hk Hd. apply (Hremove d Hd).
    destruct (Hk _ _ Hd) as [rest Hrest].
    by apply (identity_prefix_unique "ban" "g1" _ rest).
  - intros d Hd Hname. rewrite delete_on_store, Hid, Hd.
    cbn [WhereOneInput.commandId].
    apply String.eqb_neq in Hname. rewrite Hname. reflexivity.
  - intros q Hq. rewrite delete_on_store, Hq. reflexivity.
Qed.

(** Witness of C9: the store is what saving the global cooldowns of "ban"
    and "kick" on guild "g1" leaves; the first is removed by the query of
    the claim, and the query for "mute" on "g1", which matches nothing,
    leaves both. *)
Lemma delete_removes_matching_document_witness :
  let db0 := CooldownModel.mkDb (∅ : gmap string CooldownModel.Doc) [] in
  let db1 := snd (MongoCooldownRepository.save
                    (CooldownEntity.mk "ban" "g1" None "global" 5) db0) in
  let db := snd (MongoCooldownRepository.save
                   (CooldownEntity.mk "kick" "g1" None "global" 7) db1) in
  (keyed_by_name (CooldownModel.store db)
   ∧ CooldownModel.store db !! "ban-g1" = Some (CooldownModel.mkDoc "ban" "global" 5)
   ∧ fst (MongoCooldownRepository.delete (WhereOneInput.mk "ban" "g1" None) db) = Ok tt
   ∧ CooldownModel.store
       (snd (MongoCooldownRepository.delete (WhereOneInput.mk "ban" "g1" None) db))
     = delete "ban-g1" (CooldownModel.store db))
  ∧ (CooldownModel.store db !! "mute-g1" = None
     ∧ fst (MongoCooldownRepository.delete (WhereOneInput.mk "mute" "g1" None) db) = Ok tt
     ∧ CooldownModel.store
         (snd (MongoCooldownRepository.delete (WhereOneInput.mk "mute" "g1" None) db))
       = CooldownModel.store db).
Proof.
  intros db0 db1 db.
  assert (Hk : keyed_by_name (CooldownModel.store db))
    by (apply save_keyed_by_name, save_keyed_by_name, keyed_by_name_empty).
  destruct (delete_removes_matching_document db) as (_ & Hremove & _ & Hnoop).
  split.
  - split; [exact Hk|]. split; [reflexivity|].
    by rewrite (Hremove (CooldownModel.mkDoc "ban" "global" 5) Hk eq_refl).
  - split; [reflexivity|].
    by rewrite (Hnoop (WhereOneInput.mk "mute" "g1" None) eq_refl).
Defined.

(** C10. For every cooldown entity whose type is 'global' or 'per-user',
    [save] on the document store returns exactly the entity it was given;
    and over any collection, whatever document the upsert call returns, an
    entity returned by [save] is the entity it was given. *)
Theorem save_returns_given_entity :
  ∀ (e : CooldownEntity.t),
    CooldownEntity.type e = "global" ∨ CooldownEntity.type e = "per-user" →
    (∀ (db : CooldownModel.Db (gmap string CooldownModel.Doc)),
       fst (MongoCooldownRepository.save e db) = Ok e)
    ∧ (∀ (S : Type) (D : CooldownModel.Driver S) (db : CooldownModel.Db S)
         (e' : CooldownEntity.t),
         fst (MongoCooldownRepository.save e db) = Ok e' → e' = e).
Proof.
  intros e Hty.
  destruct (getIdFromEntity_recognized e Hty) as [_id Hid]. split.
  - intros db. rewrite (save_recognized e _id db Hid). cbn [fst].
    destruct (store_findOneAndUpdate_ok
                (CooldownModel.mkUpdateFilter _id (CooldownEntity.commandId e)
                   (CooldownEntity.type e))
                (CooldownModel.mkUpdate _id (CooldownEntity.commandId e)
                   (CooldownEntity.type e) (CooldownEntity.secondsRemaining e))
                true (CooldownModel.store db)) as [d Hd].
    cbn [CooldownModel.findOneAndUpdate CooldownModel.store_driver].
    by rewrite Hd.
  - intros S D db e'. rewrite (save_recognized e _id db Hid). cbn [fst].
    destruct (fst (CooldownModel.findOneAndUpdate _ _ _ _)); congruence.
Qed.

(** Witness of C10: a per-user cooldown saved over a stored one. *)
Lemma save_returns_given_entity_witness :
  let e := CooldownEntity.mk "ban" "g1" (Some "u1") "per-user" 30 in
  let db := CooldownModel.mkDb
              ({[ "ban-g1-u1" := CooldownModel.mkDoc "ban" "per-user" 5 ]}
                 : gmap string CooldownModel.Doc) [] in
  (CooldownEntity.type e = "global" ∨ CooldownEntity.type e = "per-user")
  ∧ fst (MongoCooldownRepository.save e db) = Ok e.
Proof.
  intros e db. split; [by right|].
  apply (save_returns_given_entity e). by right.
Defined.

(* ===================================================================== *)
(** * Properties of WOKCommands *)
(* ===================================================================== *)

(** Unfolding of the monad's operations. *)
Ltac unfold_monad :=
  cbv beta delta [mbind mret M_bind M_ret bind ret gets modify throw
                  WOKCommands.assign WOKCommands.emit WOKCommands.call
                  WOKCommands.set_guildSettings WOKCommands.set_dirs
                  WOKCommands.set_db] in *.

Section WOKProperties.
Import WOKCommands.
Context {B : Type}.
Implicit Types (st : State B) (w : World B).

(** The guarded accessor, case by case. *)
Lemma guildSettingsRepository_disconnected st :
  isDBConnected st = false →
  guildSettingsRepository st = (Throw (mkError db_not_connected), st).
Proof.
  intros Hc. unfold guildSettingsRepository. unfold_monad. by rewrite Hc.
Qed.

Lemma guildSettingsRepository_connected st r :
  isDBConnected st = true →
  _guildSettingsRepository (this st) = Some r →
  guildSettingsRepository st = (Ok r, st).
Proof.
  intros Hc Hr. unfold guildSettingsRepository. unfold_monad.
  rewrite Hc. cbn. by rewrite Hr.
Qed.

Lemma cooldownRepository_disconnected st :
  isDBConnected st = false →
  cooldownRepository st = (Throw (mkError db_not_connected), st).
Proof.
  intros Hc. unfold cooldownRepository. unfold_monad. by rewrite Hc.
Qed.

(** [getOrCreateGuildSettings] on a hit. *)
Lemma getOrCreateGuildSettings_hit guildId st gs :
  guildSettings st !! guildId = Some gs →
  getOrCreateGuildSettings guildId st = (Ok gs, st).
Proof.
  intros Hhit. unfold getOrCreateGuildSettings. unfold_monad.
  by rewrite Hhit.
Qed.

(** [getOrCreateGuildSettings] on a miss while the database is not
    connected. *)
Lemma getOrCreateGuildSettings_miss_disconnected guildId st :
  guildSettings st !! guildId = None →
  isDBConnected st = false →
  getOrCreateGuildSettings guildId st = (Throw (mkError db_not_connected), st).
Proof.
  intros Hmiss Hc. unfold getOrCreateGuildSettings. 
  cbv beta delta [mbind M_bind bind gets]. rewrite Hmiss.
  by rewrite (guildSettingsRepository_disconnected st Hc).
Qed.

(** [getOrCreateGuildSettings] on a miss, the database connected and
    [findOne] fulfilled. *)
Lemma getOrCreateGuildSettings_miss_connected guildId st repository found w' :
  guildSettings st !! guildId = None →
  isDBConnected st = true →
  _guildSettingsRepository (this st) = Some repository →
  IGuildSettingsRepository.findOne repository guildId (world st) = (Ok found, w') →
  getOrCreateGuildSettings guildId st
  = match found with
    | Some gs =>
        (Ok gs,
         mkState (with_guildSettings (<[guildId := gs]> (guildSettings st)) (this st))
                 w' (log st ++ [FindOne guildId]))
    | None =>
        let gs := fresh (dom (heap w')) in
        (Ok gs,
         mkState (with_guildSettings (<[guildId := gs]> (guildSettings st)) (this st))
                 (mkWorld (<[gs := GuildSettingsAggregate.new guildId]> (heap w'))
                          (backend w'))
                 (log st ++ [FindOne guildId]))
    end.
Proof.
  intros Hmiss Hc Hr Hfind. unfold getOrCreateGuildSettings.
  cbv beta delta [mbind M_bind bind gets]. rewrite Hmiss.
  rewrite (guildSettingsRepository_connected st repository Hc Hr).
  unfold call. rewrite Hfind.
  destruct found as [gs|]; reflexivity.
Qed.

(** [setPrefix] once the aggregate is resolved: the object is mutated in
    place; then, the database connected and [save] fulfilled, the entry
    of the guild becomes what [save] returned. *)
Lemma setPrefix_connected g prefix st gs st1 a repository updated w2 :
  getOrCreateGuildSettings (Guild.id g) st = (Ok gs, st1) →
  heap (world st1) !! gs = Some a →
  let w1 := mkWorld (<[gs := GuildSettingsAggregate.setPrefix (GuildPrefix.mk prefix) a]>
                       (heap (world st1)))
                    (backend (world st1)) in
  isDBConnected (mkState (this st1) w1 (log st1)) = true →
  _guildSettingsRepository (this st1) = Some repository →
  IGuildSettingsRepository.save repository gs w1 = (Ok updated, w2) →
  setPrefix (Some g) prefix st
  = (Ok tt,
     mkState (with_guildSettings (<[Guild.id g := updated]> (guildSettings st1))
                                 (this st1))
             w2 (log st1 ++ [Save gs])).
Proof.
  intros Hres Ha w1 Hc Hr Hsave. unfold setPrefix.
  cbv beta delta [mbind M_bind bind]. rewrite Hres.
  unfold aggregate_setPrefix, deref.
  cbv beta delta [mbind M_bind bind modify]. rewrite Ha. fold w1.
  rewrite (guildSettingsRepository_connected _ repository Hc Hr).
  unfold call. cbn [this world log]. rewrite Hsave. reflexivity.
Qed.

(** [setPrefix] once the aggregate is resolved, the database not
    connected: the call fails at the accessor, before [save]. *)
Lemma setPrefix_disconnected g prefix st gs st1 a :
  getOrCreateGuildSettings (Guild.id g) st = (Ok gs, st1) →
  heap (world st1) !! gs = Some a →
  let w1 := mkWorld (<[gs := GuildSettingsAggregate.setPrefix (GuildPrefix.mk prefix) a]>
                       (heap (world st1)))
                    (backend (world st1)) in
  isDBConnected (mkState (this st1) w1 (log st1)) = false →
  setPrefix (Some g) prefix st
  = (Throw (mkError db_not_connected), mkState (this st1) w1 (log st1)).
Proof.
  intros Hres Ha w1 Hc. unfold setPrefix.
  cbv beta delta [mbind M_bind bind]. rewrite Hres.
  unfold aggregate_setPrefix, deref.
  cbv beta delta [mbind M_bind bind modify]. rewrite Ha. fold w1.
  by rewrite (guildSettingsRepository_disconnected _ Hc).
Qed.



(** The [reduce] of [setUp] over references to live objects. *)
Lemma reduce_guildSettings_live settings agg st :
  Forall (λ s, is_Some (heap (world st) !! s)) settings →
  reduce_guildSettings settings agg st
  = (Ok (collect (heap (world st)) settings agg), st).
Proof.
  intros Hlive. revert agg.
  induction Hlive as [|s rest [a Ha] _ IH]; intros agg; [reflexivity|].
  cbn [reduce_guildSettings]. unfold deref at 1.
  cbv beta delta [mbind M_bind bind]. rewrite Ha, IH.
  unfold collect. cbn [foldl]. by rewrite Ha.
Qed.

Lemma collect_snoc h settings s agg :
  collect h (settings ++ [s]) agg
  = match h !! s with
    | Some a => <[GuildSettingsAggregate.guildId a := s]> (collect h settings agg)
    | None => collect h settings agg
    end.
Proof. unfold collect. by rewrite foldl_app. Qed.

(** After the [reduce], every aggregate of the list has an entry under its
    [guildId]: itself, or a later aggregate of the list with the same
    [guildId]. *)
Lemma collect_covers h settings agg s a :
  s ∈ settings →
  h !! s = Some a →
  ∃ s' a', s' ∈ settings
           ∧ collect h settings agg !! GuildSettingsAggregate.guildId a = Some s'
           ∧ h !! s' = Some a'
           ∧ GuildSettingsAggregate.guildId a' = GuildSettingsAggregate.guildId a.
Proof.
  induction settings as [|x rest IH] using rev_ind; [by intros ?%elem_of_nil|].
  intros Hin Ha. rewrite collect_snoc.
  apply elem_of_app in Hin as [Hin | Hin%list_elem_of_singleton].
  - destruct (IH Hin Ha) as (s' & a' & Hs' & Hlook & Ha' & Hid).
    destruct (h !! x) as [ax|] eqn:Hx.
    + destruct (decide (GuildSettingsAggregate.guildId ax
                        = GuildSettingsAggregate.guildId a)) as [Heq|Hne].
      * exists x, ax. rewrite Heq, lookup_insert_eq.
        split; [apply elem_of_app; right; by apply list_elem_of_singleton|done].
      * exists s', a'. rewrite lookup_insert_ne by done.
        split; [apply elem_of_app; by left|done].
    + exists s', a'. split; [apply elem_of_app; by left|done].
  - subst x. exists s, a. rewrite Ha, lookup_insert_eq.
    split; [apply elem_of_app; right; by apply list_elem_of_singleton|done].
Qed.

(** Distinct [guildId]s: every aggregate of the list is its own entry. *)
Lemma collect_distinct h settings agg s a :
  NoDup (omap (λ s, GuildSettingsAggregate.guildId <$> h !! s) settings) →
  s ∈ settings →
  h !! s = Some a →
  collect h settings agg !! GuildSettingsAggregate.guildId a = Some s.
Proof.
  induction settings as [|x rest IH] using rev_ind; [by intros _ ?%elem_of_nil|].
  intros Hnd Hin Ha. rewrite collect_snoc.
  rewrite omap_app in Hnd. apply NoDup_app in Hnd as (Hnd & Hdisj & _).
  apply elem_of_app in Hin as [Hin | Hin%list_elem_of_singleton].
  - destruct (h !! x) as [ax|] eqn:Hx; [|by apply IH].
    rewrite lookup_insert_ne; [by apply IH|].
    intros Heq. apply (Hdisj (GuildSettingsAggregate.guildId a)).
    + apply list_elem_of_omap. exists s. by rewrite Ha.
    + cbn. rewrite Hx. cbn. rewrite Heq. by apply list_elem_of_singleton.
  - subst x. by rewrite Ha, lookup_insert_eq.
Qed.

(** The status check of [setUp] when the status is not CONNECTED. *)
Lemma warm_cache_not_connected st :
  dbConnectionStatus st ≠ CONNECTED →
  warm_cache st
  = (Throw (mkError database_not_connected),
     mkState (this st) (world st)
             (log st ++ [Emit DATABASE_CONNECTED (dbConnectionStatus st)])).
Proof.
  intros Hs. unfold warm_cache.
  cbv beta iota delta [mbind M_bind bind gets emit modify throw].
  by rewrite bool_decide_eq_true_2.
Qed.

(** The cache warm of [setUp]: status CONNECTED, connectivity probe true,
    [findAll] fulfilled with references to live objects. *)
Lemma warm_cache_connected st repository settings w' :
  dbConnectionStatus st = CONNECTED →
  isDBConnected st = true →
  _guildSettingsRepository (this st) = Some repository →
  IGuildSettingsRepository.findAll repository (world st) = (Ok settings, w') →
  Forall (λ s, is_Some (heap w' !! s)) settings →
  warm_cache st
  = (Ok tt,
     mkState (with_guildSettings (collect (heap w') settings ∅) (this st)) w'
             (log st ++ [Emit DATABASE_CONNECTED CONNECTED; FindAll])).
Proof.
  intros Hs Hc Hr Hall Hlive. unfold warm_cache.
  cbv beta iota delta [mbind M_bind bind gets emit modify]. rewrite Hs.
  rewrite bool_decide_eq_false_2 by (by intros ?).
  cbv beta iota.
  rewrite (guildSettingsRepository_connected _ repository)
    by (done || by rewrite <- Hc).
  unfold call. cbn [this world log]. rewrite Hall.
  rewrite reduce_guildSettings_live by done.
  cbn [world]. unfold set_guildSettings, assign, modify.
  by rewrite <- app_assoc.
Qed.

(** The cache warm of [setUp]: status CONNECTED but connectivity probe
    false. *)
Lemma warm_cache_probe_false st :
  dbConnectionStatus st = CONNECTED →
  isDBConnected st = false →
  warm_cache st
  = (Throw (mkError db_not_connected),
     mkState (this st) (world st) (log st ++ [Emit DATABASE_CONNECTED CONNECTED])).
Proof.
  intros Hs Hc. unfold warm_cache.
  cbv beta iota delta [mbind M_bind bind gets emit modify]. rewrite Hs.
  rewrite bool_decide_eq_false_2 by (by intros ?).
  cbv beta iota.
  by rewrite (guildSettingsRepository_disconnected _) by (by rewrite <- Hc).
Qed.

(** [start_handlers] calls no repository: it changes the directories of
    the instance and at most records the new command handler. *)
Lemma start_handlers_spec c1 c2 f1 f2 st :
  ∃ r c f tail,
    start_handlers c1 c2 f1 f2 st
    = (r, mkState (with_dirs c f (this st)) (world st) (log st ++ tail))
    ∧ (tail = [] ∨ ∃ d, tail = [NewCommandHandler d]).
Proof.
  unfold start_handlers. unfold_monad. cbn [this world log].
  set (c := or_else (or_else c1 c2) (_commandsDir (this st))).
  set (f := or_else (or_else f1 f2) (_featuresDir (this st))).
  cbn [with_dirs _commandsDir _featuresDir].
  destruct (truthy (Some c) && negb (includes c "/" || includes c "\")).
  { exists (Throw (mkError commands_dir_not_absolute)), c, f, [].
    rewrite app_nil_r. eauto. }
  destruct (truthy (Some f) && negb (includes f "/" || includes f "\")).
  { exists (Throw (mkError features_dir_not_absolute)), c, f, [].
    rewrite app_nil_r. eauto. }
  exists (Ok tt), c, f, [NewCommandHandler c]. eauto.
Qed.

(** The strategy selection calls no repository and leaves the cache. *)
Lemma select_strategy_log mb options showWarns st useDb st1 :
  select_strategy mb options showWarns st = (Ok useDb, st1) →
  ∃ pre, log st1 = log st ++ pre ∧ (FindAll ∉ pre)
         ∧ guildSettings st1 = guildSettings st.
Proof.
  unfold select_strategy.
  assert (Hno : ∀ r s,
    ((if showWarns then emit (ConsoleWarn no_db_warning) else mret tt) ;;
     emit (Emit DATABASE_CONNECTED NO_DATABASE) ;; mret false) st = (r, s) →
    ∃ pre, log s = log st ++ pre ∧ (FindAll ∉ pre)
           ∧ guildSettings s = guildSettings st).
  { intros r s. destruct showWarns; unfold_monad; intros [= <- <-]; cbn.
    - rewrite <- app_assoc. eexists. split; [done|].
      split; [|done]. by intros ?%list_elem_of_In; cbn in *; intuition discriminate.
    - eexists. split; [done|].
      split; [|done]. by intros ?%list_elem_of_In; cbn in *; intuition discriminate. }
  destruct options as [o|]; [|intros H; exact (Hno _ _ H)].
  destruct (Options.db o) as [uri | p1 p2 r1 r2].
  - destruct (truthy uri); [|intros H; exact (Hno _ _ H)].
    unfold_monad.
    destruct (MongoBackend.mongo mb (interp uri) (world st)) as [[[]|e] w1];
      intros [= <- <-]; cbn.
    eexists. split; [done|].
    split; [|done]. by intros ?%list_elem_of_In; cbn in *; intuition discriminate.
  - unfold_monad. intros [= <- <-]. cbn.
    exists []. rewrite app_nil_r. split; [done|].
    split; [|done]. by intros ?%elem_of_nil.
Qed.

(** The strategy selection on options that configure a backend: it
    fails, as the connection attempt does, or it selects the strategy and
    sets the repository; it calls no repository and constructs no command
    handler. *)
Lemma select_strategy_configured mb o showWarns st :
  backend_configured o = true →
  (∃ pre, log (snd (select_strategy mb (Some o) showWarns st)) = log st ++ pre
          ∧ (FindAll ∉ pre) ∧ no_handler pre)
  ∧ ((∃ e, fst (select_strategy mb (Some o) showWarns st) = Throw e)
     ∨ (fst (select_strategy mb (Some o) showWarns st) = Ok true
        ∧ is_Some (_guildSettingsRepository
                     (this (snd (select_strategy mb (Some o) showWarns st)))))).
Proof.
  unfold backend_configured, select_strategy.
  destruct (Options.db o) as [uri | p1 p2 r1 r2].
  - intros ->. unfold_monad.
    assert (Hpre : (FindAll ∉ [MongoConnect (interp uri)])
                   ∧ no_handler [MongoConnect (interp uri)]).
    { split; [|intros d]; intros ?%list_elem_of_singleton; discriminate. }
    destruct (MongoBackend.mongo mb (interp uri) (world st)) as [[[]|e] w1]; cbn.
    + split; [by eexists|]. right. split; [done | by eexists].
    + split; [by eexists|]. left. by eexists.
  - intros _. unfold_monad. cbn. split.
    + exists []. rewrite app_nil_r. split; [done|].
      split; [|intros d]; apply not_elem_of_nil.
    + right. split; [done | by eexists].
Qed.

(** The cache warm of [setUp] when [findAll] is rejected: the set-up fails
    with its error, after that one call. *)
Lemma warm_cache_findAll_fails st repository e w' :
  dbConnectionStatus st = CONNECTED →
  isDBConnected st = true →
  _guildSettingsRepository (this st) = Some repository →
  IGuildSettingsRepository.findAll repository (world st) = (Throw e, w') →
  warm_cache st
  = (Throw e,
     mkState (this st) w' (log st ++ [Emit DATABASE_CONNECTED CONNECTED; FindAll])).
Proof.
  intros Hs Hc Hr Hall. unfold warm_cache.
  cbv beta iota delta [mbind M_bind bind gets emit modify]. rewrite Hs.
  rewrite bool_decide_eq_false_2 by (by intros ?).
  cbv beta iota.
  rewrite (guildSettingsRepository_connected _ repository)
    by (done || by rewrite <- Hc).
  unfold call. cbn [this world log]. rewrite Hall.
  by rewrite <- app_assoc.
Qed.

End WOKProperties.

(** C4. [isDBConnected()] is false exactly when no connectivity probe was
    set (no persistence strategy configured) or the probe reports false; and
    whenever it is false, the accessors [guildSettingsRepository] and
    [cooldownRepository] both fail with "DB not connected!" and leave the
    instance, the world and the list of events as they were. *)
Theorem accessors_fail_when_not_connected :
  ∀ (B : Type) (st : WOKCommands.State B),
    (WOKCommands.isDBConnected st = false
     ↔ match WOKCommands._isDbConnected (WOKCommands.this st) with
       | None => True
       | Some probe => probe (WOKCommands.world st) = false
       end)
    ∧ (WOKCommands.isDBConnected st = false →
       WOKCommands.guildSettingsRepository st
       = (Throw (mkError "DB not connected!"), st)
       ∧ WOKCommands.cooldownRepository st
         = (Throw (mkError "DB not connected!"), st)).
Proof.
  intros B st. split.
  - unfold WOKCommands.isDBConnected.
    destruct (WOKCommands._isDbConnected (WOKCommands.this st)); naive_solver.
  - intros Hc. split.
    + by apply guildSettingsRepository_disconnected.
    + by apply cooldownRepository_disconnected.
Qed.

(** Witness of C4: an instance set up without a database strategy. *)
Lemma accessors_fail_when_not_connected_witness :
  let st := InMemory.start InMemory.with_g1 in
  WOKCommands.isDBConnected st = false
  ∧ WOKCommands.guildSettingsRepository st
    = (Throw (mkError "DB not connected!"), st)
  ∧ WOKCommands.cooldownRepository st
    = (Throw (mkError "DB not connected!"), st).
Proof.
  intros st. split; [reflexivity|].
  apply (accessors_fail_when_not_connected _ st). reflexivity.
Defined.

(** C5, as the code has it. For every [guildId]: if the cache holds an
    aggregate for [guildId], it is returned and nothing else happens (no
    repository call, no change of state).  On a miss, the guarded accessor
    is consulted first: if the database is not connected the call fails with
    "DB not connected!" and changes nothing; if it is connected and
    [findOne(guildId)] is fulfilled, that one call is recorded, its result,
    or when it is absent a new default aggregate (default prefix, empty
    category map), is stored in the cache under [guildId] and returned. *)
Theorem getOrCreateGuildSettings_cache_aside :
  ∀ (B : Type) (guildId : string) (st : WOKCommands.State B),
    (∀ gs, WOKCommands.guildSettings st !! guildId = Some gs →
           WOKCommands.getOrCreateGuildSettings guildId st = (Ok gs, st))
    ∧ (WOKCommands.guildSettings st !! guildId = None →
       WOKCommands.isDBConnected st = false →
       WOKCommands.getOrCreateGuildSettings guildId st
       = (Throw (mkError "DB not connected!"), st))
    ∧ (WOKCommands.guildSettings st !! guildId = None →
       WOKCommands.isDBConnected st = true →
       ∀ repository found w',
         WOKCommands._guildSettingsRepository (WOKCommands.this st) = Some repository →
         IGuildSettingsRepository.findOne repository guildId (WOKCommands.world st)
         = (Ok found, w') →
         WOKCommands.getOrCreateGuildSettings guildId st
         = match found with
           | Some gs =>
               (Ok gs,
                WOKCommands.mkState
                  (WOKCommands.with_guildSettings
                     (<[guildId := gs]> (WOKCommands.guildSettings st))
                     (WOKCommands.this st))
                  w' (WOKCommands.log st ++ [WOKCommands.FindOne guildId]))
           | None =>
               let gs := fresh (dom (heap w')) in
               (Ok gs,
                WOKCommands.mkState
                  (WOKCommands.with_guildSettings
                     (<[guildId := gs]> (WOKCommands.guildSettings st))
                     (WOKCommands.this st))
                  (mkWorld
                     (<[gs := GuildSettingsAggregate.mk guildId
                                (GuildPrefix.mk GuildSettingsAggregate.default_prefix) ∅]>
                        (heap w'))
                     (backend w'))
                  (WOKCommands.log st ++ [WOKCommands.FindOne guildId]))
           end).
Proof.
  intros B guildId st. split; [|split].
  - intros gs. apply getOrCreateGuildSettings_hit.
  - apply getOrCreateGuildSettings_miss_disconnected.
  - intros Hmiss Hc repository found w' Hr Hfind.
    by rewrite (getOrCreateGuildSettings_miss_connected
                  guildId st repository found w' Hmiss Hc Hr Hfind).
Qed.

(** Witness of C5: after a set-up on the built-in strategy over a store
    that holds only guild "g1", guild "g2" is a miss; [findOne] finds
    nothing; the new object 2 is the default aggregate of "g2", is cached
    under "g2" and is returned. *)
Lemma getOrCreateGuildSettings_cache_aside_witness :
  let st := snd (WOKCommands.setUp InMemory.mongoBackend
                   (Some WOKCommands.DiscordClient)
                   (Some (InMemory.options (MONGOOSE (Some "mongodb://localhost/bot"))))
                   (InMemory.start InMemory.with_g1)) in
  WOKCommands.guildSettings st !! "g1" = Some 1%positive
  ∧ WOKCommands.getOrCreateGuildSettings "g1" st = (Ok 1%positive, st)
  ∧ WOKCommands.guildSettings st !! "g2" = None
  ∧ WOKCommands.isDBConnected st = true
  ∧ WOKCommands.getOrCreateGuildSettings "g2" st
    = (Ok 2%positive,
       WOKCommands.mkState
         (WOKCommands.with_guildSettings
            (<["g2" := 2%positive]> (WOKCommands.guildSettings st))
            (WOKCommands.this st))
         (mkWorld
            (<[2%positive := GuildSettingsAggregate.mk "g2" (GuildPrefix.mk "!") ∅]>
               (heap (WOKCommands.world st)))
            (backend (WOKCommands.world st)))
         (WOKCommands.log st ++ [WOKCommands.FindOne "g2"])).
Proof.
  intros st.
  destruct (getOrCreateGuildSettings_cache_aside _ "g1" st) as (Hhit & _ & _).
  destruct (getOrCreateGuildSettings_cache_aside _ "g2" st) as (_ & _ & Hmiss).
  split; [reflexivity|]. split; [apply Hhit; reflexivity|].
  split; [reflexivity|]. split; [reflexivity|].
  apply (Hmiss eq_refl eq_refl InMemory.guildSettingsRepository None
           (WOKCommands.world st)); reflexivity.
Defined.

(** Counterexample to C5 as written: an instance set up without a database
    (the options name the built-in strategy but give no [mongoUri]).  Guild
    "g2" is a miss, and [getOrCreateGuildSettings("g2")] fails with
    "DB not connected!": [findOne] is not called, no aggregate is
    constructed, cached or returned. *)
Lemma getOrCreateGuildSettings_no_database_counterexample :
  let boot := WOKCommands.setUp InMemory.mongoBackend
                (Some WOKCommands.DiscordClient)
                (Some (InMemory.options (MONGOOSE None)))
                (InMemory.start InMemory.empty) in
  let st := snd boot in
  fst boot = Ok tt
  ∧ WOKCommands.guildSettings st !! "g2" = None
  ∧ WOKCommands.getOrCreateGuildSettings "g2" st
    = (Throw (mkError "DB not connected!"), st)
  ∧ (WOKCommands.FindOne "g2"
     ∉ WOKCommands.log (snd (WOKCommands.getOrCreateGuildSettings "g2" st)))
  ∧ WOKCommands.guildSettings (snd (WOKCommands.getOrCreateGuildSettings "g2" st)) !! "g2"
    = None.
Proof.
  intros boot st.
  split; [reflexivity|]. split; [reflexivity|]. split; [reflexivity|].
  split; [|reflexivity].
  intros Hin%list_elem_of_In. vm_compute in Hin. intuition discriminate.
Qed.




(** C7, as the code has it. At initialization with a persistence backend
    configured in the options (the built-in strategy with a [mongoUri], or
    the caller-supplied strategy), the strategy selection calls no
    repository and constructs no command handler, and:
    - if the selection fails, as when the connection attempt of the
      built-in strategy is rejected, [setUp] fails with the same error and
      does nothing more: [findAll] is not called and no command handler is
      constructed;
    - otherwise the strategy is selected and the repository is set; then
    - if the connection status is not CONNECTED, [setUp] fails with
      "WOKCommands > Database not connected!" right after emitting the
      status: [findAll] is not called;
    - if the status is CONNECTED but the connectivity probe behind
      [isDBConnected()] reports false, [setUp] fails at the guarded accessor
      with "DB not connected!": [findAll] is not called;
    - if the status is CONNECTED, the connectivity probe reports true and
      [findAll()] is rejected, [setUp] fails with the error of [findAll],
      after that one call;
    - if the status is CONNECTED, the connectivity probe reports true and
      [findAll()] is fulfilled with live aggregates, then [findAll] is called
      exactly once, before the command handler is constructed; the cache is
      the collection built by setting every returned aggregate under its
      [guildId], in order; so every returned aggregate has an entry under its
      [guildId], holding it or a later returned aggregate with the same
      [guildId], and holding it when the returned aggregates have distinct
      [guildId]s. *)
Theorem setUp_warms_cache_or_fails :
  ∀ (B : Type) (mb : MongoBackend.t B) (client : WOKCommands.Client)
    (o : Options.t B) (st : WOKCommands.State B),
    backend_configured o = true →
    let sel := WOKCommands.select_strategy mb (Some o)
                 (default true (Options.showWarns o)) st in
    let st1 := snd sel in
    (∃ pre, WOKCommands.log st1 = WOKCommands.log st ++ pre
            ∧ (WOKCommands.FindAll ∉ pre)
            ∧ no_handler pre)
    ∧ (∀ e, fst sel = Throw e →
            WOKCommands.setUp mb (Some client) (Some o) st = (Throw e, st1))
    ∧ (is_ok (fst sel) = true →
       fst sel = Ok true
       ∧ is_Some (WOKCommands._guildSettingsRepository (WOKCommands.this st1)))
    ∧ (is_ok (fst sel) = true →
       WOKCommands.dbConnectionStatus st1 ≠ CONNECTED →
       WOKCommands.setUp mb (Some client) (Some o) st
       = (Throw (mkError "WOKCommands > Database not connected!"),
          WOKCommands.mkState (WOKCommands.this st1) (WOKCommands.world st1)
            (WOKCommands.log st1
             ++ [WOKCommands.Emit WOKCommands.DATABASE_CONNECTED
                   (WOKCommands.dbConnectionStatus st1)])))
    ∧ (is_ok (fst sel) = true →
       WOKCommands.dbConnectionStatus st1 = CONNECTED →
       WOKCommands.isDBConnected st1 = false →
       WOKCommands.setUp mb (Some client) (Some o) st
       = (Throw (mkError "DB not connected!"),
          WOKCommands.mkState (WOKCommands.this st1) (WOKCommands.world st1)
            (WOKCommands.log st1
             ++ [WOKCommands.Emit WOKCommands.DATABASE_CONNECTED CONNECTED])))
    ∧ (is_ok (fst sel) = true →
       WOKCommands.dbConnectionStatus st1 = CONNECTED →
       WOKCommands.isDBConnected st1 = true →
       ∀ repository e w',
         WOKCommands._guildSettingsRepository (WOKCommands.this st1) = Some repository →
         IGuildSettingsRepository.findAll repository (WOKCommands.world st1)
         = (Throw e, w') →
         WOKCommands.setUp mb (Some client) (Some o) st
         = (Throw e,
            WOKCommands.mkState (WOKCommands.this st1) w'
              (WOKCommands.log st1
               ++ [WOKCommands.Emit WOKCommands.DATABASE_CONNECTED CONNECTED;
                   WOKCommands.FindAll])))
    ∧ (is_ok (fst sel) = true →
       WOKCommands.dbConnectionStatus st1 = CONNECTED →
       WOKCommands.isDBConnected st1 = true →
       ∀ repository settings w',
         WOKCommands._guildSettingsRepository (WOKCommands.this st1) = Some repository →
         IGuildSettingsRepository.findAll repository (WOKCommands.world st1)
         = (Ok settings, w') →
         Forall (λ s, is_Some (heap w' !! s)) settings →
         ∃ r stf tail,
           WOKCommands.setUp mb (Some client) (Some o) st = (r, stf)
           ∧ WOKCommands.log stf
             = WOKCommands.log st1
               ++ [WOKCommands.Emit WOKCommands.DATABASE_CONNECTED CONNECTED;
                   WOKCommands.FindAll]
               ++ tail
           ∧ (tail = [] ∨ ∃ d, tail = [WOKCommands.NewCommandHandler d])
           ∧ WOKCommands.world stf = w'
           ∧ WOKCommands.guildSettings stf = WOKCommands.collect (heap w') settings ∅
           ∧ (∀ s a, s ∈ settings → heap w' !! s = Some a →
                ∃ s' a', s' ∈ settings
                  ∧ WOKCommands.guildSettings stf !! GuildSettingsAggregate.guildId a
                    = Some s'
                  ∧ heap w' !! s' = Some a'
                  ∧ GuildSettingsAggregate.guildId a'
                    = GuildSettingsAggregate.guildId a)
           ∧ (NoDup (omap (λ s, GuildSettingsAggregate.guildId <$> heap w' !! s)
                          settings) →
              ∀ s a, s ∈ settings → heap w' !! s = Some a →
                WOKCommands.guildSettings stf !! GuildSettingsAggregate.guildId a
                = Some s)).
Proof.
  intros B mb client o st Hconf sel st1.
  destruct (select_strategy_configured mb o (default true (Options.showWarns o)) st Hconf)
    as (Hpre & Hsel).
  fold sel in Hpre, Hsel. fold st1 in Hpre, Hsel.
  assert (Hfail : ∀ e, fst sel = Throw e →
            WOKCommands.setUp mb (Some client) (Some o) st = (Throw e, st1)).
  { intros e He. unfold WOKCommands.setUp. cbv beta zeta delta [mbind M_bind bind].
    cbn [option_bind]. fold sel. subst st1.
    destruct sel as [r s1]. cbn [fst snd] in *. by subst r. }
  assert (Hrun : is_ok (fst sel) = true →
    WOKCommands.setUp mb (Some client) (Some o) st
    = (WOKCommands.warm_cache ;;
       WOKCommands.start_handlers
         (default "" (Options.commandsDir o)) (default "" (Options.commandDir o))
         (default "" (Options.featuresDir o)) (default "" (Options.featureDir o)))
        st1).
  { intros Hok. destruct Hsel as [[e He] | [Htrue _]];
      [by rewrite He in Hok|].
    unfold WOKCommands.setUp. cbv beta zeta delta [mbind M_bind bind].
    cbn [option_bind]. fold sel. subst st1.
    destruct sel as [r s1]. cbn [fst snd] in *. by subst r. }
  split; [exact Hpre|]. split; [exact Hfail|].
  split; [|split; [|split; [|split]]].
  - intros Hok. destruct Hsel as [[e He] | Htrue]; [by rewrite He in Hok | exact Htrue].
  - intros Hok Hs. rewrite (Hrun Hok). cbv beta delta [mbind M_bind bind].
    by rewrite (warm_cache_not_connected st1 Hs).
  - intros Hok Hs Hc. rewrite (Hrun Hok). cbv beta delta [mbind M_bind bind].
    by rewrite (warm_cache_probe_false st1 Hs Hc).
  - intros Hok Hs Hc repository e w' Hr Hall.
    rewrite (Hrun Hok). cbv beta delta [mbind M_bind bind].
    by rewrite (warm_cache_findAll_fails st1 repository e w' Hs Hc Hr Hall).
  - intros Hok Hs Hc repository settings w' Hr Hall Hlive.
    rewrite (Hrun Hok). cbv beta delta [mbind M_bind bind].
    rewrite (warm_cache_connected st1 repository settings w' Hs Hc Hr Hall Hlive).
    cbv beta iota.
    edestruct (start_handlers_spec (B := B)) as (r & c & f & tail & Hstart & Htail).
    rewrite Hstart.
    eexists r, _, tail. split; [reflexivity|].
    cbn [WOKCommands.log WOKCommands.world].
    split; [by rewrite <- app_assoc|]. split; [exact Htail|].
    split; [reflexivity|]. split; [reflexivity|]. split.
    + intros s a Hin Ha.
      exact (collect_covers (heap w') settings ∅ s a Hin Ha).
    + intros Hnd s a Hin Ha.
      exact (collect_distinct (heap w') settings ∅ s a Hnd Hin Ha).
Qed.

(** Witness of C7: the built-in strategy over a store that holds guild
    "g1".  The connection becomes ready, the status is CONNECTED, [findAll]
    returns one new object, 1, and the cache maps "g1" to it; the events are
    the connection, the status, [findAll], then the command handler.  When
    the server refuses the connection, the set-up fails with the error of
    the connection attempt, right after it. *)
Lemma setUp_warms_cache_or_fails_witness :
  let o := InMemory.options (MONGOOSE (Some "mongodb://localhost/bot")) in
  let st := InMemory.start InMemory.with_g1 in
  let sel := WOKCommands.select_strategy InMemory.mongoBackend (Some o)
               (default true (Options.showWarns o)) st in
  let st1 := snd sel in
  let sel' := WOKCommands.select_strategy InMemory.unreachable (Some o)
                (default true (Options.showWarns o)) st in
  (backend_configured o = true
   ∧ fst sel' = Throw (mkError InMemory.refused)
   ∧ WOKCommands.setUp InMemory.unreachable (Some WOKCommands.DiscordClient) (Some o) st
     = (Throw (mkError InMemory.refused), snd sel')
   ∧ WOKCommands.log (snd sel') = [WOKCommands.MongoConnect "mongodb://localhost/bot"])
  ∧ is_ok (fst sel) = true
  ∧ WOKCommands.dbConnectionStatus st1 = CONNECTED
  ∧ WOKCommands.isDBConnected st1 = true
  ∧ ∃ r stf tail,
      WOKCommands.setUp InMemory.mongoBackend (Some WOKCommands.DiscordClient) (Some o) st
      = (r, stf)
      ∧ WOKCommands.log stf
        = WOKCommands.log st1
          ++ [WOKCommands.Emit WOKCommands.DATABASE_CONNECTED CONNECTED;
              WOKCommands.FindAll]
          ++ tail
      ∧ WOKCommands.guildSettings stf !! "g1" = Some 1%positive.
Proof.
  intros o st sel st1 sel'.
  split.
  { destruct (setUp_warms_cache_or_fails _ InMemory.unreachable
                WOKCommands.DiscordClient o st eq_refl)
      as (_ & Hfail & _).
    split; [reflexivity|]. split; [reflexivity|].
    split; [|reflexivity].
    exact (Hfail (mkError InMemory.refused) eq_refl). }
  split; [reflexivity|].
  split; [reflexivity|]. split; [reflexivity|].
  destruct (setUp_warms_cache_or_fails _ InMemory.mongoBackend
              WOKCommands.DiscordClient o st eq_refl)
    as (_ & _ & _ & _ & _ & _ & Hwarm).
  destruct (Hwarm eq_refl eq_refl eq_refl InMemory.guildSettingsRepository [1%positive]
              (snd (InMemory.findAll (WOKCommands.world st1))) eq_refl eq_refl)
    as (r & stf & tail & Hrun & Hlog & _ & _ & Hcache & _ & _).
  { repeat constructor. by eexists. }
  exists r, stf, tail. split; [exact Hrun|]. split; [exact Hlog|].
  rewrite Hcache. reflexivity.
Defined.

(** Counterexample to C7 as written: the caller-supplied strategy with a
    status probe that reports CONNECTED and a connectivity probe that
    reports false, over a store that holds guild "g1".  The status is
    CONNECTED, yet [setUp] fails with "DB not connected!", [findAll] is not
    called and the cache stays empty. *)
Lemma setUp_probes_disagree_counterexample :
  let o := InMemory.options (InMemory.generic false CONNECTED) in
  let st := InMemory.start InMemory.with_g1 in
  let st1 := snd (WOKCommands.select_strategy InMemory.mongoBackend (Some o) true st) in
  let run := WOKCommands.setUp InMemory.mongoBackend
               (Some WOKCommands.DiscordClient) (Some o) st in
  WOKCommands.select_strategy InMemory.mongoBackend (Some o) true st = (Ok true, st1)
  ∧ WOKCommands.dbConnectionStatus st1 = CONNECTED
  ∧ fst run = Throw (mkError "DB not connected!")
  ∧ WOKCommands.log (snd run)
    = [WOKCommands.Emit WOKCommands.DATABASE_CONNECTED CONNECTED]
  ∧ (WOKCommands.FindAll ∉ WOKCommands.log (snd run))
  ∧ WOKCommands.guildSettings (snd run) = ∅.
Proof.
  intros o st st1 run.
  split; [reflexivity|]. split; [reflexivity|]. split; [reflexivity|].
  split; [reflexivity|]. split; [|reflexivity].
  intros Hin%list_elem_of_In. vm_compute in Hin. intuition discriminate.
Qed.

(* ===================================================================== *)
(** * Further properties of MongoCooldownRepository *)
(* ===================================================================== *)

Section CooldownIdentities.
Import CooldownModel.

(** Cutting at the first separator: the part before it and the part after
    it are determined when the parts before hold no separator. *)
Lemma dash_split_unique (a a' r r' : string) :
  dash_free a = true →
  dash_free a' = true →
  a +:+ "-" +:+ r = a' +:+ "-" +:+ r' →
  a = a' ∧ r = r'.
Proof.
  revert a'. induction a as [|x a IH]; intros a' Ha Ha' Heq.
  - destruct a' as [|y a'].
    + rewrite !append_nil_l in Heq. injection Heq as Heq.
      change (r = r') in Heq. done.
    + rewrite append_cons in Heq. injection Heq as <- _.
      cbn [dash_free] in Ha'. discriminate.
  - cbn [dash_free] in Ha. apply andb_true_iff in Ha as [Hx Ha].
    destruct a' as [|y a'].
    + rewrite append_cons in Heq. injection Heq as -> _. discriminate.
    + cbn [dash_free] in Ha'. apply andb_true_iff in Ha' as [_ Ha'].
      rewrite !append_cons in Heq. injection Heq as -> Heq.
      destruct (IH a' Ha Ha' Heq) as [-> ->]. done.
Qed.

(** The type of an entity that has an identity. *)
Lemma getIdFromEntity_cases (e : CooldownEntity.t) (_id : string) :
  MongoCooldownRepository.getIdFromEntity (PartialCooldownEntity.of_entity e) = Ok _id →
  (CooldownEntity.type e = "global"
   ∧ _id = CooldownEntity.commandId e +:+ "-" +:+ CooldownEntity.guildId e)
  ∨ (CooldownEntity.type e = "per-user"
     ∧ _id = CooldownEntity.commandId e +:+ "-" +:+ CooldownEntity.guildId e
             +:+ "-" +:+ interp (CooldownEntity.userId e)).
Proof.
  unfold MongoCooldownRepository.getIdFromEntity.
  cbn [PartialCooldownEntity.of_entity PartialCooldownEntity.type
       PartialCooldownEntity.commandId PartialCooldownEntity.guildId
       PartialCooldownEntity.userId interp strict_eq].
  destruct (String.eqb_spec (CooldownEntity.type e) "global") as [Hg|_].
  { intros [= <-]. by left. }
  destruct (String.eqb_spec (CooldownEntity.type e) "per-user") as [Hu|_].
  { intros [= <-]. by right. }
  discriminate.
Qed.

End CooldownIdentities.

(** X1. Among entities whose [commandId], [guildId] and [userId] hold no
    separator "-", the identity is injective: two entities with the same
    identity have the same type, [commandId] and [guildId], and for the
    per-user type the same [userId] (an absent one counting as the text
    "undefined"). *)
Theorem identity_injective_on_separator_free :
  ∀ (e1 e2 : CooldownEntity.t) (_id : string),
    dash_free (CooldownEntity.commandId e1) = true →
    dash_free (CooldownEntity.guildId e1) = true →
    dash_free (interp (CooldownEntity.userId e1)) = true →
    dash_free (CooldownEntity.commandId e2) = true →
    dash_free (CooldownEntity.guildId e2) = true →
    dash_free (interp (CooldownEntity.userId e2)) = true →
    MongoCooldownRepository.getIdFromEntity (PartialCooldownEntity.of_entity e1) = Ok _id →
    MongoCooldownRepository.getIdFromEntity (PartialCooldownEntity.of_entity e2) = Ok _id →
    CooldownEntity.type e1 = CooldownEntity.type e2
    ∧ CooldownEntity.commandId e1 = CooldownEntity.commandId e2
    ∧ CooldownEntity.guildId e1 = CooldownEntity.guildId e2
    ∧ (CooldownEntity.type e1 = "per-user" →
       interp (CooldownEntity.userId e1) = interp (CooldownEntity.userId e2)).
Proof.
  intros e1 e2 _id Hc1 Hg1 Hu1 Hc2 Hg2 Hu2 H1 H2.
  apply getIdFromEntity_cases in H1 as [[Ht1 E1] | [Ht1 E1]];
    apply getIdFromEntity_cases in H2 as [[Ht2 E2] | [Ht2 E2]];
    rewrite E1 in E2; clear E1.
  - destruct (dash_split_unique _ _ _ _ Hc1 Hc2 E2) as [Hc Hg].
    rewrite Ht1, Ht2. by repeat split.
  - destruct (dash_split_unique _ _ _ _ Hc1 Hc2 E2) as [_ Hg].
    rewrite Hg, dash_free_append_dash in Hg1. discriminate.
  - destruct (dash_split_unique _ _ _ _ Hc1 Hc2 E2) as [_ Hg].
    rewrite <- Hg, dash_free_append_dash in Hg2. discriminate.
  - destruct (dash_split_unique _ _ _ _ Hc1 Hc2 E2) as [Hc Hrest].
    destruct (dash_split_unique _ _ _ _ Hg1 Hg2 Hrest) as [Hg Hu].
    rewrite Ht1, Ht2. done.
Qed.

(** Witness of X1: the per-user cooldown of "ban" for user "u1" on "g1",
    with two different counters. *)
Lemma identity_injective_on_separator_free_witness :
  let e1 := CooldownEntity.mk "ban" "g1" (Some "u1") "per-user" 30 in
  let e2 := CooldownEntity.mk "ban" "g1" (Some "u1") "per-user" 5 in
  MongoCooldownRepository.getIdFromEntity (PartialCooldownEntity.of_entity e1)
  = Ok "ban-g1-u1"
  ∧ MongoCooldownRepository.getIdFromEntity (PartialCooldownEntity.of_entity e2)
    = Ok "ban-g1-u1"
  ∧ CooldownEntity.type e1 = CooldownEntity.type e2
  ∧ CooldownEntity.commandId e1 = CooldownEntity.commandId e2
  ∧ CooldownEntity.guildId e1 = CooldownEntity.guildId e2.
Proof.
  intros e1 e2. split; [reflexivity|]. split; [reflexivity|].
  destruct (identity_injective_on_separator_free e1 e2 "ban-g1-u1"
              eq_refl eq_refl eq_refl eq_refl eq_refl eq_refl eq_refl eq_refl)
    as (Ht & Hc & Hg & _).
  done.
Defined.

Section CooldownRoundTrips.
Import CooldownModel.

(** The query made of the fields of an entity derives the entity's identity
    when the scope and the presence of a [userId] agree. *)
Lemma where_identity_of_entity (e : CooldownEntity.t) (_id : string) :
  MongoCooldownRepository.getIdFromEntity (PartialCooldownEntity.of_entity e) = Ok _id →
  (CooldownEntity.type e = "global" ∧ truthy (CooldownEntity.userId e) = false)
  ∨ (CooldownEntity.type e = "per-user" ∧ truthy (CooldownEntity.userId e) = true) →
  MongoCooldownRepository.getIdFromWhereOneInput (WhereOneInput.of_entity e) = _id.
Proof.
  intros Hid Hagree. unfold MongoCooldownRepository.getIdFromWhereOneInput.
  cbn [WhereOneInput.of_entity WhereOneInput.userId WhereOneInput.commandId
       WhereOneInput.guildId].
  apply getIdFromEntity_cases in Hid as [[Ht ->] | [Ht ->]];
    destruct Hagree as [[Ht' Hu] | [Ht' Hu]]; rewrite Ht in Ht'; try discriminate;
    rewrite Hu.
  - by rewrite append_empty_r.
  - reflexivity.
Qed.

(** ... and another identity when they disagree. *)
Lemma where_identity_of_entity_ne (e : CooldownEntity.t) (_id : string) :
  MongoCooldownRepository.getIdFromEntity (PartialCooldownEntity.of_entity e) = Ok _id →
  (CooldownEntity.type e = "global" ∧ truthy (CooldownEntity.userId e) = true)
  ∨ (CooldownEntity.type e = "per-user" ∧ truthy (CooldownEntity.userId e) = false) →
  MongoCooldownRepository.getIdFromWhereOneInput (WhereOneInput.of_entity e) ≠ _id.
Proof.
  intros Hid Hagree. unfold MongoCooldownRepository.getIdFromWhereOneInput.
  cbn [WhereOneInput.of_entity WhereOneInput.userId WhereOneInput.commandId
       WhereOneInput.guildId].
  apply getIdFromEntity_cases in Hid as [[Ht ->] | [Ht ->]];
    destruct Hagree as [[Ht' Hu] | [Ht' Hu]]; rewrite Ht in Ht'; try discriminate;
    rewrite Hu.
  - rewrite <- (append_empty_r (CooldownEntity.guildId e)) at 2.
    by apply append_suffix_ne.
  - intros Heq. symmetry in Heq. revert Heq. by apply append_suffix_ne.
Qed.

Lemma getIdFromEntity_some (e : CooldownEntity.t) :
  CooldownEntity.type e = "global" ∨ CooldownEntity.type e = "per-user" →
  ∃ _id, MongoCooldownRepository.getIdFromEntity (PartialCooldownEntity.of_entity e)
         = Ok _id.
Proof. apply getIdFromEntity_recognized. Qed.

(** The store after [save] then [delete], in terms of the two identities. *)
Lemma save_then_delete_store (e : CooldownEntity.t) (_id : string)
    (q : WhereOneInput.t) (db : Db (gmap string Doc)) :
  MongoCooldownRepository.getIdFromEntity (PartialCooldownEntity.of_entity e) = Ok _id →
  let doc := mkDoc (CooldownEntity.commandId e) (CooldownEntity.type e)
                   (CooldownEntity.secondsRemaining e) in
  let stored := <[_id := doc]> (store db) in
  let qid := MongoCooldownRepository.getIdFromWhereOneInput q in
  fst (MongoCooldownRepository.delete q (snd (MongoCooldownRepository.save e db))) = Ok tt
  ∧ store (snd (MongoCooldownRepository.delete q
                  (snd (MongoCooldownRepository.save e db))))
    = match stored !! qid with
      | Some d => if String.eqb (name d) (WhereOneInput.commandId q)
                  then delete qid stored else stored
      | None => stored
      end.
Proof.
  intros Hid doc stored qid.
  rewrite delete_on_store. cbn [fst snd store].
  by rewrite (save_on_store e _id db Hid).
Qed.

End CooldownRoundTrips.

(** X2. Identities collide across scopes: the global cooldown of a command
    on the guild [guildId + "-" + userId] has the identity of the per-user
    cooldown of that command for [userId] on [guildId].  After the former is
    saved, [delete] with the per-user query [{commandId, guildId, userId}]
    removes it: the match on the command name does not tell them apart. *)
Theorem delete_removes_colliding_global_document :
  ∀ (commandId guildId userId : string) (secs : Z)
    (db : CooldownModel.Db (gmap string CooldownModel.Doc)),
    userId ≠ "" →
    let e := CooldownEntity.mk commandId (guildId +:+ "-" +:+ userId) None "global" secs in
    let _id := commandId +:+ "-" +:+ guildId +:+ "-" +:+ userId in
    let db1 := snd (MongoCooldownRepository.save e db) in
    let db2 := snd (MongoCooldownRepository.delete
                      (WhereOneInput.mk commandId guildId (Some userId)) db1) in
    MongoCooldownRepository.getIdFromEntity (PartialCooldownEntity.of_entity e) = Ok _id
    ∧ CooldownModel.store db1 !! _id = Some (CooldownModel.mkDoc commandId "global" secs)
    ∧ CooldownModel.store db2 !! _id = None.
Proof.
  intros c g u secs db Hu e _id db1 db2.
  assert (Hid : MongoCooldownRepository.getIdFromEntity
                  (PartialCooldownEntity.of_entity e) = Ok _id) by reflexivity.
  split; [exact Hid|]. split.
  - subst db1. rewrite (save_on_store e _id db Hid). apply lookup_insert_eq.
  - subst db2 db1.
    destruct (save_then_delete_store e _id (WhereOneInput.mk c g (Some u)) db Hid)
      as [_ ->].
    assert (Hq : MongoCooldownRepository.getIdFromWhereOneInput
                   (WhereOneInput.mk c g (Some u)) = _id).
    { unfold MongoCooldownRepository.getIdFromWhereOneInput.
      cbn [WhereOneInput.userId WhereOneInput.commandId WhereOneInput.guildId].
      by rewrite (truthy_nonempty u Hu). }
    rewrite Hq, lookup_insert_eq. cbn [CooldownModel.name WhereOneInput.commandId
                                        CooldownEntity.commandId e].
    rewrite String.eqb_refl. apply lookup_delete_eq.
Qed.

(** Witness of X2: the global cooldown of "ban" on the guild "g1-u1" and
    the per-user query for user "u1" on guild "g1". *)
Lemma delete_removes_colliding_global_document_witness :
  let db := CooldownModel.mkDb (∅ : gmap string CooldownModel.Doc) [] in
  let db1 := snd (MongoCooldownRepository.save
                    (CooldownEntity.mk "ban" "g1-u1" None "global" 30) db) in
  "u1" ≠ ""
  ∧ CooldownModel.store db1 !! "ban-g1-u1" = Some (CooldownModel.mkDoc "ban" "global" 30)
  ∧ CooldownModel.store
      (snd (MongoCooldownRepository.delete (WhereOneInput.mk "ban" "g1" (Some "u1")) db1))
    !! "ban-g1-u1" = None.
Proof.
  intros db db1. split; [discriminate|].
  destruct (delete_removes_colliding_global_document "ban" "g1" "u1" 30 db)
    as (_ & Hsaved & Hgone); [discriminate|].
  split; [exact Hsaved | exact Hgone].
Defined.

(** X3. Save then delete is a round trip when the scope and the presence of
    a [userId] agree (global without a [userId], per-user with a non-empty
    one): after [save] the document of the entity is stored under its
    identity; [delete] with the entity's own fields then completes and the
    store is the original one without that identity, hence the original
    store when the identity was not stored before. *)
Theorem save_then_delete_round_trip :
  ∀ (e : CooldownEntity.t) (db : CooldownModel.Db (gmap string CooldownModel.Doc)),
    (CooldownEntity.type e = "global" ∧ truthy (CooldownEntity.userId e) = false)
    ∨ (CooldownEntity.type e = "per-user" ∧ truthy (CooldownEntity.userId e) = true) →
    ∃ _id,
      MongoCooldownRepository.getIdFromEntity (PartialCooldownEntity.of_entity e) = Ok _id
      ∧ CooldownModel.store (snd (MongoCooldownRepository.save e db)) !! _id
        = Some (CooldownModel.mkDoc (CooldownEntity.commandId e) (CooldownEntity.type e)
                  (CooldownEntity.secondsRemaining e))
      ∧ fst (MongoCooldownRepository.delete (WhereOneInput.of_entity e)
               (snd (MongoCooldownRepository.save e db))) = Ok tt
      ∧ CooldownModel.store
          (snd (MongoCooldownRepository.delete (WhereOneInput.of_entity e)
                  (snd (MongoCooldownRepository.save e db))))
        = delete _id (CooldownModel.store db)
      ∧ (CooldownModel.store db !! _id = None →
         CooldownModel.store
           (snd (MongoCooldownRepository.delete (WhereOneInput.of_entity e)
                   (snd (MongoCooldownRepository.save e db))))
         = CooldownModel.store db).
Proof.
  intros e db Hagree.
  destruct (getIdFromEntity_some e) as [_id Hid];
    [destruct Hagree as [[Ht _]|[Ht _]]; [by left | by right]|].
  exists _id. split; [exact Hid|].
  pose proof (where_identity_of_entity e _id Hid Hagree) as Hq.
  destruct (save_then_delete_store e _id (WhereOneInput.of_entity e) db Hid)
    as [Hok Hstore].
  assert (Hfinal : CooldownModel.store
            (snd (MongoCooldownRepository.delete (WhereOneInput.of_entity e)
                    (snd (MongoCooldownRepository.save e db))))
          = delete _id (CooldownModel.store db)).
  { rewrite Hstore, Hq, lookup_insert_eq.
    cbn [CooldownModel.name WhereOneInput.of_entity WhereOneInput.commandId].
    rewrite String.eqb_refl. apply delete_insert_eq. }
  split; [rewrite (save_on_store e _id db Hid); apply lookup_insert_eq|].
  split; [exact Hok|]. split; [exact Hfinal|].
  intros Hnone. rewrite Hfinal. by apply delete_id.
Qed.

(** Witness of X3: a per-user cooldown saved into an empty collection and
    deleted again. *)
Lemma save_then_delete_round_trip_witness :
  let e := CooldownEntity.mk "ban" "g1" (Some "u1") "per-user" 30 in
  let db := CooldownModel.mkDb (∅ : gmap string CooldownModel.Doc) [] in
  (CooldownEntity.type e = "per-user" ∧ truthy (CooldownEntity.userId e) = true)
  ∧ CooldownModel.store
      (snd (MongoCooldownRepository.delete (WhereOneInput.of_entity e)
              (snd (MongoCooldownRepository.save e db))))
    = CooldownModel.store db.
Proof.
  intros e db. split; [by split|].
  destruct (save_then_delete_round_trip e db) as (_id & Hid & _ & _ & _ & Hback);
    [by right|].
  apply Hback. injection Hid as <-. reflexivity.
Defined.

(** X4. When the scope and the presence of a [userId] disagree (a global
    entity that carries a non-empty [userId], or a per-user entity whose
    [userId] is absent or empty), the query made of the entity's own fields
    derives another identity than [save] used: [delete] with it leaves the
    saved document in place. *)
Theorem delete_misses_entity_saved_under_other_scope :
  ∀ (e : CooldownEntity.t) (db : CooldownModel.Db (gmap string CooldownModel.Doc)),
    (CooldownEntity.type e = "global" ∧ truthy (CooldownEntity.userId e) = true)
    ∨ (CooldownEntity.type e = "per-user" ∧ truthy (CooldownEntity.userId e) = false) →
    ∃ _id,
      MongoCooldownRepository.getIdFromEntity (PartialCooldownEntity.of_entity e) = Ok _id
      ∧ MongoCooldownRepository.getIdFromWhereOneInput (WhereOneInput.of_entity e) ≠ _id
      ∧ CooldownModel.store
          (snd (MongoCooldownRepository.delete (WhereOneInput.of_entity e)
                  (snd (MongoCooldownRepository.save e db)))) !! _id
        = Some (CooldownModel.mkDoc (CooldownEntity.commandId e) (CooldownEntity.type e)
                  (CooldownEntity.secondsRemaining e)).
Proof.
  intros e db Hdis.
  destruct (getIdFromEntity_some e) as [_id Hid];
    [destruct Hdis as [[Ht _]|[Ht _]]; [by left | by right]|].
  exists _id. split; [exact Hid|].
  pose proof (where_identity_of_entity_ne e _id Hid Hdis) as Hq.
  split; [exact Hq|].
  destruct (save_then_delete_store e _id (WhereOneInput.of_entity e) db Hid)
    as [_ ->].
  destruct (_ !! MongoCooldownRepository.getIdFromWhereOneInput _) as [d|];
    [|apply lookup_insert_eq].
  destruct (String.eqb _ _); [|apply lookup_insert_eq].
  rewrite lookup_delete_ne by done. apply lookup_insert_eq.
Qed.

(** Witness of X4: a per-user cooldown saved without a [userId] is stored
    under "ban-g1-undefined" and survives the delete with its own fields. *)
Lemma delete_misses_entity_saved_under_other_scope_witness :
  let e := CooldownEntity.mk "ban" "g1" None "per-user" 30 in
  let db := CooldownModel.mkDb (∅ : gmap string CooldownModel.Doc) [] in
  (CooldownEntity.type e = "per-user" ∧ truthy (CooldownEntity.userId e) = false)
  ∧ CooldownModel.store
      (snd (MongoCooldownRepository.delete (WhereOneInput.of_entity e)
              (snd (MongoCooldownRepository.save e db)))) !! "ban-g1-undefined"
    = Some (CooldownModel.mkDoc "ban" "per-user" 30).
Proof.
  intros e db. split; [by split|].
  destruct (delete_misses_entity_saved_under_other_scope e db)
    as (_id & Hid & _ & Hkept); [by right|].
  injection Hid as <-. exact Hkept.
Defined.

(** X5. [save] is idempotent on the store: saving an entity a second time
    leaves the store as the first save left it (for an entity of
    unrecognized type, as it was). *)
Theorem save_idempotent_on_store :
  ∀ (e : CooldownEntity.t) (db : CooldownModel.Db (gmap string CooldownModel.Doc)),
    CooldownModel.store
      (snd (MongoCooldownRepository.save e (snd (MongoCooldownRepository.save e db))))
    = CooldownModel.store (snd (MongoCooldownRepository.save e db)).
Proof.
  intros e db.
  destruct (MongoCooldownRepository.getIdFromEntity
              (PartialCooldownEntity.of_entity e)) as [_id|err] eqn:Hid.
  - rewrite !(save_on_store e _id _ Hid). apply insert_insert_eq.
  - unfold MongoCooldownRepository.save, mbind, M_bind, bind,
      MongoCooldownRepository.lift. by rewrite Hid.
Qed.

(** X6. [save] and [delete] touch one identity only: after [save] every
    document stored under another identity than the entity's is as before
    (every document, when the entity has no identity), and after [delete]
    every document stored under another identity than the query's is as
    before. *)
Theorem save_and_delete_touch_one_identity :
  ∀ (db : CooldownModel.Db (gmap string CooldownModel.Doc)) (k : string),
    (∀ e, MongoCooldownRepository.getIdFromEntity (PartialCooldownEntity.of_entity e)
          ≠ Ok k →
          CooldownModel.store (snd (MongoCooldownRepository.save e db)) !! k
          = CooldownModel.store db !! k)
    ∧ (∀ q, MongoCooldownRepository.getIdFromWhereOneInput q ≠ k →
            CooldownModel.store (snd (MongoCooldownRepository.delete q db)) !! k
            = CooldownModel.store db !! k).
Proof.
  intros db k. split.
  - intros e Hne.
    destruct (MongoCooldownRepository.getIdFromEntity
                (PartialCooldownEntity.of_entity e)) as [_id|err] eqn:Hid.
    + rewrite (save_on_store e _id db Hid). apply lookup_insert_ne. congruence.
    + unfold MongoCooldownRepository.save, mbind, M_bind, bind,
        MongoCooldownRepository.lift. by rewrite Hid.
  - intros q Hne. rewrite delete_on_store. cbn [snd CooldownModel.store].
    destruct (CooldownModel.store db !! MongoCooldownRepository.getIdFromWhereOneInput q)
      as [d|]; [|done].
    destruct (String.eqb _ _); [|done]. by apply lookup_delete_ne.
Qed.

(** Witness of X6: saving "ban" and deleting "ban" leave "kick" alone. *)
Lemma save_and_delete_touch_one_identity_witness :
  let db := CooldownModel.mkDb
              ({[ "kick-g1" := CooldownModel.mkDoc "kick" "global" 7 ]}
                 : gmap string CooldownModel.Doc) [] in
  CooldownModel.store
    (snd (MongoCooldownRepository.save
            (CooldownEntity.mk "ban" "g1" None "global" 5) db)) !! "kick-g1"
  = Some (CooldownModel.mkDoc "kick" "global" 7)
  ∧ CooldownModel.store
      (snd (MongoCooldownRepository.delete (WhereOneInput.mk "ban" "g1" None) db))
    !! "kick-g1"
    = Some (CooldownModel.mkDoc "kick" "global" 7).
Proof.
  intros db.
  destruct (save_and_delete_touch_one_identity db "kick-g1") as [Hsave Hdelete].
  split.
  - by rewrite (Hsave (CooldownEntity.mk "ban" "g1" None "global" 5)).
  - by rewrite (Hdelete (WhereOneInput.mk "ban" "g1" None)).
Defined.

(* ===================================================================== *)
(** * Further properties of WOKCommands: the cache and the prefix *)
(* ===================================================================== *)

Section CacheProperties.
Import WOKCommands.
Context {B : Type}.
Implicit Types (st : State B) (w : World B).

Lemma or_else_nonempty (a b : string) : a ≠ "" → or_else a b = a.
Proof. intros Ha. unfold or_else. by rewrite (truthy_nonempty a Ha). Qed.

Lemma or_else_empty (b : string) : or_else "" b = b.
Proof. reflexivity. Qed.

Lemma or_else_ne (a b : string) : b ≠ "" → or_else a b ≠ "".
Proof.
  intros Hb. destruct (decide (a = "")) as [->|Ha]; [done|].
  by rewrite or_else_nonempty.
Qed.

(** The outcomes of the guarded accessor. *)
Lemma guildSettingsRepository_result st :
  (isDBConnected st = false
   ∧ guildSettingsRepository st = (Throw (mkError db_not_connected), st))
  ∨ (isDBConnected st = true ∧ _guildSettingsRepository (this st) = None
     ∧ guildSettingsRepository st
       = (Throw (mkError guildSettingsRepository_not_defined), st))
  ∨ (isDBConnected st = true
     ∧ ∃ r, _guildSettingsRepository (this st) = Some r
            ∧ guildSettingsRepository st = (Ok r, st)).
Proof.
  unfold guildSettingsRepository. unfold_monad.
  destruct (isDBConnected st); cbn; [|by left].
  destruct (_guildSettingsRepository (this st)) as [r|]; right; [right|left]; eauto.
Qed.

(** The outcomes of [getOrCreateGuildSettings]: a hit; a miss that fails,
    at the accessor or in [findOne]; a miss that succeeds. *)
Lemma getOrCreateGuildSettings_result guildId st :
  (∃ gs, guildSettings st !! guildId = Some gs
         ∧ getOrCreateGuildSettings guildId st = (Ok gs, st))
  ∨ (guildSettings st !! guildId = None
     ∧ ∃ e st', getOrCreateGuildSettings guildId st = (Throw e, st')
                ∧ this st' = this st
                ∧ (st' = st ∨ log st' = log st ++ [FindOne guildId]))
  ∨ (guildSettings st !! guildId = None
     ∧ ∃ gs st', getOrCreateGuildSettings guildId st = (Ok gs, st')
                 ∧ this st' = with_guildSettings (<[guildId := gs]> (guildSettings st))
                                                 (this st)
                 ∧ log st' = log st ++ [FindOne guildId]).
Proof.
  destruct (guildSettings st !! guildId) as [gs|] eqn:Hc.
  { left. exists gs. split; [done|]. by apply getOrCreateGuildSettings_hit. }
  right.
  destruct (guildSettingsRepository_result st)
    as [[Hd Hacc] | [(Hd & Hr & Hacc) | (Hd & repository & Hr & Hacc)]].
  - left. split; [done|]. exists (mkError db_not_connected), st.
    split; [by apply getOrCreateGuildSettings_miss_disconnected|]. eauto.
  - left. split; [done|]. exists (mkError guildSettingsRepository_not_defined), st.
    split; [|eauto].
    unfold getOrCreateGuildSettings. cbv beta delta [mbind M_bind bind gets].
    by rewrite Hc, Hacc.
  - destruct (IGuildSettingsRepository.findOne repository guildId (world st))
      as [[found|e] w'] eqn:Hfind.
    + right. split; [done|].
      rewrite (getOrCreateGuildSettings_miss_connected guildId st repository found w'
                 Hc Hd Hr Hfind).
      destruct found as [gs|]; eexists; eexists; (split; [reflexivity|]); by cbn.
    + left. split; [done|]. exists e. eexists. split.
      * unfold getOrCreateGuildSettings. cbv beta delta [mbind M_bind bind gets].
        rewrite Hc, Hacc. unfold call. rewrite Hfind. reflexivity.
      * cbn. eauto.
Qed.

End CacheProperties.

(** X7. [getPrefix] falls back to the default prefix: for no guild, for a
    guild without a cache entry, and for a cached aggregate whose prefix is
    the empty string; for a cached aggregate with a non-empty prefix it
    returns that prefix.  Hence it never returns the empty string while the
    default prefix is not empty. *)
Theorem getPrefix_falls_back_to_default :
  ∀ (B : Type) (st : WOKCommands.State B),
    WOKCommands.getPrefix None st = WOKCommands._defaultPrefix (WOKCommands.this st)
    ∧ (∀ g, WOKCommands.guildSettings st !! Guild.id g = None →
            WOKCommands.getPrefix (Some g) st
            = WOKCommands._defaultPrefix (WOKCommands.this st))
    ∧ (∀ g gs a,
         WOKCommands.guildSettings st !! Guild.id g = Some gs →
         heap (WOKCommands.world st) !! gs = Some a →
         (GuildPrefix.value (GuildSettingsAggregate.prefix a) = "" →
          WOKCommands.getPrefix (Some g) st
          = WOKCommands._defaultPrefix (WOKCommands.this st))
         ∧ (GuildPrefix.value (GuildSettingsAggregate.prefix a) ≠ "" →
            WOKCommands.getPrefix (Some g) st
            = GuildPrefix.value (GuildSettingsAggregate.prefix a)))
    ∧ (WOKCommands._defaultPrefix (WOKCommands.this st) ≠ "" →
       ∀ guild, WOKCommands.getPrefix guild st ≠ "").
Proof.
  intros B st. split; [reflexivity|]. split; [|split].
  - intros g Hmiss. unfold WOKCommands.getPrefix. by rewrite Hmiss.
  - intros g gs a Hc Ha. unfold WOKCommands.getPrefix. rewrite Hc. cbn. rewrite Ha.
    split; [intros ->; apply or_else_empty | apply or_else_nonempty].
  - intros Hd [g|]; [|done]. unfold WOKCommands.getPrefix.
    destruct (_ ≫= _) as [a|]; [by apply or_else_ne | done].
Qed.

(** Witness of X7: after a set-up over a store holding guild "g1" with
    prefix "?", the prefix of "g1" is "?" and that of the unknown guild "g2"
    is the default "!". *)
Lemma getPrefix_falls_back_to_default_witness :
  let st := snd (WOKCommands.setUp InMemory.mongoBackend
                   (Some WOKCommands.DiscordClient)
                   (Some (InMemory.options (MONGOOSE (Some "mongodb://localhost/bot"))))
                   (InMemory.start InMemory.with_g1)) in
  WOKCommands.guildSettings st !! "g2" = None
  ∧ WOKCommands.getPrefix (Some (Guild.mk "g2")) st = "!"
  ∧ WOKCommands.guildSettings st !! "g1" = Some 1%positive
  ∧ heap (WOKCommands.world st) !! 1%positive = Some InMemory.g1_settings
  ∧ WOKCommands.getPrefix (Some (Guild.mk "g1")) st = "?".
Proof.
  intros st.
  destruct (getPrefix_falls_back_to_default _ st) as (_ & Hmiss & Hhit & _).
  split; [reflexivity|]. split; [exact (Hmiss (Guild.mk "g2") eq_refl)|].
  split; [reflexivity|]. split; [reflexivity|].
  destruct (Hhit (Guild.mk "g1") 1%positive InMemory.g1_settings eq_refl eq_refl)
    as [_ Hne].
  apply Hne. discriminate.
Defined.

(** X8. A successful [getOrCreateGuildSettings] makes the next call for the
    same guild a hit: the second call returns the same aggregate, calls no
    repository and changes nothing. *)
Theorem getOrCreateGuildSettings_second_call_hits :
  ∀ (B : Type) (guildId : string) (st st1 : WOKCommands.State B) (gs : ref),
    WOKCommands.getOrCreateGuildSettings guildId st = (Ok gs, st1) →
    WOKCommands.guildSettings st1 !! guildId = Some gs
    ∧ WOKCommands.getOrCreateGuildSettings guildId st1 = (Ok gs, st1).
Proof.
  intros B guildId st st1 gs Hrun.
  assert (Hc : WOKCommands.guildSettings st1 !! guildId = Some gs).
  { destruct (getOrCreateGuildSettings_result guildId st)
      as [(gs' & Hc & H) | [(_ & e & st' & H & _) | (_ & gs' & st' & H & Hthis & _)]];
      rewrite H in Hrun; try discriminate; injection Hrun as -> ->; [done|].
    unfold WOKCommands.guildSettings. rewrite Hthis. cbn. apply lookup_insert_eq. }
  split; [exact Hc|]. by apply getOrCreateGuildSettings_hit.
Qed.

(** Witness of X8: the unknown guild "g2" is created on the first call and
    found in the cache on the second. *)
Lemma getOrCreateGuildSettings_second_call_hits_witness :
  let st := snd (WOKCommands.setUp InMemory.mongoBackend
                   (Some WOKCommands.DiscordClient)
                   (Some (InMemory.options (MONGOOSE (Some "mongodb://localhost/bot"))))
                   (InMemory.start InMemory.with_g1)) in
  let st1 := snd (WOKCommands.getOrCreateGuildSettings "g2" st) in
  WOKCommands.getOrCreateGuildSettings "g2" st = (Ok 2%positive, st1)
  ∧ WOKCommands.getOrCreateGuildSettings "g2" st1 = (Ok 2%positive, st1).
Proof.
  intros st st1. split; [reflexivity|].
  apply (getOrCreateGuildSettings_second_call_hits _ "g2" st st1 2%positive).
  reflexivity.
Defined.

(** X9. Whatever its outcome, [getOrCreateGuildSettings(guildId)] leaves
    the cache entries of all other guilds, both probes, both repositories,
    the default prefix and the directories as they were, and makes at most
    one repository call, [findOne] on [guildId]; when it fails the whole
    cache is as it was. *)
Theorem getOrCreateGuildSettings_frame :
  ∀ (B : Type) (guildId : string) (st : WOKCommands.State B),
    let r := fst (WOKCommands.getOrCreateGuildSettings guildId st) in
    let st' := snd (WOKCommands.getOrCreateGuildSettings guildId st) in
    (∀ other, other ≠ guildId →
              WOKCommands.guildSettings st' !! other
              = WOKCommands.guildSettings st !! other)
    ∧ (is_ok r = false → WOKCommands.guildSettings st' = WOKCommands.guildSettings st)
    ∧ (WOKCommands.log st' = WOKCommands.log st
       ∨ WOKCommands.log st' = WOKCommands.log st ++ [WOKCommands.FindOne guildId])
    ∧ WOKCommands._isDbConnected (WOKCommands.this st')
      = WOKCommands._isDbConnected (WOKCommands.this st)
    ∧ WOKCommands._getDbConnectionStatus (WOKCommands.this st')
      = WOKCommands._getDbConnectionStatus (WOKCommands.this st)
    ∧ WOKCommands._guildSettingsRepository (WOKCommands.this st')
      = WOKCommands._guildSettingsRepository (WOKCommands.this st)
    ∧ WOKCommands._cooldownRepository (WOKCommands.this st')
      = WOKCommands._cooldownRepository (WOKCommands.this st)
    ∧ WOKCommands._defaultPrefix (WOKCommands.this st')
      = WOKCommands._defaultPrefix (WOKCommands.this st)
    ∧ WOKCommands._commandsDir (WOKCommands.this st')
      = WOKCommands._commandsDir (WOKCommands.this st)
    ∧ WOKCommands._featuresDir (WOKCommands.this st')
      = WOKCommands._featuresDir (WOKCommands.this st).
Proof.
  intros B guildId st.
  destruct (getOrCreateGuildSettings_result guildId st)
    as [(gs & _ & ->) | [(_ & e & st' & -> & Hthis & Hlog)
                        | (_ & gs & st' & -> & Hthis & Hlog)]];
    cbn [fst snd]; unfold WOKCommands.guildSettings.
  - repeat split; auto.
  - rewrite Hthis. repeat split; auto. destruct Hlog as [-> | ->]; auto.
  - rewrite Hthis. cbn. repeat split; auto.
    + intros other Hne. by apply lookup_insert_ne.
    + discriminate.
Qed.

(** Witness of X9: creating "g2" leaves the entry of "g1". *)
Lemma getOrCreateGuildSettings_frame_witness :
  let st := snd (WOKCommands.setUp InMemory.mongoBackend
                   (Some WOKCommands.DiscordClient)
                   (Some (InMemory.options (MONGOOSE (Some "mongodb://localhost/bot"))))
                   (InMemory.start InMemory.with_g1)) in
  "g1" ≠ "g2"
  ∧ WOKCommands.guildSettings (snd (WOKCommands.getOrCreateGuildSettings "g2" st)) !! "g1"
    = WOKCommands.guildSettings st !! "g1".
Proof.
  intros st. split; [discriminate|].
  apply (getOrCreateGuildSettings_frame _ "g2" st). discriminate.
Defined.

(** X10. A failed [setPrefix] is not undone: when the guild's aggregate is
    cached and the database is not connected, [setPrefix] fails with
    "DB not connected!" and calls no repository, but the cached object
    already carries the new prefix, and [getPrefix] reports it (or the
    default, for the empty prefix). *)
Theorem setPrefix_failure_keeps_mutation :
  ∀ (B : Type) (g : Guild.t) (prefix : string) (st : WOKCommands.State B)
    (gs : ref) (a : GuildSettingsAggregate.t),
    WOKCommands.guildSettings st !! Guild.id g = Some gs →
    heap (WOKCommands.world st) !! gs = Some a →
    WOKCommands.isDBConnected
      (WOKCommands.mkState (WOKCommands.this st)
         (mkWorld
            (<[gs := GuildSettingsAggregate.setPrefix (GuildPrefix.mk prefix) a]>
               (heap (WOKCommands.world st)))
            (backend (WOKCommands.world st)))
         (WOKCommands.log st)) = false →
    let st' := snd (WOKCommands.setPrefix (Some g) prefix st) in
    fst (WOKCommands.setPrefix (Some g) prefix st) = Throw (mkError "DB not connected!")
    ∧ WOKCommands.log st' = WOKCommands.log st
    ∧ backend (WOKCommands.world st') = backend (WOKCommands.world st)
    ∧ WOKCommands.guildSettings st' = WOKCommands.guildSettings st
    ∧ heap (WOKCommands.world st') !! gs
      = Some (GuildSettingsAggregate.setPrefix (GuildPrefix.mk prefix) a)
    ∧ WOKCommands.getPrefix (Some g) st'
      = or_else prefix (WOKCommands._defaultPrefix (WOKCommands.this st)).
Proof.
  intros B g prefix st gs a Hc Ha Hd st'. subst st'.
  rewrite (setPrefix_disconnected g prefix st gs st a
             (getOrCreateGuildSettings_hit _ _ _ Hc) Ha Hd).
  cbn [fst snd WOKCommands.log WOKCommands.world backend heap].
  split; [done|]. split; [done|]. split; [done|]. split; [done|].
  split; [apply lookup_insert_eq|].
  unfold WOKCommands.getPrefix, WOKCommands.guildSettings in *.
  cbn [WOKCommands.this WOKCommands.world heap]. rewrite Hc. cbn.
  by rewrite lookup_insert_eq.
Qed.

(** Witness of X10: an instance whose caller-supplied connectivity probe
    reports false, with the aggregate of "g1" (prefix "?") put in the cache
    by [setGuildSettings]; [setPrefix] to "%" fails and [getPrefix] then
    answers "%". *)
Lemma setPrefix_failure_keeps_mutation_witness :
  let st0 := snd (WOKCommands.select_strategy InMemory.mongoBackend
                    (Some (InMemory.options (InMemory.generic false DISCONNECTED)))
                    true
                    (WOKCommands.mkState WOKCommands.fresh_instance
                       (mkWorld {[ 1%positive := InMemory.g1_settings ]} InMemory.with_g1)
                       [])) in
  let st := snd (WOKCommands.setGuildSettings "g1" 1%positive st0) in
  let st' := snd (WOKCommands.setPrefix (Some (Guild.mk "g1")) "%" st) in
  WOKCommands.getPrefix (Some (Guild.mk "g1")) st = "?"
  ∧ fst (WOKCommands.setPrefix (Some (Guild.mk "g1")) "%" st)
    = Throw (mkError "DB not connected!")
  ∧ WOKCommands.log st' = WOKCommands.log st
  ∧ WOKCommands.getPrefix (Some (Guild.mk "g1")) st' = "%".
Proof.
  intros st0 st st'. split; [reflexivity|].
  destruct (setPrefix_failure_keeps_mutation _ (Guild.mk "g1") "%" st 1%positive
              InMemory.g1_settings eq_refl eq_refl eq_refl)
    as (Hfail & Hlog & _ & _ & _ & Hprefix).
  split; [exact Hfail|]. split; [exact Hlog|]. exact Hprefix.
Defined.

(** X11. After a successful [setPrefix], [getPrefix] of the guild reports
    the prefix of the object that [save] returned (the default prefix when
    that one is empty), whatever prefix was passed in. *)
Theorem getPrefix_after_setPrefix :
  ∀ (B : Type) (g : Guild.t) (prefix : string) (st st1 : WOKCommands.State B)
    (gs updated : ref) (a a' : GuildSettingsAggregate.t)
    (repository : IGuildSettingsRepository.t B) (w2 : World B),
    WOKCommands.getOrCreateGuildSettings (Guild.id g) st = (Ok gs, st1) →
    heap (WOKCommands.world st1) !! gs = Some a →
    let w1 :=
      mkWorld
        (<[gs := GuildSettingsAggregate.setPrefix (GuildPrefix.mk prefix) a]>
           (heap (WOKCommands.world st1)))
        (backend (WOKCommands.world st1)) in
    WOKCommands.isDBConnected
      (WOKCommands.mkState (WOKCommands.this st1) w1 (WOKCommands.log st1)) = true →
    WOKCommands._guildSettingsRepository (WOKCommands.this st1) = Some repository →
    IGuildSettingsRepository.save repository gs w1 = (Ok updated, w2) →
    heap w2 !! updated = Some a' →
    fst (WOKCommands.setPrefix (Some g) prefix st) = Ok tt
    ∧ WOKCommands.getPrefix (Some g) (snd (WOKCommands.setPrefix (Some g) prefix st))
      = or_else (GuildPrefix.value (GuildSettingsAggregate.prefix a'))
                (WOKCommands._defaultPrefix (WOKCommands.this st1)).
Proof.
  intros B g prefix st st1 gs updated a a' repository w2 Hres Ha w1 Hc Hr Hsave Hu.
  rewrite (setPrefix_connected g prefix st gs st1 a repository updated w2
             Hres Ha Hc Hr Hsave).
  split; [reflexivity|]. cbn [snd].
  unfold WOKCommands.getPrefix, WOKCommands.guildSettings.
  cbn [WOKCommands.this WOKCommands.world WOKCommands.with_guildSettings
       WOKCommands._guildSettings WOKCommands._defaultPrefix].
  rewrite lookup_insert_eq. cbn. by rewrite Hu.
Qed.

(** Witness of X11: the prefix of the cached guild "g1" set to "%" over the
    in-memory repository, which returns the stored copy (object 2). *)
Lemma getPrefix_after_setPrefix_witness :
  let st := snd (WOKCommands.setUp InMemory.mongoBackend
                   (Some WOKCommands.DiscordClient)
                   (Some (InMemory.options (MONGOOSE (Some "mongodb://localhost/bot"))))
                   (InMemory.start InMemory.with_g1)) in
  WOKCommands.getOrCreateGuildSettings "g1" st = (Ok 1%positive, st)
  ∧ heap (WOKCommands.world st) !! 1%positive = Some InMemory.g1_settings
  ∧ fst (WOKCommands.setPrefix (Some (Guild.mk "g1")) "%" st) = Ok tt
  ∧ WOKCommands.getPrefix (Some (Guild.mk "g1"))
      (snd (WOKCommands.setPrefix (Some (Guild.mk "g1")) "%" st)) = "%".
Proof.
  intros st. split; [reflexivity|]. split; [reflexivity|].
  apply (getPrefix_after_setPrefix _ (Guild.mk "g1") "%" st st 1%positive 2%positive
           InMemory.g1_settings
           (GuildSettingsAggregate.setPrefix (GuildPrefix.mk "%") InMemory.g1_settings)
           InMemory.guildSettingsRepository
           (snd (InMemory.save 1%positive
                   (mkWorld
                      (<[1%positive :=
                           GuildSettingsAggregate.setPrefix (GuildPrefix.mk "%")
                             InMemory.g1_settings]>
                         (heap (WOKCommands.world st)))
                      (backend (WOKCommands.world st))))));
    reflexivity.
Defined.

(* ===================================================================== *)
(** * Further properties of WOKCommands: the set-up *)
(* ===================================================================== *)

Section SetUpProperties.
Import WOKCommands.
Context {B : Type}.
Implicit Types (st : State B) (w : World B) (mb : MongoBackend.t B).

Lemma no_handler_nil : no_handler [].
Proof. intros d. apply not_elem_of_nil. Qed.

Lemma no_handler_app l l' : no_handler l → no_handler l' → no_handler (l ++ l').
Proof. intros H H' d [?|?]%elem_of_app; [by eapply H | by eapply H']. Qed.

Lemma same_strategy_refl (i : t B) : same_strategy i i.
Proof. by repeat split. Qed.

Lemma same_strategy_trans (i j k : t B) :
  same_strategy i j → same_strategy j k → same_strategy i k.
Proof.
  intros (H1 & H2 & H3 & H4) (K1 & K2 & K3 & K4).
  repeat split; congruence.
Qed.

Lemma same_strategy_complete (i j : t B) :
  same_strategy i j → strategy_complete i → strategy_complete j.
Proof.
  intros (H1 & H2 & H3 & H4) Hc. unfold strategy_complete.
  rewrite H1, H2, H3, H4. exact Hc.
Qed.

(** The status computed from the readiness state is CONNECTED exactly for
    the readiness state 1. *)
Lemma status_connected_iff (z : Z) :
  enumFromName (default "UNKNOWN" (results z)) = CONNECTED ↔ z = 1%Z.
Proof.
  destruct z as [|[[p|p|]|[p|p|]|]|p]; cbn; split; intros H;
    try discriminate; done.
Qed.

(** The [reduce] of [setUp] reads the objects and changes nothing. *)
Lemma reduce_guildSettings_state settings agg st :
  snd (reduce_guildSettings settings agg st) = st.
Proof.
  revert agg. induction settings as [|s rest IH]; intros agg; [reflexivity|].
  cbn [reduce_guildSettings]. unfold deref at 1.
  cbv beta delta [mbind M_bind bind].
  destruct (heap (world st) !! s) as [a|]; [apply IH | reflexivity].
Qed.

(** What the second part of [setUp] leaves, whatever its outcome: events
    that construct no command handler, the same directories and strategy
    fields. *)
Lemma warm_cache_general st :
  ∃ l, log (snd (warm_cache st)) = log st ++ l
       ∧ no_handler l
       ∧ _commandsDir (this (snd (warm_cache st))) = _commandsDir (this st)
       ∧ _featuresDir (this (snd (warm_cache st))) = _featuresDir (this st)
       ∧ same_strategy (this st) (this (snd (warm_cache st))).
Proof.
  assert (Hev : ∀ l, (∀ e, e ∈ l → (∃ s, e = Emit DATABASE_CONNECTED s) ∨ e = FindAll) →
                     no_handler l).
  { intros l Hl d Hin. destruct (Hl _ Hin) as [[s ?]|?]; discriminate. }
  unfold warm_cache. cbv beta iota delta [mbind M_bind bind gets emit modify throw].
  set (st1 := mkState (this st) (world st)
                (log st ++ [Emit DATABASE_CONNECTED (dbConnectionStatus st)])).
  destruct (bool_decide (dbConnectionStatus st ≠ CONNECTED)).
  { cbn. eexists. split; [done|]. split; [|by repeat split].
    apply Hev. intros e ->%list_elem_of_singleton. eauto. }
  destruct (guildSettingsRepository_result st1)
    as [[_ ->] | [(_ & _ & ->) | (_ & repository & _ & ->)]].
  1,2: cbn; eexists; (split; [done|]); (split; [|by repeat split]);
       apply Hev; intros e ->%list_elem_of_singleton; eauto.
  unfold call. cbn [this world log st1].
  destruct (IGuildSettingsRepository.findAll repository (world st))
    as [[settings|e] w'].
  2: { cbn. rewrite <- app_assoc. eexists. split; [done|].
       split; [|by repeat split]. apply Hev.
       intros x [->|[->|[]%elem_of_nil]%elem_of_cons]%elem_of_cons; eauto. }
  match goal with
  | |- context [reduce_guildSettings settings ∅ ?s] =>
      pose proof (reduce_guildSettings_state settings ∅ s) as Hred;
      destruct (reduce_guildSettings settings ∅ s) as [[agg|e] s']
  end; cbn [snd] in Hred; subst s'; cbn; rewrite <- app_assoc;
    (eexists; split; [done|]; split; [|by repeat split]); apply Hev;
    intros x [->|[->|[]%elem_of_nil]%elem_of_cons]%elem_of_cons; eauto.
Qed.

(** The cache warm on an instance whose status is CONNECTED, whose
    connectivity probe reports true and that has a repository: [findAll] is
    called, whatever it answers. *)
Lemma warm_cache_calls_findAll st repository :
  dbConnectionStatus st = CONNECTED →
  isDBConnected st = true →
  _guildSettingsRepository (this st) = Some repository →
  log (snd (warm_cache st)) = log st ++ [Emit DATABASE_CONNECTED CONNECTED; FindAll].
Proof.
  intros Hs Hc Hr. unfold warm_cache.
  cbv beta iota delta [mbind M_bind bind gets emit modify throw]. rewrite Hs.
  rewrite bool_decide_eq_false_2 by (by intros ?). cbv beta iota.
  rewrite (guildSettingsRepository_connected _ repository) by done.
  unfold call. cbn [this world log].
  destruct (IGuildSettingsRepository.findAll repository (world st))
    as [[settings|e] w']; [|by cbn; rewrite <- app_assoc].
  match goal with
  | |- context [reduce_guildSettings settings ∅ ?s] =>
      pose proof (reduce_guildSettings_state settings ∅ s) as Hred;
      destruct (reduce_guildSettings settings ∅ s) as [[agg|e] s']
  end; cbn [snd] in Hred; subst s'; cbn; by rewrite <- app_assoc.
Qed.

(** The strategy selection without a strategy in the options. *)
Lemma select_strategy_none mb options showWarns st :
  options = None
  ∨ (∃ o uri, options = Some o ∧ Options.db o = MONGOOSE uri ∧ truthy uri = false) →
  select_strategy mb options showWarns st
  = (Ok false,
     mkState (this st) (world st)
       (log st ++ (if showWarns then [ConsoleWarn no_db_warning] else [])
        ++ [Emit DATABASE_CONNECTED NO_DATABASE])).
Proof.
  intros Hnone. unfold select_strategy.
  assert (Hno :
    ((if showWarns then emit (ConsoleWarn no_db_warning) else mret tt) ;;
     emit (Emit DATABASE_CONNECTED NO_DATABASE) ;; mret false) st
    = (Ok false,
       mkState (this st) (world st)
         (log st ++ (if showWarns then [ConsoleWarn no_db_warning] else [])
          ++ [Emit DATABASE_CONNECTED NO_DATABASE]))).
  { destruct showWarns; unfold_monad; cbn; [by rewrite <- app_assoc | done]. }
  destruct Hnone as [-> | (o & uri & -> & Hdb & Hu)]; [exact Hno|].
  rewrite Hdb, Hu. exact Hno.
Qed.

(** The strategy selection with the built-in strategy. *)
Lemma select_strategy_builtin mb o uri showWarns st st1 :
  Options.db o = MONGOOSE uri →
  select_strategy mb (Some o) showWarns st = (Ok true, st1) →
  ∃ w1,
    MongoBackend.mongo mb (interp uri) (world st) = (Ok tt, w1)
    ∧ st1 = mkState
              (with_db
                 (λ w, Z.eqb (MongoBackend.readyState mb w) 1)
                 (λ w, enumFromName
                         (default "UNKNOWN" (results (MongoBackend.readyState mb w))))
                 (MongoBackend.newMongoGuildSettingsRepository mb)
                 (newMongoCooldownRepository mb) (this st))
              w1 (log st ++ [MongoConnect (interp uri)]).
Proof.
  intros Hdb Hsel.
  destruct (truthy uri) eqn:Hu.
  - revert Hsel. unfold select_strategy. rewrite Hdb, Hu. unfold_monad.
    destruct (MongoBackend.mongo mb (interp uri) (world st)) as [[[]|e] w1];
      intros [= <-]. by exists w1.
  - rewrite (select_strategy_none mb (Some o) showWarns st) in Hsel;
      [discriminate|]. right. by exists o, uri.
Qed.

(** What the strategy selection leaves, whatever its outcome. *)
Lemma select_strategy_general mb options showWarns st :
  let st1 := snd (select_strategy mb options showWarns st) in
  (∃ l, log st1 = log st ++ l ∧ no_handler l)
  ∧ _commandsDir (this st1) = _commandsDir (this st)
  ∧ _featuresDir (this st1) = _featuresDir (this st)
  ∧ (same_strategy (this st) (this st1)
     ∨ (is_Some (_isDbConnected (this st1))
        ∧ is_Some (_getDbConnectionStatus (this st1))
        ∧ is_Some (_guildSettingsRepository (this st1))
        ∧ is_Some (_cooldownRepository (this st1)))).
Proof.
  assert (Hev : ∀ l, (∀ e, e ∈ l → ∃ s x y, e = Emit x s ∨ e = ConsoleWarn y
                                           ∨ e = MongoConnect y) →
                     no_handler l).
  { intros l Hl d Hin. destruct (Hl _ Hin) as (s & x & y & [?|[?|?]]); discriminate. }
  assert (Hnone : ∀ options', options' = None
            ∨ (∃ o uri, options' = Some o ∧ Options.db o = MONGOOSE uri
                        ∧ truthy uri = false) →
    let st1 := snd (select_strategy mb options' showWarns st) in
    (∃ l, log st1 = log st ++ l ∧ no_handler l)
    ∧ _commandsDir (this st1) = _commandsDir (this st)
    ∧ _featuresDir (this st1) = _featuresDir (this st)
    ∧ (same_strategy (this st) (this st1)
       ∨ (is_Some (_isDbConnected (this st1))
          ∧ is_Some (_getDbConnectionStatus (this st1))
          ∧ is_Some (_guildSettingsRepository (this st1))
          ∧ is_Some (_cooldownRepository (this st1))))).
  { intros options' H. rewrite (select_strategy_none mb options' showWarns st H).
    cbn. split; [|split; [done|split; [done|left; by repeat split]]].
    eexists. split; [done|]. apply Hev. intros e He.
    exists NO_DATABASE, DATABASE_CONNECTED, no_db_warning.
    destruct showWarns; cbn in He.
    - apply elem_of_cons in He as [->|He]; [auto|].
      apply list_elem_of_singleton in He as ->. auto.
    - apply list_elem_of_singleton in He as ->. auto. }
  destruct options as [o|]; [|apply Hnone; by left].
  destruct (Options.db o) as [uri | p1 p2 r1 r2] eqn:Hdb.
  - destruct (truthy uri) eqn:Hu; [|apply Hnone; right; by exists o, uri].
    unfold select_strategy. rewrite Hdb, Hu. unfold_monad.
    destruct (MongoBackend.mongo mb (interp uri) (world st)) as [[[]|e] w1]; cbn.
    + split; [|split; [done|split; [done|right; eauto]]].
      eexists. split; [done|]. apply Hev.
      intros x ->%list_elem_of_singleton. exists NO_DATABASE, "", (interp uri). auto.
    + split; [|split; [done|split; [done|left; by repeat split]]].
      eexists. split; [done|]. apply Hev.
      intros x ->%list_elem_of_singleton. exists NO_DATABASE, "", (interp uri). auto.
  - unfold select_strategy. rewrite Hdb. unfold_monad. cbn.
    split; [|split; [done|split; [done|right; eauto]]].
    exists []. rewrite app_nil_r. split; [done|]. apply no_handler_nil.
Qed.

(** [start_handlers], outcome by outcome. *)
Lemma start_handlers_exact c1 c2 f1 f2 st :
  let c := or_else (or_else c1 c2) (_commandsDir (this st)) in
  let f := or_else (or_else f1 f2) (_featuresDir (this st)) in
  let st' := mkState (with_dirs c f (this st)) (world st) (log st) in
  start_handlers c1 c2 f1 f2 st
  = if negb (absolute_or_empty c) then (Throw (mkError commands_dir_not_absolute), st')
    else if negb (absolute_or_empty f)
         then (Throw (mkError features_dir_not_absolute), st')
         else (Ok tt,
               mkState (with_dirs c f (this st)) (world st)
                       (log st ++ [NewCommandHandler c])).
Proof.
  intros c f st'. unfold start_handlers. unfold_monad.
  cbn [this world log with_dirs _commandsDir _featuresDir]. fold c f.
  unfold absolute_or_empty.
  rewrite !negb_orb, !negb_involutive, <- !andb_assoc, <- !negb_orb.
  destruct (truthy (Some c) && _); [reflexivity|].
  destruct (truthy (Some f) && _); reflexivity.
Qed.

End SetUpProperties.

Section StrategyProperties.
Import WOKCommands.
Context {B : Type}.
Implicit Types (st : State B) (w : World B) (mb : MongoBackend.t B).

Lemma getOrCreateGuildSettings_same_strategy guildId st :
  same_strategy (this st) (this (snd (getOrCreateGuildSettings guildId st))).
Proof.
  destruct (getOrCreateGuildSettings_result guildId st)
    as [(gs & _ & ->) | [(_ & e & st' & -> & Hthis & _)
                        | (_ & gs & st' & -> & Hthis & _)]];
    cbn [snd]; try rewrite Hthis; by repeat split.
Qed.

Lemma setPrefix_same_strategy guild prefix st :
  same_strategy (this st) (this (snd (setPrefix guild prefix st))).
Proof.
  destruct guild as [g|]; [|apply same_strategy_refl].
  pose proof (getOrCreateGuildSettings_same_strategy (Guild.id g) st) as H1.
  unfold setPrefix. cbv beta delta [mbind M_bind bind].
  destruct (getOrCreateGuildSettings (Guild.id g) st) as [[gs|e] st1];
    cbn [snd] in H1 |- *; [|exact H1].
  eapply same_strategy_trans; [exact H1|]. clear H1.
  unfold aggregate_setPrefix, deref. cbv beta delta [mbind M_bind bind modify].
  destruct (heap (world st1) !! gs) as [a|]; [|apply same_strategy_refl].
  match goal with
  | |- context [guildSettingsRepository ?s] =>
      destruct (guildSettingsRepository_result s)
        as [[_ ->] | [(_ & _ & ->) | (_ & repository & _ & ->)]]
  end; try apply same_strategy_refl.
  unfold call. cbn [this world log].
  destruct (IGuildSettingsRepository.save repository gs _) as [[updated|e] w2];
    cbn; by repeat split.
Qed.

Lemma setUp_strategy mb client options st :
  let st' := snd (setUp mb client options st) in
  same_strategy (this st) (this st')
  ∨ (is_Some (_isDbConnected (this st'))
     ∧ is_Some (_getDbConnectionStatus (this st'))
     ∧ is_Some (_guildSettingsRepository (this st'))
     ∧ is_Some (_cooldownRepository (this st'))).
Proof.
  destruct client as [c|]; [|left; apply same_strategy_refl].
  unfold setUp. cbv beta zeta delta [mbind M_bind bind].
  pose proof (select_strategy_general mb options
                (default true (options ≫= Options.showWarns)) st)
    as (_ & _ & _ & Hsel).
  destruct (select_strategy mb options _ st) as [[useDb|e] st1];
    cbn [snd] in Hsel |- *; [|exact Hsel].
  assert (Hrest : ∀ st2, same_strategy (this st1) (this st2) →
            same_strategy (this st) (this st2)
            ∨ (is_Some (_isDbConnected (this st2))
               ∧ is_Some (_getDbConnectionStatus (this st2))
               ∧ is_Some (_guildSettingsRepository (this st2))
               ∧ is_Some (_cooldownRepository (this st2)))).
  { intros st2 H12. destruct Hsel as [H01 | Hall].
    - left. by eapply same_strategy_trans.
    - right. destruct H12 as (-> & -> & -> & ->). exact Hall. }
  assert (Hwarm : same_strategy (this st1)
            (this (snd ((if useDb then warm_cache else mret tt) st1)))).
  { destruct useDb; [|apply same_strategy_refl].
    by destruct (warm_cache_general st1) as (_ & _ & _ & _ & _ & H). }
  destruct ((if useDb then warm_cache else mret tt) st1) as [[[]|e] st2];
    cbn [snd] in Hwarm |- *; [|by apply Hrest].
  apply Hrest. eapply same_strategy_trans; [exact Hwarm|].
  rewrite start_handlers_exact.
  repeat (match goal with |- context [if ?b then _ else _] => destruct b end);
    by repeat split.
Qed.

End StrategyProperties.

(** X12. With the built-in strategy the two probes agree, at set-up and
    ever after: [isDBConnected()] is true exactly when the connection status
    is CONNECTED.  So when the status is CONNECTED at set-up, the guarded
    accessor lets the cache warm through and [findAll] is called, right
    after the status is emitted. *)
Theorem builtin_probes_agree :
  ∀ (B : Type) (mb : MongoBackend.t B) (o : Options.t B) (uri : option string)
    (showWarns : bool) (st st1 : WOKCommands.State B),
    Options.db o = MONGOOSE uri →
    WOKCommands.select_strategy mb (Some o) showWarns st = (Ok true, st1) →
    (∀ st2, same_strategy (WOKCommands.this st1) (WOKCommands.this st2) →
            (WOKCommands.isDBConnected st2 = true
             ↔ WOKCommands.dbConnectionStatus st2 = CONNECTED))
    ∧ (WOKCommands.dbConnectionStatus st1 = CONNECTED →
       WOKCommands.log (snd (WOKCommands.warm_cache st1))
       = WOKCommands.log st1
         ++ [WOKCommands.Emit WOKCommands.DATABASE_CONNECTED CONNECTED;
             WOKCommands.FindAll]).
Proof.
  intros B mb o uri showWarns st st1 Hdb Hsel.
  destruct (select_strategy_builtin mb o uri showWarns st st1 Hdb Hsel)
    as (w1 & _ & ->).
  assert (Hagree : ∀ st2,
    same_strategy
      (WOKCommands.with_db
         (λ w, Z.eqb (MongoBackend.readyState mb w) 1)
         (λ w, WOKCommands.enumFromName
                 (default "UNKNOWN" (WOKCommands.results (MongoBackend.readyState mb w))))
         (MongoBackend.newMongoGuildSettingsRepository mb)
         (newMongoCooldownRepository mb) (WOKCommands.this st))
      (WOKCommands.this st2) →
    WOKCommands.isDBConnected st2 = true
    ↔ WOKCommands.dbConnectionStatus st2 = CONNECTED).
  { intros st2 (Hp & Hq & _ & _).
    unfold WOKCommands.isDBConnected, WOKCommands.dbConnectionStatus.
    rewrite Hp, Hq. cbn. rewrite status_connected_iff. apply Z.eqb_eq. }
  split; [exact Hagree|].
  intros Hs.
  apply (warm_cache_calls_findAll _ (MongoBackend.newMongoGuildSettingsRepository mb));
    [exact Hs | | reflexivity].
  apply Hagree; [apply same_strategy_refl | exact Hs].
Qed.

(** Witness of X12: the built-in strategy over the in-memory backend. *)
Lemma builtin_probes_agree_witness :
  let o := InMemory.options (MONGOOSE (Some "mongodb://localhost/bot")) in
  let st := InMemory.start InMemory.with_g1 in
  let st1 := snd (WOKCommands.select_strategy InMemory.mongoBackend (Some o) true st) in
  WOKCommands.select_strategy InMemory.mongoBackend (Some o) true st = (Ok true, st1)
  ∧ WOKCommands.dbConnectionStatus st1 = CONNECTED
  ∧ WOKCommands.isDBConnected st1 = true
  ∧ WOKCommands.log (snd (WOKCommands.warm_cache st1))
    = WOKCommands.log st1
      ++ [WOKCommands.Emit WOKCommands.DATABASE_CONNECTED CONNECTED;
          WOKCommands.FindAll].
Proof.
  intros o st st1.
  destruct (builtin_probes_agree _ InMemory.mongoBackend o
              (Some "mongodb://localhost/bot") true st st1 eq_refl eq_refl)
    as [Hagree Hwarm].
  split; [reflexivity|]. split; [reflexivity|].
  split; [apply (Hagree st1); [by repeat split | reflexivity]|].
  apply Hwarm. reflexivity.
Defined.



Section SetUpOutcome.
Import WOKCommands.
Context {B : Type}.
Implicit Types (st : State B) (mb : MongoBackend.t B).

(** [setUp] from the strategy selection on: the events before the command
    handler construct none, the directories checked are the ones left in
    the instance, and without an absolute commands directory the outcome is
    an error. *)
Lemma setUp_outcome mb (c : Client) options st :
  let run := setUp mb (Some c) options st in
  let c1 := default "" (options ≫= Options.commandsDir) in
  let c2 := default "" (options ≫= Options.commandDir) in
  ∃ l, no_handler l
       ∧ ((is_ok (fst run) = false ∧ log (snd run) = log st ++ l)
          ∨ (fst run = Ok tt
             ∧ log (snd run)
               = log st ++ l ++ [NewCommandHandler (_commandsDir (this (snd run)))]
             ∧ _commandsDir (this (snd run))
               = or_else (or_else c1 c2) (_commandsDir (this st))
             ∧ absolute_or_empty (_commandsDir (this (snd run))) = true
             ∧ absolute_or_empty (_featuresDir (this (snd run))) = true)).
Proof.
  intros run c1 c2. subst run c1 c2. unfold setUp.
  cbv beta zeta delta [mbind M_bind bind].
  pose proof (select_strategy_general mb options
                (default true (options ≫= Options.showWarns)) st)
    as ((l1 & Hl1 & Hn1) & Hc1 & Hf1 & _).
  destruct (select_strategy mb options _ st) as [[useDb|e] st1];
    cbn [snd fst] in *; [|exists l1; split; [done|left; by split]].
  assert (Hwarm : ∃ l2, log (snd ((if useDb then warm_cache else mret tt) st1))
                        = log st1 ++ l2 ∧ no_handler l2
            ∧ _commandsDir (this (snd ((if useDb then warm_cache else mret tt) st1)))
              = _commandsDir (this st1)
            ∧ _featuresDir (this (snd ((if useDb then warm_cache else mret tt) st1)))
              = _featuresDir (this st1)).
  { destruct useDb.
    - destruct (warm_cache_general st1) as (l2 & ? & ? & ? & ? & _). by exists l2.
    - exists []. cbn. rewrite app_nil_r. split; [done|]. split; [|done].
      apply no_handler_nil. }
  destruct Hwarm as (l2 & Hl2 & Hn2 & Hc2 & Hf2).
  destruct ((if useDb then warm_cache else mret tt) st1) as [[[]|e] st2];
    cbn [snd fst] in *.
  2: { exists (l1 ++ l2). split; [by apply no_handler_app|]. left.
       split; [done|]. by rewrite Hl2, Hl1, app_assoc. }
  rewrite start_handlers_exact. rewrite Hc2, Hc1.
  exists (l1 ++ l2). split; [by apply no_handler_app|].
  match goal with
  | |- context [negb (absolute_or_empty ?d)] =>
      destruct (absolute_or_empty d) eqn:Hc
  end; cbn [negb].
  2: { left. cbn. split; [done|]. by rewrite Hl2, Hl1, app_assoc. }
  match goal with
  | |- context [negb (absolute_or_empty ?d)] =>
      destruct (absolute_or_empty d) eqn:Hf
  end; cbn [negb].
  2: { left. cbn. split; [done|]. by rewrite Hl2, Hl1, app_assoc. }
  right. cbn. split; [done|]. split; [by rewrite Hl2, Hl1, !app_assoc|].
  split; [done|]. by split.
Qed.

(** A successful cache warm recorded the status CONNECTED and then the
    call of [findAll], and nothing else. *)
Lemma warm_cache_ok st :
  fst (warm_cache st) = Ok tt →
  log (snd (warm_cache st)) = log st ++ [Emit DATABASE_CONNECTED CONNECTED; FindAll].
Proof.
  unfold warm_cache. cbv beta iota delta [mbind M_bind bind gets emit modify throw].
  destruct (decide (dbConnectionStatus st = CONNECTED)) as [Hs|Hs].
  2: { by rewrite bool_decide_eq_true_2. }
  rewrite Hs. rewrite bool_decide_eq_false_2 by (by intros ?). cbv beta iota.
  match goal with
  | |- context [guildSettingsRepository ?s] =>
      destruct (guildSettingsRepository_result s)
        as [[_ ->] | [(_ & _ & ->) | (_ & repository & _ & ->)]]
  end; try discriminate.
  unfold call. cbn [this world log].
  destruct (IGuildSettingsRepository.findAll repository (world st))
    as [[settings|e] w']; [|discriminate].
  match goal with
  | |- context [reduce_guildSettings settings ∅ ?s] =>
      pose proof (reduce_guildSettings_state settings ∅ s) as Hred;
      destruct (reduce_guildSettings settings ∅ s) as [[agg|e] s']
  end; cbn [snd] in Hred; subst s'; [|discriminate].
  intros _. cbn. by rewrite <- app_assoc.
Qed.

(** Events that end with the only command handler among them are cut at a
    command handler in one way. *)
Lemma handler_split_unique (l pre post : list Event) (c d : string) :
  no_handler l →
  l ++ [NewCommandHandler c] = pre ++ NewCommandHandler d :: post →
  pre = l ∧ d = c ∧ post = [].
Proof.
  revert pre. induction l as [|x l IH]; intros pre Hn Heq.
  - destruct pre as [|y pre]; cbn in Heq.
    + by injection Heq as -> <-.
    + injection Heq as _ Heq. by destruct pre.
  - destruct pre as [|y pre]; cbn in Heq.
    + injection Heq as -> _. exfalso. apply (Hn d). apply elem_of_cons. by left.
    + injection Heq as -> Heq.
      destruct (IH pre) as (-> & -> & ->); [|exact Heq|done].
      intros d' Hin. apply (Hn d'). apply elem_of_cons. by right.
Qed.

(** The events of [setUp]: none constructs a command handler, or the last
    one does, after the directories were checked and, when the options
    configure a backend, right after the status CONNECTED and the call of
    [findAll]. *)
Lemma setUp_handler_events mb (c : Client) options st :
  let run := setUp mb (Some c) options st in
  let dc := or_else (or_else (default "" (options ≫= Options.commandsDir))
                             (default "" (options ≫= Options.commandDir)))
                    (_commandsDir (this st)) in
  let df := or_else (or_else (default "" (options ≫= Options.featuresDir))
                             (default "" (options ≫= Options.featureDir)))
                    (_featuresDir (this st)) in
  ∃ l, log (snd run) = log st ++ l
       ∧ (no_handler l
          ∨ ∃ l', l = l' ++ [NewCommandHandler dc]
                  ∧ no_handler l'
                  ∧ absolute_or_empty dc = true
                  ∧ absolute_or_empty df = true
                  ∧ (∀ o, options = Some o → backend_configured o = true →
                       ∃ pre0, l' = pre0 ++ [Emit DATABASE_CONNECTED CONNECTED; FindAll])).
Proof.
  intros run dc df. subst run dc df. unfold setUp.
  cbv beta zeta delta [mbind M_bind bind].
  pose proof (select_strategy_general mb options
                (default true (options ≫= Options.showWarns)) st)
    as ((l1 & Hl1 & Hn1) & Hc1 & Hf1 & _).
  assert (Hconf : ∀ o, options = Some o → backend_configured o = true →
            ∀ useDb, fst (select_strategy mb options
                            (default true (options ≫= Options.showWarns)) st)
                     = Ok useDb → useDb = true).
  { intros o -> Hcfg useDb Hsel.
    destruct (select_strategy_configured mb o
                (default true (Some o ≫= Options.showWarns)) st Hcfg)
      as (_ & [[e He] | [Htrue _]]); congruence. }
  destruct (select_strategy mb options _ st) as [[useDb|e] st1];
    cbn [snd fst] in *; [|exists l1; split; [done|by left]].
  assert (Hwarm : ∃ l2, log (snd ((if useDb then warm_cache else mret tt) st1))
                        = log st1 ++ l2 ∧ no_handler l2
            ∧ _commandsDir (this (snd ((if useDb then warm_cache else mret tt) st1)))
              = _commandsDir (this st1)
            ∧ _featuresDir (this (snd ((if useDb then warm_cache else mret tt) st1)))
              = _featuresDir (this st1)
            ∧ (useDb = true →
               fst ((if useDb then warm_cache else mret tt) st1) = Ok tt →
               l2 = [Emit DATABASE_CONNECTED CONNECTED; FindAll])).
  { destruct useDb.
    - destruct (warm_cache_general st1) as (l2 & Hl2 & ? & ? & ? & _). exists l2.
      split; [done|]. split; [done|]. split; [done|]. split; [done|].
      intros _ Hok. apply warm_cache_ok in Hok. rewrite Hl2 in Hok.
      by apply app_inv_head in Hok.
    - exists []. cbn. rewrite app_nil_r. split; [done|].
      split; [apply no_handler_nil|]. by repeat split. }
  destruct Hwarm as (l2 & Hl2 & Hn2 & Hc2 & Hf2 & Hexact).
  destruct ((if useDb then warm_cache else mret tt) st1) as [[[]|e] st2];
    cbn [snd fst] in *.
  2: { exists (l1 ++ l2). split; [by rewrite Hl2, Hl1, app_assoc|].
       left. by apply no_handler_app. }
  rewrite start_handlers_exact. rewrite Hc2, Hc1, Hf2, Hf1.
  match goal with
  | |- context [negb (absolute_or_empty ?d)] =>
      destruct (absolute_or_empty d) eqn:Hc
  end; cbn [negb].
  2: { exists (l1 ++ l2). cbn. split; [by rewrite Hl2, Hl1, app_assoc|].
       left. by apply no_handler_app. }
  match goal with
  | |- context [negb (absolute_or_empty ?d)] =>
      destruct (absolute_or_empty d) eqn:Hf
  end; cbn [negb].
  2: { exists (l1 ++ l2). cbn. split; [by rewrite Hl2, Hl1, app_assoc|].
       left. by apply no_handler_app. }
  eexists. cbn. split; [by rewrite Hl2, Hl1, <- !app_assoc|].
  right. exists (l1 ++ l2). split; [by rewrite <- app_assoc|].
  split; [by apply no_handler_app|]. split; [done|]. split; [done|].
  intros o Ho Hcfg. exists l1.
  rewrite (Hexact (Hconf o Ho Hcfg useDb eq_refl) eq_refl). done.
Qed.

End SetUpOutcome.

(** X14. [setUp] constructs a command handler only after everything
    before it has passed.  Wherever a command handler is constructed among
    the events of a set-up: no command handler was constructed before it; a
    client was given; the directory it is given is
    [commandsDir || commandDir || this._commandsDir] and is empty or holds a
    slash or a backslash, and so is the features directory; and when the
    options configure a backend, the events right before it are the status
    CONNECTED and the call of [findAll]. *)
Theorem setUp_handler_only_after_checks :
  ∀ (B : Type) (mb : MongoBackend.t B) (client : option WOKCommands.Client)
    (options : option (Options.t B)) (st : WOKCommands.State B)
    (l pre post : list WOKCommands.Event) (d : string),
    WOKCommands.log (snd (WOKCommands.setUp mb client options st))
    = WOKCommands.log st ++ l →
    l = pre ++ WOKCommands.NewCommandHandler d :: post →
    no_handler pre
    ∧ is_Some client
    ∧ d = or_else (or_else (default "" (options ≫= Options.commandsDir))
                           (default "" (options ≫= Options.commandDir)))
                  (WOKCommands._commandsDir (WOKCommands.this st))
    ∧ absolute_or_empty d = true
    ∧ absolute_or_empty
        (or_else (or_else (default "" (options ≫= Options.featuresDir))
                          (default "" (options ≫= Options.featureDir)))
                 (WOKCommands._featuresDir (WOKCommands.this st))) = true
    ∧ (∀ o, options = Some o → backend_configured o = true →
         ∃ pre0, pre = pre0 ++ [WOKCommands.Emit WOKCommands.DATABASE_CONNECTED CONNECTED;
                                WOKCommands.FindAll]).
Proof.
  intros B mb [c|] options st l pre post d Hlog Hsplit.
  - destruct (setUp_handler_events mb c options st)
      as (l0 & Hlog0 & [Hnone | (l' & Hl' & Hn & Hc & Hf & Hwarm)]);
      rewrite Hlog in Hlog0; apply app_inv_head in Hlog0; subst l0.
    + exfalso. apply (Hnone d). rewrite Hsplit.
      apply elem_of_app. right. apply elem_of_cons. by left.
    + rewrite Hsplit in Hl'. symmetry in Hl'.
      apply handler_split_unique in Hl' as (-> & -> & ->); [|exact Hn].
      split; [exact Hn|]. split; [by eexists|]. split; [done|].
      split; [exact Hc|]. split; [exact Hf|]. exact Hwarm.
  - exfalso. cbn in Hlog.
    rewrite <- (app_nil_r (WOKCommands.log st)) in Hlog at 1.
    apply app_inv_head in Hlog. subst l. by destruct pre.
Qed.

(** Witness of X14: the set-up with the built-in strategy over a store
    that holds guild "g1"; the command handler is the fourth event, after
    the connection, the status CONNECTED and [findAll]. *)
Lemma setUp_handler_only_after_checks_witness :
  let o := InMemory.options (MONGOOSE (Some "mongodb://localhost/bot")) in
  let st := InMemory.start InMemory.with_g1 in
  let pre := [WOKCommands.MongoConnect "mongodb://localhost/bot";
              WOKCommands.Emit WOKCommands.DATABASE_CONNECTED CONNECTED;
              WOKCommands.FindAll] in
  WOKCommands.log (snd (WOKCommands.setUp InMemory.mongoBackend
                          (Some WOKCommands.DiscordClient) (Some o) st))
  = WOKCommands.log st ++ pre ++ [WOKCommands.NewCommandHandler "/bot/commands"]
  ∧ no_handler pre
  ∧ absolute_or_empty "/bot/commands" = true
  ∧ ∃ pre0, pre = pre0 ++ [WOKCommands.Emit WOKCommands.DATABASE_CONNECTED CONNECTED;
                           WOKCommands.FindAll].
Proof.
  intros o st pre.
  destruct (setUp_handler_only_after_checks _ InMemory.mongoBackend
              (Some WOKCommands.DiscordClient) (Some o) st
              (pre ++ [WOKCommands.NewCommandHandler "/bot/commands"])
              pre [] "/bot/commands" eq_refl eq_refl)
    as (Hn & _ & _ & Habs & _ & Hwarm).
  split; [reflexivity|]. split; [exact Hn|]. split; [exact Habs|].
  exact (Hwarm o eq_refl eq_refl).
Defined.

(** X15. A relative commands directory stops the set-up: when the options
    give no [commandsDir] and no [commandDir] (or give them empty) and the
    directory of the instance is neither empty nor holds a slash or a
    backslash, as the initial "commands", [setUp] fails, whatever the
    database strategy, and constructs no command handler. *)
Theorem setUp_fails_on_relative_commands_dir :
  ∀ (B : Type) (mb : MongoBackend.t B) (client : option WOKCommands.Client)
    (options : option (Options.t B)) (st : WOKCommands.State B),
    default "" (options ≫= Options.commandsDir) = "" →
    default "" (options ≫= Options.commandDir) = "" →
    absolute_or_empty (WOKCommands._commandsDir (WOKCommands.this st)) = false →
    is_ok (fst (WOKCommands.setUp mb client options st)) = false
    ∧ ∃ l, WOKCommands.log (snd (WOKCommands.setUp mb client options st))
           = WOKCommands.log st ++ l
           ∧ no_handler l.
Proof.
  intros B mb [c|] options st H1 H2 Hrel.
  - destruct (setUp_outcome mb c options st)
      as (l & Hn & [[Hfail Hlog] | (Hok & Hlog & Hdir & Hc & Hf)]).
    + split; [done|]. by exists l.
    + rewrite Hdir, H1, H2 in Hc. cbn in Hc. congruence.
  - split; [done|]. exists []. cbn. rewrite app_nil_r.
    split; [done | apply no_handler_nil].
Qed.

(** Witness of X15: a new instance, a client, and no options at all. *)
Lemma setUp_fails_on_relative_commands_dir_witness :
  let st := InMemory.start InMemory.empty in
  WOKCommands._commandsDir (WOKCommands.this st) = "commands"
  ∧ fst (WOKCommands.setUp InMemory.mongoBackend (Some WOKCommands.DiscordClient) None st)
    = Throw (mkError WOKCommands.commands_dir_not_absolute)
  ∧ is_ok (fst (WOKCommands.setUp InMemory.mongoBackend
                  (Some WOKCommands.DiscordClient) None st)) = false.
Proof.
  intros st. split; [reflexivity|]. split; [reflexivity|].
  apply (setUp_fails_on_relative_commands_dir _ InMemory.mongoBackend
           (Some WOKCommands.DiscordClient) None st); reflexivity.
Defined.

(** X16. For options of the declared type, in which the caller-supplied
    strategy carries both probes and both repositories, the four strategy
    fields of an instance are set together or not at all: a new instance
    has none of them, and [setUp], [getOrCreateGuildSettings] and
    [setPrefix] keep them so whatever their outcome.  On such an instance
    each accessor succeeds exactly when [isDBConnected()] is true, so
    neither fails with its "not defined!" error. *)
Theorem not_defined_errors_unreachable :
  ∀ (B : Type) (mb : MongoBackend.t B),
    strategy_complete (WOKCommands.fresh_instance (B := B))
    ∧ (∀ client options (st : WOKCommands.State B),
         strategy_complete (WOKCommands.this st) →
         strategy_complete
           (WOKCommands.this (snd (WOKCommands.setUp mb client options st))))
    ∧ (∀ guildId (st : WOKCommands.State B),
         strategy_complete (WOKCommands.this st) →
         strategy_complete
           (WOKCommands.this (snd (WOKCommands.getOrCreateGuildSettings guildId st))))
    ∧ (∀ guild prefix (st : WOKCommands.State B),
         strategy_complete (WOKCommands.this st) →
         strategy_complete
           (WOKCommands.this (snd (WOKCommands.setPrefix guild prefix st))))
    ∧ (∀ (st : WOKCommands.State B),
         strategy_complete (WOKCommands.this st) →
         is_ok (fst (WOKCommands.guildSettingsRepository st))
         = WOKCommands.isDBConnected st
         ∧ is_ok (fst (WOKCommands.cooldownRepository st))
           = WOKCommands.isDBConnected st
         ∧ fst (WOKCommands.guildSettingsRepository st)
           ≠ Throw (mkError "_guildSettingsRepository not defined!")
         ∧ fst (WOKCommands.cooldownRepository st)
           ≠ Throw (mkError "_cooldownRepository not defined!")).
Proof.
  intros B mb. split; [|split; [|split; [|split]]].
  - right. by repeat split.
  - intros client options st Hc.
    destruct (setUp_strategy mb client options st) as [Hsame | Hall].
    + by eapply same_strategy_complete.
    + by left.
  - intros guildId st. apply same_strategy_complete.
    apply getOrCreateGuildSettings_same_strategy.
  - intros guild prefix st. apply same_strategy_complete.
    apply setPrefix_same_strategy.
  - intros st Hc.
    assert (Hset : WOKCommands.isDBConnected st = true →
              is_Some (WOKCommands._guildSettingsRepository (WOKCommands.this st))
              ∧ is_Some (WOKCommands._cooldownRepository (WOKCommands.this st))).
    { destruct Hc as [(_ & _ & Hg & Hcd) | (Hp & _)]; [done|].
      unfold WOKCommands.isDBConnected. by rewrite Hp. }
    unfold WOKCommands.guildSettingsRepository, WOKCommands.cooldownRepository.
    unfold_monad.
    destruct (WOKCommands.isDBConnected st) eqn:Hd; cbn; [|by repeat split].
    destruct (Hset eq_refl) as [[r ->] [r' ->]]. by repeat split.
Qed.

(** Witness of X16: the instance left by a set-up with the caller-supplied
    strategy and a connected database. *)
Lemma not_defined_errors_unreachable_witness :
  let st := snd (WOKCommands.setUp InMemory.mongoBackend
                   (Some WOKCommands.DiscordClient)
                   (Some (InMemory.options (InMemory.generic true CONNECTED)))
                   (InMemory.start InMemory.with_g1)) in
  strategy_complete (WOKCommands.this st)
  ∧ WOKCommands.isDBConnected st = true
  ∧ is_ok (fst (WOKCommands.guildSettingsRepository st)) = true
  ∧ fst (WOKCommands.guildSettingsRepository st)
    ≠ Throw (mkError "_guildSettingsRepository not defined!").
Proof.
  intros st.
  destruct (not_defined_errors_unreachable _ InMemory.mongoBackend)
    as (Hfresh & HsetUp & _ & _ & Hacc).
  assert (Hc : strategy_complete (WOKCommands.this st)).
  { apply HsetUp. exact Hfresh. }
  destruct (Hacc st Hc) as (Hok & _ & Hne & _).
  split; [exact Hc|]. split; [reflexivity|]. split; [exact Hok | exact Hne].
Defined.

(* ===================================================================== *)
(** * Properties of the categories *)
(* ===================================================================== *)

Section CategoryProperties.
Import Categories.
Variable emojis_cache_get : string → option GuildEmoji.t.
Variable toPrimitive : GuildEmoji.t → string.
Variable toString : GuildEmoji.t → string.

Lemma map_get_set_eq k v m : map_get k (map_set k v m) = Some v.
Proof.
  induction m as [|[k' v'] m IH]; cbn.
  - by rewrite String.eqb_refl.
  - destruct (String.eqb_spec k' k) as [->|Hne]; cbn.
    + by rewrite String.eqb_refl.
    + by apply String.eqb_neq in Hne as ->.
Qed.

Lemma map_get_set_ne k k' v m : k ≠ k' → map_get k' (map_set k v m) = map_get k' m.
Proof.
  intros Hne. induction m as [|[k0 v0] m IH]; cbn.
  - by apply String.eqb_neq in Hne as ->.
  - destruct (String.eqb_spec k0 k) as [->|Hne0]; cbn.
    + apply String.eqb_neq in Hne as ->. reflexivity.
    + by rewrite IH.
Qed.

(** A new key goes to the end of the map. *)
Lemma map_set_new k v m : map_get k m = None → map_set k v m = m ++ [(k, v)].
Proof.
  induction m as [|[k' v'] m IH]; cbn; [done|].
  destruct (String.eqb k' k); [done|]. intros H. by rewrite IH.
Qed.

(** The loop body, by the outcome of its first step. *)
Lemma setCategorySetting_throws c st :
  parsed_emoji c = None →
  setCategorySetting emojis_cache_get toString c st
  = (Throw (mkError WOKCommands.type_error), st).
Proof.
  unfold parsed_emoji, setCategorySetting. intros Hp.
  cbv beta zeta delta [mbind M_bind bind].
  destruct (startsWith _ _ && endsWith _ _); [|discriminate].
  by destruct (split colon (ICategorySetting.emoji c) !! 2%nat).
Qed.

Lemma setCategorySetting_runs c st emoji customEmoji :
  parsed_emoji c = Some (emoji, customEmoji) →
  let name := ICategorySetting.name c in
  let targetEmoji :=
    if customEmoji then Custom <$> emojis_cache_get emoji else Some (Text emoji) in
  setCategorySetting emojis_cache_get toString c st
  = (Ok tt,
     mkState
       (map_set name (or_emoji targetEmoji (map_get name (_categories st)))
                (_categories st))
       (_hiddenCategories st
        ++ if default false (ICategorySetting.hidden c) then [name] else [])
       (warnings st
        ++ if isEmojiUsed targetEmoji st
           then [already_used toString targetEmoji name] else [])).
Proof.
  intros Hp name targetEmoji. unfold parsed_emoji in Hp. unfold setCategorySetting.
  cbv beta zeta delta [mbind M_bind bind].
  assert (Hparsed :
    (if startsWith (ICategorySetting.emoji c) "<:"
        && endsWith (ICategorySetting.emoji c) ">"
     then match split colon (ICategorySetting.emoji c) !! 2%nat with
          | Some segment => mret (drop_last segment, true)
          | None => throw WOKCommands.type_error
          end
     else mret (ICategorySetting.emoji c,
                default false (ICategorySetting.customEmoji c))) st
    = (Ok (emoji, customEmoji), st)).
  { destruct (startsWith _ _ && endsWith _ _).
    - destruct (split colon (ICategorySetting.emoji c) !! 2%nat);
        [by injection Hp as <- <- | discriminate].
    - by injection Hp as <- <-. }
  rewrite Hparsed. cbn [fst snd]. fold targetEmoji name.
  unfold gets, modify, mret, M_ret, ret.
  destruct (isEmojiUsed targetEmoji st), (default false (ICategorySetting.hidden c));
    cbn; by rewrite ?app_nil_r.
Qed.

(** The emoji of a category after the loop body ran on it, and of the
    others. *)
Lemma getEmoji_set name v st hidden warned :
  getEmoji name (mkState (map_set name v (_categories st)) hidden warned)
  = match v with
    | Custom e => "<:" +:+ GuildEmoji.name e +:+ ":" +:+ GuildEmoji.id e +:+ ">"
    | Text s => s
    end.
Proof. unfold getEmoji. cbn. by rewrite map_get_set_eq. Qed.

Lemma getEmoji_set_other name other v st hidden warned :
  name ≠ other →
  getEmoji other (mkState (map_set name v (_categories st)) hidden warned)
  = getEmoji other st.
Proof. intros Hne. unfold getEmoji. cbn. by rewrite map_get_set_ne. Qed.

(** Facts on the string functions. *)
Lemma endsWith_append (s suffix : string) : endsWith (s +:+ suffix) suffix = true.
Proof.
  induction s as [|a s IH].
  - change ("" +:+ suffix) with suffix.
    destruct suffix; cbn; by rewrite ?String.eqb_refl, ?Ascii.eqb_refl.
  - rewrite append_cons. cbn [endsWith]. rewrite IH. apply orb_true_r.
Qed.

Lemma split_colon_free (s : string) : colon_free s = true → split colon s = [s].
Proof.
  induction s as [|a s IH]; [done|]. cbn [colon_free split].
  intros [Ha Hs]%andb_true_iff. apply negb_true_iff in Ha. rewrite Ha.
  by rewrite (IH Hs).
Qed.

Lemma split_at_colon (a r : string) :
  colon_free a = true →
  split colon (a +:+ String colon r) = a :: split colon r.
Proof.
  induction a as [|x a IH].
  - intros _. change ("" +:+ String colon r) with (String colon r).
    cbn [split]. by rewrite Ascii.eqb_refl.
  - cbn [colon_free]. intros [Hx Ha]%andb_true_iff. apply negb_true_iff in Hx.
    rewrite append_cons. cbn [split]. rewrite Hx. by rewrite (IH Ha).
Qed.

Lemma colon_free_append (s t : string) :
  colon_free s = true → colon_free t = true → colon_free (s +:+ t) = true.
Proof.
  intros Hs Ht. induction s as [|a s IH]; [done|].
  cbn [colon_free] in Hs. apply andb_true_iff in Hs as [Ha Hs].
  rewrite append_cons. cbn [colon_free]. by rewrite Ha, IH.
Qed.

Lemma length_append (s t : string) :
  String.length (s +:+ t) = String.length s + String.length t.
Proof.
  induction s as [|x s IH]; [done|].
  rewrite append_cons. cbn [String.length]. by rewrite IH.
Qed.

Lemma substring_prefix (s t : string) :
  String.substring 0 (String.length s) (s +:+ t) = s.
Proof.
  induction s as [|x s IH].
  - change ("" +:+ t) with t. by destruct t.
  - rewrite append_cons. cbn [String.length String.substring]. by rewrite IH.
Qed.

Lemma drop_last_append (s : string) (a : Ascii.ascii) :
  drop_last (s +:+ String a "") = s.
Proof.
  unfold drop_last. rewrite length_append. cbn [String.length].
  replace (String.length s + 1 - 1) with (String.length s) by lia.
  apply substring_prefix.
Qed.

Lemma append_assoc (a b c : string) : (a +:+ b) +:+ c = a +:+ (b +:+ c).
Proof.
  induction a as [|y a IH]; [done|]. rewrite !append_cons. by rewrite IH.
Qed.

Lemma startsWith_custom (x : string) : startsWith ("<:" +:+ x) "<:" = true.
Proof. unfold startsWith. by destruct x. Qed.

(** The custom form [<:name:id>] is parsed into its id. *)
Lemma parsed_custom_form (c : ICategorySetting.t) (n i : string) :
  ICategorySetting.emoji c = "<:" +:+ n +:+ ":" +:+ i +:+ ">" →
  colon_free n = true →
  colon_free i = true →
  parsed_emoji c = Some (i, true).
Proof.
  intros He Hn Hi. unfold parsed_emoji. rewrite He.
  assert (Hstart : startsWith ("<:" +:+ n +:+ ":" +:+ i +:+ ">") "<:" = true)
    by apply startsWith_custom.
  assert (Hend : endsWith ("<:" +:+ n +:+ ":" +:+ i +:+ ">") ">" = true).
  { rewrite <- !append_assoc. apply endsWith_append. }
  rewrite Hstart, Hend. cbn [andb].
  change ("<:" +:+ n +:+ ":" +:+ i +:+ ">")
    with ("<" +:+ String colon (n +:+ String colon (i +:+ ">"))).
  rewrite split_at_colon by done. rewrite split_at_colon by done.
  rewrite split_colon_free by (by apply colon_free_append). cbn.
  by rewrite drop_last_append.
Qed.

(** The custom form with a single colon has no third segment. *)
Lemma parsed_malformed (c : ICategorySetting.t) (body : string) :
  ICategorySetting.emoji c = "<:" +:+ body +:+ ">" →
  colon_free body = true →
  parsed_emoji c = None.
Proof.
  intros He Hb. unfold parsed_emoji. rewrite He.
  assert (Hstart : startsWith ("<:" +:+ body +:+ ">") "<:" = true)
    by apply startsWith_custom.
  assert (Hend : endsWith ("<:" +:+ body +:+ ">") ">" = true).
  { rewrite <- append_assoc. apply endsWith_append. }
  rewrite Hstart, Hend. cbn [andb].
  change ("<:" +:+ body +:+ ">") with ("<" +:+ String colon (body +:+ ">")).
  rewrite split_at_colon by done.
  by rewrite split_colon_free by (by apply colon_free_append).
Qed.

(** [getCategory] over a map with one more entry at the end. *)
Lemma getCategory_snoc emoji m k v hidden warned :
  getCategory toPrimitive emoji (mkState (m ++ [(k, v)]) hidden warned)
  = if loose_eq toPrimitive emoji v then k
    else getCategory toPrimitive emoji (mkState m hidden warned).
Proof. unfold getCategory. cbn. by rewrite foldl_app. Qed.

Lemma getCategory_no_match emoji m hidden warned :
  (∀ kv, kv ∈ m → loose_eq toPrimitive emoji (snd kv) = false) →
  getCategory toPrimitive emoji (mkState m hidden warned) = "".
Proof.
  induction m as [|[k v] m IH] using rev_ind; [done|].
  intros Hm. rewrite getCategory_snoc.
  assert (loose_eq toPrimitive emoji v = false) as ->
    by (apply (Hm (k, v)), elem_of_app; right; by apply list_elem_of_singleton).
  apply IH. intros kv Hin. apply Hm, elem_of_app. by left.
Qed.

End CategoryProperties.

Section CategoryRuns.
Import Categories.
Variable emojis_cache_get : string → option GuildEmoji.t.
Variable toPrimitive : GuildEmoji.t → string.
Variable toString : GuildEmoji.t → string.

(** [setCategorySettings] on one setting whose first step succeeds. *)
Lemma setCategorySettings_one c st emoji customEmoji :
  parsed_emoji c = Some (emoji, customEmoji) →
  setCategorySettings emojis_cache_get toString [c] st
  = (Ok tt, snd (setCategorySetting emojis_cache_get toString c st))
  ∧ setCategorySetting emojis_cache_get toString c st
    = (Ok tt, snd (setCategorySetting emojis_cache_get toString c st)).
Proof.
  intros Hp. cbn [setCategorySettings]. cbv beta delta [mbind M_bind bind].
  by rewrite (setCategorySetting_runs emojis_cache_get toString c st _ _ Hp).
Qed.

(** [setCategorySettings] on a list in two parts. *)
Lemma setCategorySettings_app l1 l2 st :
  setCategorySettings emojis_cache_get toString (l1 ++ l2) st
  = match setCategorySettings emojis_cache_get toString l1 st with
    | (Ok _, st1) => setCategorySettings emojis_cache_get toString l2 st1
    | (Throw e, st1) => (Throw e, st1)
    end.
Proof.
  revert st. induction l1 as [|c l1 IH]; intros st; [reflexivity|].
  cbn [app setCategorySettings]. cbv beta delta [mbind M_bind bind].
  destruct (setCategorySetting emojis_cache_get toString c st) as [[[]|e] st1];
    [apply IH | reflexivity].
Qed.

Lemma or_emoji_text (e : string) (old : option Emoji) :
  e ≠ "" → or_emoji (Some (Text e)) old = Text e.
Proof.
  intros He. unfold or_emoji, truthy_emoji. by rewrite (truthy_nonempty e He).
Qed.

(** Entries that do not match leave the result of [getCategory]. *)
Lemma getCategory_fold_no_match emoji (m : list (string * Emoji)) (acc : string) :
  (∀ kv, kv ∈ m → loose_eq toPrimitive emoji (snd kv) = false) →
  foldl (λ result kv, if loose_eq toPrimitive emoji (snd kv) then fst kv else result)
        acc m = acc.
Proof.
  revert acc. induction m as [|kv m IH]; intros acc Hm; [done|].
  cbn [foldl]. rewrite (Hm kv) by (by left). apply IH.
  intros kv' Hin. apply Hm. by right.
Qed.

End CategoryRuns.

(** X17. A plain emoji is read back: after [setCategorySettings] with one
    setting whose emoji is not empty, is not of the form [<:...>] and is not
    flagged custom, [getEmoji] of the category is that emoji, and the emoji
    of every other category is as before. *)
Theorem getEmoji_after_plain_setting :
  ∀ (emojis_cache_get : string → option GuildEmoji.t)
    (toString : GuildEmoji.t → string)
    (c : ICategorySetting.t) (st : Categories.State),
    Categories.startsWith (ICategorySetting.emoji c) "<:"
    && Categories.endsWith (ICategorySetting.emoji c) ">" = false →
    default false (ICategorySetting.customEmoji c) = false →
    ICategorySetting.emoji c ≠ "" →
    let run := Categories.setCategorySettings emojis_cache_get toString [c] st in
    fst run = Ok tt
    ∧ Categories.getEmoji (ICategorySetting.name c) (snd run) = ICategorySetting.emoji c
    ∧ (∀ other, other ≠ ICategorySetting.name c →
                Categories.getEmoji other (snd run) = Categories.getEmoji other st).
Proof.
  intros cache toString c st Hform Hflag Hne run.
  assert (Hp : Categories.parsed_emoji c = Some (ICategorySetting.emoji c, false)).
  { unfold Categories.parsed_emoji. by rewrite Hform, Hflag. }
  destruct (setCategorySettings_one cache toString c st _ _ Hp) as [Hrun _].
  subst run. rewrite Hrun.
  rewrite (setCategorySetting_runs cache toString c st _ _ Hp). cbn [fst snd].
  split; [done|]. split.
  - by rewrite getEmoji_set, or_emoji_text.
  - intros other Hother. by apply getEmoji_set_other.
Qed.

(** Witness of X17: the category "Fun" given the emoji "X". *)
Lemma getEmoji_after_plain_setting_witness :
  let c := ICategorySetting.mk "Fun" "X" None None in
  let st := Categories.mkState [("Help", Categories.Text "?")] [] [] in
  "X" ≠ ""
  ∧ Categories.getEmoji "Fun"
      (snd (Categories.setCategorySettings (λ _, None) GuildEmoji.id [c] st)) = "X"
  ∧ Categories.getEmoji "Help"
      (snd (Categories.setCategorySettings (λ _, None) GuildEmoji.id [c] st)) = "?".
Proof.
  intros c st. split; [discriminate|].
  destruct (getEmoji_after_plain_setting (λ _, None) GuildEmoji.id c st
              eq_refl eq_refl) as (_ & Hfun & Hother); [discriminate|].
  split; [exact Hfun|]. rewrite Hother; [reflexivity | discriminate].
Defined.

(** X18. A custom emoji is read back: after [setCategorySettings] with one
    setting whose emoji is [<:name:id>] (no colon in name or id) and whose id
    the client's cache knows, the category holds the cached emoji object and
    [getEmoji] renders it as [<:] its name [:] its id [>]: the text given,
    when the cached object carries that name and id. *)
Theorem getEmoji_after_custom_setting :
  ∀ (emojis_cache_get : string → option GuildEmoji.t)
    (toString : GuildEmoji.t → string)
    (c : ICategorySetting.t) (n i : string) (e : GuildEmoji.t)
    (st : Categories.State),
    ICategorySetting.emoji c = "<:" +:+ n +:+ ":" +:+ i +:+ ">" →
    Categories.colon_free n = true →
    Categories.colon_free i = true →
    emojis_cache_get i = Some e →
    let run := Categories.setCategorySettings emojis_cache_get toString [c] st in
    fst run = Ok tt
    ∧ Categories.map_get (ICategorySetting.name c) (Categories._categories (snd run))
      = Some (Categories.Custom e)
    ∧ Categories.getEmoji (ICategorySetting.name c) (snd run)
      = "<:" +:+ GuildEmoji.name e +:+ ":" +:+ GuildEmoji.id e +:+ ">"
    ∧ (GuildEmoji.name e = n → GuildEmoji.id e = i →
       Categories.getEmoji (ICategorySetting.name c) (snd run)
       = ICategorySetting.emoji c).
Proof.
  intros cache toString c n i e st He Hn Hi Hcache run.
  pose proof (parsed_custom_form c n i He Hn Hi) as Hp.
  destruct (setCategorySettings_one cache toString c st _ _ Hp) as [Hrun _].
  subst run. rewrite Hrun.
  rewrite (setCategorySetting_runs cache toString c st _ _ Hp). cbn [fst snd].
  rewrite Hcache. cbn [fmap option_fmap option_map Categories.or_emoji
                       Categories.truthy_emoji].
  split; [done|]. split; [cbn; apply map_get_set_eq|].
  rewrite getEmoji_set. split; [done|]. intros -> ->. by rewrite He.
Qed.

(** Witness of X18: the emoji "<:wave:42>" with a client that knows the
    emoji 42 under the name "wave". *)
Lemma getEmoji_after_custom_setting_witness :
  let cache := λ i : string,
    if String.eqb i "42" then Some (GuildEmoji.mk "wave" "42") else None in
  let c := ICategorySetting.mk "Fun" "<:wave:42>" None None in
  let st := Categories.mkState [] [] [] in
  Categories.colon_free "wave" = true
  ∧ Categories.colon_free "42" = true
  ∧ cache "42" = Some (GuildEmoji.mk "wave" "42")
  ∧ Categories.getEmoji "Fun"
      (snd (Categories.setCategorySettings cache GuildEmoji.id [c] st))
    = "<:wave:42>".
Proof.
  intros cache c st. split; [reflexivity|]. split; [reflexivity|].
  split; [reflexivity|].
  destruct (getEmoji_after_custom_setting cache GuildEmoji.id c "wave" "42"
              (GuildEmoji.mk "wave" "42") st eq_refl eq_refl eq_refl eq_refl)
    as (_ & _ & _ & Hback).
  by apply Hback.
Defined.

(** X19. A custom emoji that the client's cache does not know changes
    nothing that [getEmoji] shows: whether it is given as [<:name:id>] or by
    its id with [customEmoji] set, [setCategorySettings] succeeds without a
    warning and [getEmoji] of the category answers what it answered
    before. *)
Theorem unknown_custom_emoji_keeps_previous :
  ∀ (emojis_cache_get : string → option GuildEmoji.t)
    (toString : GuildEmoji.t → string)
    (c : ICategorySetting.t) (n i : string) (st : Categories.State),
    (ICategorySetting.emoji c = "<:" +:+ n +:+ ":" +:+ i +:+ ">"
     ∧ Categories.colon_free n = true ∧ Categories.colon_free i = true)
    ∨ (Categories.startsWith (ICategorySetting.emoji c) "<:"
       && Categories.endsWith (ICategorySetting.emoji c) ">" = false
       ∧ ICategorySetting.customEmoji c = Some true
       ∧ ICategorySetting.emoji c = i) →
    emojis_cache_get i = None →
    let run := Categories.setCategorySettings emojis_cache_get toString [c] st in
    fst run = Ok tt
    ∧ Categories.getEmoji (ICategorySetting.name c) (snd run)
      = Categories.getEmoji (ICategorySetting.name c) st
    ∧ Categories.warnings (snd run) = Categories.warnings st.
Proof.
  intros cache toString c n i st Hform Hcache run.
  assert (Hp : Categories.parsed_emoji c = Some (i, true)).
  { destruct Hform as [(He & Hn & Hi) | (Hplain & Hflag & He)].
    - by apply (parsed_custom_form c n i).
    - unfold Categories.parsed_emoji. by rewrite Hplain, Hflag, He. }
  destruct (setCategorySettings_one cache toString c st _ _ Hp) as [Hrun _].
  subst run. rewrite Hrun.
  rewrite (setCategorySetting_runs cache toString c st _ _ Hp). cbn [fst snd].
  rewrite Hcache. cbn [fmap option_fmap option_map].
  split; [done|]. split.
  - rewrite getEmoji_set. unfold Categories.getEmoji.
    destruct (Categories.map_get (ICategorySetting.name c) (Categories._categories st))
      as [[s|e]|]; [|done|done].
    destruct (decide (s = "")) as [->|Hs]; [done|].
    unfold Categories.or_emoji, Categories.truthy_emoji.
    by rewrite (truthy_nonempty s Hs).
  - cbn. apply app_nil_r.
Qed.

(** Witness of X19: the category "Fun" holds "X"; the unknown custom emoji
    "<:wave:42>" leaves it. *)
Lemma unknown_custom_emoji_keeps_previous_witness :
  let c := ICategorySetting.mk "Fun" "<:wave:42>" None None in
  let st := Categories.mkState [("Fun", Categories.Text "X")] [] [] in
  Categories.getEmoji "Fun" st = "X"
  ∧ Categories.getEmoji "Fun"
      (snd (Categories.setCategorySettings (λ _, None) GuildEmoji.id [c] st)) = "X".
Proof.
  intros c st. split; [reflexivity|].
  destruct (unknown_custom_emoji_keeps_previous (λ _, None) GuildEmoji.id c
              "wave" "42" st) as (_ & Hsame & _); [|reflexivity|exact Hsame].
  left. by repeat split.
Defined.

(** X20. A custom-form emoji with a single colon, [<:body>], makes
    [setCategorySettings] throw a TypeError at that setting: the settings
    before it have been applied, the setting itself and those after it have
    not. *)
Theorem malformed_custom_emoji_throws :
  ∀ (emojis_cache_get : string → option GuildEmoji.t)
    (toString : GuildEmoji.t → string)
    (c : ICategorySetting.t) (body : string)
    (before after : list ICategorySetting.t) (st st1 : Categories.State),
    ICategorySetting.emoji c = "<:" +:+ body +:+ ">" →
    Categories.colon_free body = true →
    Categories.setCategorySettings emojis_cache_get toString before st = (Ok tt, st1) →
    Categories.setCategorySettings emojis_cache_get toString (before ++ c :: after) st
    = (Throw (mkError WOKCommands.type_error), st1).
Proof.
  intros cache toString c body before after st st1 He Hb Hbefore.
  rewrite setCategorySettings_app, Hbefore.
  cbn [Categories.setCategorySettings]. cbv beta delta [mbind M_bind bind].
  by rewrite (setCategorySetting_throws cache toString c st1
                (parsed_malformed c body He Hb)).
Qed.

(** Witness of X20: "Fun" is registered, "<:x>" throws, "Misc" is not
    reached. *)
Lemma malformed_custom_emoji_throws_witness :
  let before := [ICategorySetting.mk "Fun" "X" None None] in
  let c := ICategorySetting.mk "Bad" "<:x>" None None in
  let after := [ICategorySetting.mk "Misc" "Y" None None] in
  let st := Categories.mkState [] [] [] in
  Categories.colon_free "x" = true
  ∧ Categories.setCategorySettings (λ _, None) GuildEmoji.id (before ++ c :: after) st
    = (Throw (mkError WOKCommands.type_error),
       Categories.mkState [("Fun", Categories.Text "X")] [] []).
Proof.
  intros before c after st. split; [reflexivity|].
  apply (malformed_custom_emoji_throws (λ _, None) GuildEmoji.id c "x" before after st);
    reflexivity.
Defined.

(** X21. [getCategory] answers the last category, in the order of the map,
    whose emoji is loosely equal to the one asked for, not the first; it
    answers the empty string when none is, and for [null]. *)
Theorem getCategory_returns_last_match :
  ∀ (toPrimitive : GuildEmoji.t → string) (st : Categories.State),
    (∀ before k v after emoji,
       Categories._categories st = before ++ (k, v) :: after →
       Categories.loose_eq toPrimitive emoji v = true →
       (∀ kv, kv ∈ after → Categories.loose_eq toPrimitive emoji (snd kv) = false) →
       Categories.getCategory toPrimitive emoji st = k)
    ∧ (∀ emoji,
         (∀ kv, kv ∈ Categories._categories st →
                Categories.loose_eq toPrimitive emoji (snd kv) = false) →
         Categories.getCategory toPrimitive emoji st = "")
    ∧ Categories.getCategory toPrimitive None st = "".
Proof.
  intros toPrimitive st. split; [|split].
  - intros before k v after emoji Hm Hv Hafter.
    unfold Categories.getCategory. rewrite Hm, foldl_app. cbn [foldl snd fst].
    rewrite Hv. by apply getCategory_fold_no_match.
  - intros emoji Hnone. by apply getCategory_fold_no_match.
  - by apply getCategory_fold_no_match.
Qed.

(** Witness of X21: "Fun" and "Misc" both carry "X"; "Misc", the later one,
    is the answer. *)
Lemma getCategory_returns_last_match_witness :
  let st := Categories.mkState
              [("Fun", Categories.Text "X"); ("Misc", Categories.Text "X");
               ("Help", Categories.Text "?")] [] [] in
  Categories.getCategory GuildEmoji.id (Some "X") st = "Misc".
Proof.
  intros st.
  destruct (getCategory_returns_last_match GuildEmoji.id st) as (Hlast & _ & _).
  apply (Hlast [("Fun", Categories.Text "X")] "Misc" (Categories.Text "X")
           [("Help", Categories.Text "?")]); [reflexivity | reflexivity |].
  intros kv ->%list_elem_of_singleton. reflexivity.
Defined.

(** X22. A new category takes an emoji over: after [setCategorySettings]
    with one setting for a category that was not in the map, with a plain,
    non-empty emoji, [getCategory] of that emoji answers the new category,
    also when another category already carried the emoji, in which case a
    warning has been written and both categories carry it. *)
Theorem new_category_takes_emoji_over :
  ∀ (emojis_cache_get : string → option GuildEmoji.t)
    (toPrimitive toString : GuildEmoji.t → string)
    (c : ICategorySetting.t) (st : Categories.State),
    Categories.startsWith (ICategorySetting.emoji c) "<:"
    && Categories.endsWith (ICategorySetting.emoji c) ">" = false →
    default false (ICategorySetting.customEmoji c) = false →
    ICategorySetting.emoji c ≠ "" →
    Categories.map_get (ICategorySetting.name c) (Categories._categories st) = None →
    let run := Categories.setCategorySettings emojis_cache_get toString [c] st in
    Categories.getCategory toPrimitive (Some (ICategorySetting.emoji c)) (snd run)
    = ICategorySetting.name c
    ∧ (∀ other, other ≠ ICategorySetting.name c →
                Categories.getEmoji other (snd run) = Categories.getEmoji other st)
    ∧ (Categories.isEmojiUsed (Some (Categories.Text (ICategorySetting.emoji c))) st
       = true →
       Categories.warnings (snd run)
       = Categories.warnings st
         ++ [Categories.already_used toString
               (Some (Categories.Text (ICategorySetting.emoji c)))
               (ICategorySetting.name c)]).
Proof.
  intros cache toPrimitive toString c st Hform Hflag Hne Hnew run.
  assert (Hp : Categories.parsed_emoji c = Some (ICategorySetting.emoji c, false)).
  { unfold Categories.parsed_emoji. by rewrite Hform, Hflag. }
  destruct (setCategorySettings_one cache toString c st _ _ Hp) as [Hrun _].
  subst run. rewrite Hrun.
  rewrite (setCategorySetting_runs cache toString c st _ _ Hp). cbn [fst snd].
  split; [|split].
  - rewrite (map_set_new _ _ _ Hnew), getCategory_snoc, or_emoji_text by done.
    cbn. by rewrite String.eqb_refl.
  - intros other Hother. by apply getEmoji_set_other.
  - intros Hused. cbn. by rewrite Hused.
Qed.

(** Witness of X22: "Fun" carries "X"; the new category "Misc" is given "X"
    as well. *)
Lemma new_category_takes_emoji_over_witness :
  let c := ICategorySetting.mk "Misc" "X" None None in
  let st := Categories.mkState [("Fun", Categories.Text "X")] [] [] in
  let st' := snd (Categories.setCategorySettings (λ _, None) GuildEmoji.id [c] st) in
  Categories.getCategory GuildEmoji.id (Some "X") st = "Fun"
  ∧ Categories.getCategory GuildEmoji.id (Some "X") st' = "Misc"
  ∧ Categories.getEmoji "Fun" st' = "X"
  ∧ length (Categories.warnings st') = 1.
Proof.
  intros c st st'. split; [reflexivity|].
  destruct (new_category_takes_emoji_over (λ _, None) GuildEmoji.id GuildEmoji.id c st
              eq_refl eq_refl) as (Htake & Hother & Hwarn);
    [discriminate | reflexivity |].
  split; [exact Htake|]. split.
  - subst st'. rewrite Hother; [reflexivity | discriminate].
  - subst st'. rewrite Hwarn; reflexivity.
Defined.

(* ===================================================================== *)
(** * Properties of the commands *)
(* ===================================================================== *)

Section CommandProperties.
Import Commands.
Context {B H Msg : Type}.
Variable messageHandler : MessageHandler.t H Msg.
Variable toLowerCase : string → string.
Implicit Types (st : State B H).

Lemma state_eta st : mkState (instance st) (handler st) (emitted st) = st.
Proof. by destruct st. Qed.

Lemma reply_run guild messageId args st :
  reply messageHandler guild messageId args st
  = (Ok (MessageHandler.get messageHandler guild messageId args (handler st)), st).
Proof. reflexivity. Qed.

Lemma length_zero_iff_nil (args : list string) :
  Nat.eqb (length args) 0 = true ↔ args = [].
Proof. destruct args; cbn; split; intros; (done || discriminate). Qed.

End CommandProperties.

Section SetPrefixSuccess.
Import WOKCommands.
Context {B : Type}.

(** A successful [setPrefix] on a guild ended with the one [save] call it
    made, preceded by at most the [findOne] of the guild, and left the value
    that [save] returned in the cache. *)
Lemma setPrefix_success (g : Guild.t) (prefix : string) (st : State B) :
  fst (setPrefix (Some g) prefix st) = Ok tt →
  ∃ gs updated l,
    log (snd (setPrefix (Some g) prefix st)) = log st ++ l ++ [Save gs]
    ∧ (l = [] ∨ l = [FindOne (Guild.id g)])
    ∧ guildSettings (snd (setPrefix (Some g) prefix st)) !! Guild.id g = Some updated.
Proof.
  unfold setPrefix. cbv beta delta [mbind M_bind bind].
  assert (Hres : ∀ gs st1,
    getOrCreateGuildSettings (Guild.id g) st = (Ok gs, st1) →
    ∃ l, log st1 = log st ++ l ∧ (l = [] ∨ l = [FindOne (Guild.id g)])).
  { intros gs st1 Hrun.
    destruct (getOrCreateGuildSettings_result (Guild.id g) st)
      as [(gs' & _ & H) | [(_ & e & st' & H & _) | (_ & gs' & st' & H & _ & Hlog)]];
      rewrite H in Hrun; try discriminate; injection Hrun as <- <-.
    - exists []. rewrite app_nil_r. auto.
    - exists [FindOne (Guild.id g)]. auto. }
  destruct (getOrCreateGuildSettings (Guild.id g) st) as [[gs|e] st1];
    [|discriminate].
  destruct (Hres gs st1 eq_refl) as (l & Hl & Hcases). clear Hres.
  unfold aggregate_setPrefix, deref. cbv beta delta [mbind M_bind bind modify].
  destruct (heap (world st1) !! gs) as [a|]; [|discriminate].
  match goal with
  | |- context [guildSettingsRepository ?s] =>
      destruct (guildSettingsRepository_result s)
        as [[_ ->] | [(_ & _ & ->) | (_ & repository & _ & ->)]]
  end; try discriminate.
  unfold call. cbn [this world log].
  destruct (IGuildSettingsRepository.save repository gs _) as [[updated|e] w2];
    [|discriminate].
  intros _. exists gs, updated, l. cbn. rewrite Hl, <- app_assoc.
  split; [done|]. split; [done|].
  unfold guildSettings. cbn. apply lookup_insert_eq.
Qed.

End SetPrefixSuccess.

(** X23. The prefix command changes nothing in three cases, and answers
    without raising an error: without arguments it reports the current
    prefix of the guild (the default one in a direct message); with
    arguments but no guild it answers that the prefix cannot be set in
    direct messages; with arguments and a guild but no connected database it
    answers that no database was found, and [setPrefix] is not called. *)
Theorem prefix_command_without_effect :
  ∀ (B H Msg : Type) (messageHandler : MessageHandler.t H Msg)
    (guild : option Guild.t) (args : list string) (text : string)
    (st : Commands.State B H),
    (args = [] →
     Commands.prefix_callback messageHandler guild args text st
     = (Ok (MessageHandler.get messageHandler guild "CURRENT_PREFIX"
              [("PREFIX", WOKCommands.getPrefix guild (Commands.instance st))]
              (Commands.handler st)),
        st))
    ∧ (args ≠ [] → guild = None →
       Commands.prefix_callback messageHandler guild args text st
       = (Ok (MessageHandler.get messageHandler None "CANNOT_SET_PREFIX_IN_DMS" []
                (Commands.handler st)),
          st))
    ∧ (args ≠ [] → is_Some guild →
       WOKCommands.isDBConnected (Commands.instance st) = false →
       Commands.prefix_callback messageHandler guild args text st
       = (Ok (MessageHandler.get messageHandler guild "NO_DATABASE_FOUND" []
                (Commands.handler st)),
          st)).
Proof.
  intros B H Msg mh guild args text st. unfold Commands.prefix_callback.
  split; [|split].
  - intros ->. reflexivity.
  - intros Hargs ->.
    destruct (Nat.eqb (length args) 0) eqn:Hlen;
      [by apply length_zero_iff_nil in Hlen | reflexivity].
  - intros Hargs [g ->] Hd.
    destruct (Nat.eqb (length args) 0) eqn:Hlen;
      [by apply length_zero_iff_nil in Hlen|].
    cbv beta delta [mbind M_bind bind gets]. by rewrite Hd.
Qed.

(** Witness of X23: the command with an argument, in a guild, on an
    instance without a database. *)
Lemma prefix_command_without_effect_witness :
  let mh : MessageHandler.t unit string :=
    MessageHandler.mk (λ _ messageId _ _, messageId) (λ _ _, "english")
                      (λ _, ["english"]) (λ _ _, mret tt) in
  let st := Commands.mkState (InMemory.start InMemory.empty) tt [] in
  ["?"] ≠ []
  ∧ WOKCommands.isDBConnected (Commands.instance st) = false
  ∧ Commands.prefix_callback mh (Some (Guild.mk "g1")) ["?"] "?" st
    = (Ok "NO_DATABASE_FOUND", st).
Proof.
  intros mh st. split; [discriminate|]. split; [reflexivity|].
  destruct (prefix_command_without_effect _ _ _ mh (Some (Guild.mk "g1")) ["?"] "?" st)
    as (_ & _ & Hnodb).
  apply Hnodb; [discriminate | by eexists | reflexivity].
Defined.

(** X24. With arguments, a guild and a connected database, the prefix
    command is [setPrefix(guild, text)]: it answers SET_PREFIX with [text]
    exactly when [setPrefix] succeeds and fails with the error of
    [setPrefix] otherwise; the instance is left as [setPrefix] left it, and
    the message handler and the emitted events are never touched.  So an
    answer means that [save] was called, as the last repository call and
    after at most the [findOne] of the guild, and that the cache holds an
    aggregate for the guild. *)
Theorem prefix_command_sets_prefix :
  ∀ (B H Msg : Type) (messageHandler : MessageHandler.t H Msg)
    (g : Guild.t) (args : list string) (text : string) (st : Commands.State B H),
    args ≠ [] →
    WOKCommands.isDBConnected (Commands.instance st) = true →
    let set := WOKCommands.setPrefix (Some g) text (Commands.instance st) in
    let run := Commands.prefix_callback messageHandler (Some g) args text st in
    snd run = Commands.mkState (snd set) (Commands.handler st) (Commands.emitted st)
    ∧ fst run
      = match fst set with
        | Ok _ => Ok (MessageHandler.get messageHandler (Some g) "SET_PREFIX"
                        [("PREFIX", text)] (Commands.handler st))
        | Throw e => Throw e
        end
    ∧ (is_ok (fst run) = true →
       ∃ gs updated l,
         WOKCommands.log (Commands.instance (snd run))
         = WOKCommands.log (Commands.instance st) ++ l ++ [WOKCommands.Save gs]
         ∧ (l = [] ∨ l = [WOKCommands.FindOne (Guild.id g)])
         ∧ WOKCommands.guildSettings (Commands.instance (snd run)) !! Guild.id g
           = Some updated).
Proof.
  intros B H Msg mh g args text st Hargs Hc set run. subst set run.
  pose proof (setPrefix_success g text (Commands.instance st)) as Hsuccess.
  unfold Commands.prefix_callback.
  destruct (Nat.eqb (length args) 0) eqn:Hlen;
    [by apply length_zero_iff_nil in Hlen|].
  cbv beta delta [mbind M_bind bind gets]. rewrite Hc. cbn [negb].
  unfold Commands.on_instance.
  destruct (WOKCommands.setPrefix (Some g) text (Commands.instance st))
    as [[[]|e] i']; cbn in *; (split; [done|]); (split; [done|]);
    [intros _; by apply Hsuccess | discriminate].
Qed.

(** Witness of X24: the prefix of the cached guild "g1" set to "%" through
    the command. *)
Lemma prefix_command_sets_prefix_witness :
  let mh : MessageHandler.t unit string :=
    MessageHandler.mk (λ _ messageId _ _, messageId) (λ _ _, "english")
                      (λ _, ["english"]) (λ _ _, mret tt) in
  let i := snd (WOKCommands.setUp InMemory.mongoBackend
                  (Some WOKCommands.DiscordClient)
                  (Some (InMemory.options (MONGOOSE (Some "mongodb://localhost/bot"))))
                  (InMemory.start InMemory.with_g1)) in
  let st := Commands.mkState i tt [] in
  let run := Commands.prefix_callback mh (Some (Guild.mk "g1")) ["%"] "%" st in
  ["%"] ≠ []
  ∧ WOKCommands.isDBConnected i = true
  ∧ fst run = Ok "SET_PREFIX"
  ∧ WOKCommands.getPrefix (Some (Guild.mk "g1")) (Commands.instance (snd run)) = "%".
Proof.
  intros mh i st run. split; [discriminate|]. split; [reflexivity|].
  destruct (prefix_command_sets_prefix _ _ _ mh (Guild.mk "g1") ["%"] "%" st)
    as (Hstate & Hreply & _); [discriminate | reflexivity |].
  subst run. rewrite Hreply, Hstate. split; reflexivity.
Defined.

(** X25. The language command never changes the instance.  Without a guild
    it returns nothing; without a connected database it answers that no
    database was found, also when no language was given, and nothing
    changes.  The language of the message handler changes through
    [setLanguage] only, called with the lower-cased text, and only when the
    database is connected and that text is not empty and is one of
    [languages()]; an event is emitted only when it is not. *)
Theorem language_command_gates :
  ∀ (B H Msg : Type) (messageHandler : MessageHandler.t H Msg)
    (toLowerCase : string → string)
    (guild : option Guild.t) (text : string) (st : Commands.State B H),
    let run := Commands.language_callback messageHandler toLowerCase guild text st in
    let lang := toLowerCase text in
    let supported :=
      existsb (String.eqb lang)
              (MessageHandler.languages messageHandler (Commands.handler st)) in
    Commands.instance (snd run) = Commands.instance st
    ∧ (guild = None → run = (Ok None, st))
    ∧ (is_Some guild →
       WOKCommands.isDBConnected (Commands.instance st) = false →
       run = (Ok (Some (MessageHandler.get messageHandler guild "NO_DATABASE_FOUND" []
                          (Commands.handler st))), st))
    ∧ (Commands.handler (snd run) = Commands.handler st
       ∨ ∃ g, guild = Some g
              ∧ WOKCommands.isDBConnected (Commands.instance st) = true
              ∧ lang ≠ ""
              ∧ supported = true
              ∧ Commands.handler (snd run)
                = snd (MessageHandler.setLanguage messageHandler g lang
                         (Commands.handler st)))
    ∧ (Commands.emitted (snd run) = Commands.emitted st
       ∨ ∃ g, guild = Some g
              ∧ WOKCommands.isDBConnected (Commands.instance st) = true
              ∧ lang ≠ ""
              ∧ supported = false
              ∧ Commands.emitted (snd run)
                = Commands.emitted st ++ [(Commands.LANGUAGE_NOT_SUPPORTED, g, lang)]).
Proof.
  intros B H Msg mh toLowerCase guild text st run lang supported.
  subst run. unfold Commands.language_callback.
  destruct guild as [g|].
  2: { split; [done|]. split; [done|]. split; [by intros [? [=]]|].
       split; by left. }
  cbv beta zeta delta [mbind M_bind bind gets Commands.replied mret M_ret ret
                       Commands.reply modify].
  destruct (WOKCommands.isDBConnected (Commands.instance st)) eqn:Hc; cbn [negb].
  2: { split; [done|]. split; [by intros [=]|]. split; [done|]. split; by left. }
  fold lang.
  destruct (decide (lang = "")) as [Hempty|Hne].
  { rewrite Hempty. cbn.
    split; [done|]. split; [by intros [=]|]. split; [by intros _ [=]|].
    split; by left. }
  rewrite (truthy_nonempty lang Hne). cbn [negb]. fold supported.
  destruct supported eqn:Hs; cbn [negb].
  - unfold Commands.on_handler.
    destruct (MessageHandler.setLanguage mh g lang (Commands.handler st))
      as [[[]|e] h'] eqn:Hset; cbn;
      (split; [done|]); (split; [by intros [=]|]); (split; [by intros _ [=]|]);
      (split; [right; exists g; by rewrite Hset | by left]).
  - cbn. split; [done|]. split; [by intros [=]|]. split; [by intros _ [=]|].
    split; [by left|]. right. by exists g.
Qed.

(** Witness of X25: a message handler that knows "english" and "spanish"
    and records the language set; "SPANISH" is accepted as "spanish" when a
    lower-casing function maps it there, on an instance with a connected
    database. *)
Lemma language_command_gates_witness :
  let mh : MessageHandler.t string string :=
    MessageHandler.mk (λ _ messageId _ _, messageId) (λ _ h, h)
                      (λ _, ["english"; "spanish"])
                      (λ _ lang _, (Ok tt, lang)) in
  let lower := λ s : string, if String.eqb s "SPANISH" then "spanish" else s in
  let i := snd (WOKCommands.setUp InMemory.mongoBackend
                  (Some WOKCommands.DiscordClient)
                  (Some (InMemory.options (MONGOOSE (Some "mongodb://localhost/bot"))))
                  (InMemory.start InMemory.with_g1)) in
  let st := Commands.mkState i "english" [] in
  Commands.language_callback mh lower (Some (Guild.mk "g1")) "SPANISH" st
  = (Ok (Some "NEW_LANGUAGE"), Commands.mkState i "spanish" [])
  ∧ Commands.instance
      (snd (Commands.language_callback mh lower (Some (Guild.mk "g1")) "SPANISH" st))
    = i.
Proof.
  intros mh lower i st. split; [reflexivity|].
  apply (language_command_gates _ _ _ mh lower (Some (Guild.mk "g1")) "SPANISH" st).
Defined.
